(** * A shallow embedding of [comQ_Batch_VIDS_downloader.py]

    The development follows the download engine of the script:
    [sanitize_filename] (the file name derived from a URL),
    [download_video] (one streamed download into the target folder) and
    [download_videos_concurrently] (the thread pool that runs the downloads
    and counts the successful ones), and the calls of [download_video] that
    the pool runs at the same time, step by step; then the steps around it:
    [save_page_source], [extract_video_links_from_html],
    [save_videos_to_html], [ask_user_to_download_video] and the main block.

    Python [str] values are modelled as Rocq [string]s holding the UTF-8
    encoding of the text; every character the script inspects is ASCII, so
    searching, splitting and replacing act on bytes exactly as they act on
    code points.  Paths follow [posixpath]. *)

From Stdlib Require Import ZArith Ascii String.
From stdpp Require Import base tactics option list numbers strings pretty gmap fin_maps fin_sets.

Local Open Scope string_scope.

(** ** Python string primitives *)

Module PyStr.

(** [s[n:]] for a non-negative [n] *)
Fixpoint drop (n : nat) (s : string) : string :=
  match n, s with
  | O, _ => s
  | S _, EmptyString => EmptyString
  | S n', String _ s' => drop n' s'
  end.

(** [s[:n]] for a non-negative [n] *)
Fixpoint take (n : nat) (s : string) : string :=
  match n, s with
  | O, _ => EmptyString
  | S _, EmptyString => EmptyString
  | S n', String c s' => String c (take n' s')
  end.

(** [s.startswith(p)] *)
Fixpoint startswith (p s : string) : bool :=
  match p, s with
  | EmptyString, _ => true
  | String _ _, EmptyString => false
  | String a p', String b s' => if Ascii.eqb a b then startswith p' s' else false
  end.

(** [sub in s] *)
Fixpoint contains (sub s : string) : bool :=
  startswith sub s ||
  match s with
  | EmptyString => false
  | String _ s' => contains sub s'
  end.

(** [c in s] for a single character *)
Fixpoint mem (c : ascii) (s : string) : bool :=
  match s with
  | EmptyString => false
  | String a s' => Ascii.eqb a c || mem c s'
  end.

(** [s.find(c)]: index of the first [c], or -1 *)
Fixpoint find (c : ascii) (s : string) : Z :=
  match s with
  | EmptyString => (-1)%Z
  | String a s' =>
      if Ascii.eqb a c then 0%Z
      else let i := find c s' in if (i <? 0)%Z then (-1)%Z else (i + 1)%Z
  end.

(** [s.rfind(c)]: index of the last [c], or -1 *)
Fixpoint rfind (c : ascii) (s : string) : Z :=
  match s with
  | EmptyString => (-1)%Z
  | String a s' =>
      let i := rfind c s' in
      if (0 <=? i)%Z then (i + 1)%Z
      else if Ascii.eqb a c then 0%Z else (-1)%Z
  end.

(** [s.replace(old, new)] for a non-empty [old]: the occurrences are found
    left to right and do not overlap.  [skip] counts the characters of a
    match that are still to be passed over. *)
Fixpoint replace_go (old new : string) (skip : nat) (s : string) : string :=
  match s with
  | EmptyString => EmptyString
  | String c s' =>
      match skip with
      | S k => replace_go old new k s'
      | O =>
          if startswith old s
          then new +:+ replace_go old new (String.length old - 1) s'
          else String c (replace_go old new 0 s')
      end
  end.

Definition replace (old new s : string) : string := replace_go old new 0 s.

(** [s.split(c)] for a one-character separator *)
Fixpoint split (c : ascii) (s : string) : list string :=
  match s with
  | EmptyString => [EmptyString]
  | String a s' =>
      if Ascii.eqb a c then EmptyString :: split c s'
      else match split c s' with
           | h :: t => String a h :: t
           | [] => [String a EmptyString]
           end
  end.

(** [s.split(c, 1)] when [c] occurs in [s]: the text before the first [c]
    and the text after it; [None] when the result has one element only. *)
Definition split1 (c : ascii) (s : string) : option (string * string) :=
  let i := find c s in
  if (i <? 0)%Z then None
  else Some (take (Z.to_nat i) s, drop (S (Z.to_nat i)) s).

(** [s.lstrip(chars)] *)
Fixpoint lstrip (chars : ascii -> bool) (s : string) : string :=
  match s with
  | EmptyString => EmptyString
  | String c s' => if chars c then lstrip chars s' else s
  end.

Fixpoint map (f : ascii -> ascii) (s : string) : string :=
  match s with
  | EmptyString => EmptyString
  | String c s' => String (f c) (map f s')
  end.

Fixpoint forallb (f : ascii -> bool) (s : string) : bool :=
  match s with
  | EmptyString => true
  | String c s' => f c && forallb f s'
  end.

Definition code (c : ascii) : nat := nat_of_ascii c.

Definition in_range (lo hi : nat) (c : ascii) : bool :=
  (lo <=? code c)%nat && (code c <=? hi)%nat.

Definition is_upper : ascii -> bool := in_range 65 90.
Definition is_lower : ascii -> bool := in_range 97 122.
Definition is_digit : ascii -> bool := in_range 48 57.
Definition is_alpha (c : ascii) : bool := is_upper c || is_lower c.

Definition lower_char (c : ascii) : ascii :=
  if is_upper c then ascii_of_nat (code c + 32) else c.

(** [str(n)] for a non-negative integer *)
Definition str (n : nat) : string := pretty n.

End PyStr.

(** ** [urllib.parse]: [urlsplit], [unquote], [parse_qsl], [parse_qs] *)

Module UrlParse.
Import PyStr.

Record SplitResult := {
  scheme : string;
  netloc : string;
  path : string;
  query : string;
  fragment : string
}.

(** [_WHATWG_C0_CONTROL_OR_SPACE] *)
Definition c0_control_or_space (c : ascii) : bool := (code c <=? 32)%nat.

(** [_UNSAFE_URL_BYTES_TO_REMOVE]: tab, carriage return, newline *)
Definition unsafe_url_byte (c : ascii) : bool :=
  (code c =? 9)%nat || (code c =? 13)%nat || (code c =? 10)%nat.

Fixpoint remove_chars (f : ascii -> bool) (s : string) : string :=
  match s with
  | EmptyString => EmptyString
  | String c s' => if f c then remove_chars f s' else String c (remove_chars f s')
  end.

(** [scheme_chars]: letters, digits and [+-.] *)
Definition scheme_char (c : ascii) : bool :=
  is_alpha c || is_digit c || mem c "+-.".

(** [_splitnetloc(url, 2)]: the authority ends at the first of [/?#] found
    from index 2 on *)
Definition splitnetloc (url : string) : string * string :=
  let rest := drop 2 url in
  let stop (delim : nat) (c : ascii) : nat :=
    let wdelim := find c rest in
    if (0 <=? wdelim)%Z then Nat.min delim (Z.to_nat wdelim) else delim in
  let delim := stop (stop (stop (String.length rest) "/"%char) "?"%char) "#"%char in
  (take delim rest, drop delim rest).

(** [urlsplit(url)].  The checks of the authority that make [urlsplit]
    raise [ValueError] (unbalanced brackets, a bracketed host that is no
    IP literal, characters that normalise to a delimiter) are left out:
    they do not change the path or the query of an accepted URL, and
    [sanitize_filename] only sees URLs that [requests.get] accepted. *)
Definition urlsplit (url : string) : SplitResult :=
  let url := lstrip c0_control_or_space url in
  let url := remove_chars unsafe_url_byte url in
  let i := find ":"%char url in
  let '(scheme, url) :=
    if (0 <? i)%Z
       && match url with String c _ => is_alpha c | EmptyString => false end
       && forallb scheme_char (take (Z.to_nat i) url)
    then (map lower_char (take (Z.to_nat i) url), drop (S (Z.to_nat i)) url)
    else (EmptyString, url) in
  let '(netloc, url) :=
    if startswith "//" url then splitnetloc url else (EmptyString, url) in
  let '(url, fragment) :=
    match split1 "#"%char url with
    | Some (u, f) => (u, f)
    | None => (url, EmptyString)
    end in
  let '(url, query) :=
    match split1 "?"%char url with
    | Some (u, q) => (u, q)
    | None => (url, EmptyString)
    end in
  {| scheme := scheme; netloc := netloc; path := url;
     query := query; fragment := fragment |}.

(** [_hexdig] *)
Definition hex_value (c : ascii) : option nat :=
  if is_digit c then Some (code c - 48)
  else if in_range 65 70 c then Some (code c - 55)
  else if in_range 97 102 c then Some (code c - 87)
  else None.

Definition is_ascii (c : ascii) : bool := (code c <? 128)%nat.
Definition is_continuation (c : ascii) : bool := in_range 128 191 c.

(** U+FFFD in UTF-8 *)
Definition replacement_character : string :=
  String (ascii_of_nat 239) (String (ascii_of_nat 191) (String (ascii_of_nat 189) EmptyString)).

(** [bytes.decode('utf-8', 'replace')], re-encoded: well-formed sequences
    are kept and every maximal ill-formed part becomes U+FFFD. *)
Fixpoint utf8_replace (bs : list ascii) : string :=
  match bs with
  | [] => EmptyString
  | b :: r1 =>
      let bad := replacement_character in
      if is_ascii b then String b (utf8_replace r1)
      else if (code b <? 194)%nat then bad +:+ utf8_replace r1
      else if (code b <? 224)%nat then
        match r1 with
        | [] => bad
        | b2 :: r2 =>
            if is_continuation b2 then String b (String b2 (utf8_replace r2))
            else bad +:+ utf8_replace r1
        end
      else if (code b <? 240)%nat then
        match r1 with
        | [] => bad
        | b2 :: r2 =>
            if negb (is_continuation b2)
               || (if (code b2 <? 160)%nat then (code b =? 224)%nat else (code b =? 237)%nat)
            then bad +:+ utf8_replace r1
            else match r2 with
                 | [] => bad
                 | b3 :: r3 =>
                     if is_continuation b3
                     then String b (String b2 (String b3 (utf8_replace r3)))
                     else bad +:+ utf8_replace r2
                 end
        end
      else if (code b <? 245)%nat then
        match r1 with
        | [] => bad
        | b2 :: r2 =>
            if negb (is_continuation b2)
               || (if (code b2 <? 144)%nat then (code b =? 240)%nat else (code b =? 244)%nat)
            then bad +:+ utf8_replace r1
            else match r2 with
                 | [] => bad
                 | b3 :: r3 =>
                     if negb (is_continuation b3) then bad +:+ utf8_replace r2
                     else match r3 with
                          | [] => bad
                          | b4 :: r4 =>
                              if is_continuation b4
                              then String b (String b2 (String b3 (String b4 (utf8_replace r4))))
                              else bad +:+ utf8_replace r3
                          end
                 end
        end
      else bad +:+ utf8_replace r1
  end.

(** [unquote(string)]: each run of ASCII characters has its [%xx] escapes
    turned into bytes ([unquote_to_bytes]) and is then decoded; the
    characters outside ASCII are copied.  [run] holds, in reverse, the
    bytes of the current ASCII run. *)
Fixpoint unquote_go (run : list ascii) (s : string) : string :=
  match s with
  | EmptyString => utf8_replace (rev run)
  | String c s1 =>
      if negb (is_ascii c) then utf8_replace (rev run) +:+ String c (unquote_go [] s1)
      else
        match s1 with
        | String h1 (String h2 s3) =>
            match (if Ascii.eqb c "%" then Some tt else None), hex_value h1, hex_value h2 with
            | Some _, Some a, Some b => unquote_go (ascii_of_nat (16 * a + b) :: run) s3
            | _, _, _ => unquote_go (c :: run) s1
            end
        | _ => unquote_go (c :: run) s1
        end
  end.

Definition unquote (s : string) : string := unquote_go [] s.

(** [parse_qsl(qs)] with the defaults [keep_blank_values=False],
    [strict_parsing=False], [separator='&'] *)
Definition parse_qsl (qs : string) : list (string * string) :=
  let query_args := if decide (qs = EmptyString) then [] else split "&"%char qs in
  flat_map
    (fun name_value =>
       if decide (name_value = EmptyString) then []
       else match split1 "="%char name_value with
            | None => []
            | Some (n, v) =>
                if decide (v = EmptyString) then []
                else [(unquote (replace "+" " " n), unquote (replace "+" " " v))]
            end)
    query_args.

(** the body of the loop of [parse_qs] *)
Definition add_value (parsed_result : gmap string (list string))
    (pair : string * string) : gmap string (list string) :=
  let '(name, value) := pair in
  match parsed_result !! name with
  | Some values => <[name := (values ++ [value])%list]> parsed_result
  | None => <[name := [value]]> parsed_result
  end.

(** [parse_qs(qs)]: the values of each name, in order of appearance *)
Definition parse_qs (qs : string) : gmap string (list string) :=
  foldl add_value ∅ (parse_qsl qs).


End UrlParse.

(** ** [os.path] ([posixpath]) *)

Module OsPath.
Import PyStr.

(** [os.path.basename(p)] *)
Definition basename (p : string) : string :=
  let i := (rfind "/"%char p + 1)%Z in
  drop (Z.to_nat i) p.

(** the loop of [genericpath._splitext] that skips leading dots: is there
    a character other than [.] at an index in [filenameIndex, dotIndex)? *)
Definition has_non_dot (p : string) (filenameIndex dotIndex : nat) : bool :=
  negb (forallb (Ascii.eqb "."%char) (take (dotIndex - filenameIndex) (drop filenameIndex p))).

(** [os.path.splitext(p)] *)
Definition splitext (p : string) : string * string :=
  let sepIndex := rfind "/"%char p in
  let dotIndex := rfind "."%char p in
  if (sepIndex <? dotIndex)%Z
     && has_non_dot p (Z.to_nat (sepIndex + 1)) (Z.to_nat dotIndex)
  then (take (Z.to_nat dotIndex) p, drop (Z.to_nat dotIndex) p)
  else (p, EmptyString).

End OsPath.

(** ** Exceptions, the network and the download folder *)

(** The exceptions the script can meet.  [RequestException] stands for every
    instance of [requests.exceptions.RequestException] ([HTTPError],
    [ConnectionError], [ChunkedEncodingError], ...); [OSError] for an
    operating-system error that is no [RequestException]. *)
Inductive exn :=
  | RequestException (msg : string)
  | OSError (msg : string)
  | ValueError (msg : string)
  | IndexError (msg : string)
  | CancelledError.

Definition is_RequestException (e : exn) : bool :=
  match e with
  | RequestException _ => true
  | _ => false
  end.

(** [str(e)] *)
Definition exn_str (e : exn) : string :=
  match e with
  | RequestException m | OSError m | ValueError m | IndexError m => m
  | CancelledError => ""
  end.

(** What [int(...)] makes of the [Content-Length] header: the header is
    missing, its text is the integer [n], or [int] rejects its text. *)
Inductive content_length_header :=
  | CL_absent
  | CL_int (n : Z)
  | CL_invalid (text : string).

(** the number of bytes of a body *)
Definition body_size (cs : list string) : nat := sum_list (String.length <$> cs).

(** A streamed response, as [download_video] observes it. *)
Record Response := {
  status_code : nat;
  reason : string;
  response_url : string;
  content_type : option string;           (* the [Content-Type] header *)
  content_length : content_length_header;
  chunks : list string;                   (* what [iter_content(1024)] yields *)
  stream_error : option string            (* the [RequestException] that ends a broken transfer *)
}.

(** The result of [requests.get(url, headers=..., stream=True)] *)
Inductive fetch :=
  | FetchError (msg : string)             (* a [RequestException] is raised *)
  | FetchOk (r : Response).

(** The world of one run: the network, the download folder ([None] while it
    does not exist, else its entries with their contents), the free space of
    the disk in bytes, and what was printed. *)
Record World := {
  network : string -> fetch;
  folder : option (gmap string string);
  free_space : nat;
  stdout : list string
}.

Definition set_folder (d : option (gmap string string)) (w : World) : World :=
  {| network := network w; folder := d; free_space := free_space w; stdout := stdout w |}.

Definition set_free_space (n : nat) (w : World) : World :=
  {| network := network w; folder := folder w; free_space := n; stdout := stdout w |}.

Definition add_stdout (line : string) (w : World) : World :=
  {| network := network w; folder := folder w; free_space := free_space w;
     stdout := (stdout w ++ [line])%list |}.

(** The entries of the folder (none while it does not exist) *)
Definition entries (w : World) : gmap string string := default ∅ (folder w).

(** [os.path.join(download_folder, name)] for a [name] without [/] names
    the entry [name] of the folder; the empty name, [.] and [..] name the
    folder itself and its parent. *)
Definition names_directory (name : string) : bool :=
  bool_decide (name = "") || bool_decide (name = ".") || bool_decide (name = "..").

(** [os.path.exists(os.path.join(download_folder, name))] *)
Definition entry_exists (w : World) (name : string) : bool :=
  match folder w with
  | None => false
  | Some d => names_directory name || bool_decide (is_Some (d !! name))
  end.

(** ** The monad of the script: state and exceptions *)

Inductive result (A : Type) :=
  | Returned (a : A)
  | Raised (e : exn)
  | Diverged.
Arguments Returned {A} a.
Arguments Raised {A} e.
Arguments Diverged {A}.

Definition M (A : Type) : Type := World -> result A * World.

Definition ret {A} (a : A) : M A := fun w => (Returned a, w).

Definition bind {A B} (m : M A) (k : A -> M B) : M B :=
  fun w =>
    match m w with
    | (Returned a, w') => k a w'
    | (Raised e, w') => (Raised e, w')
    | (Diverged, w') => (Diverged, w')
    end.

Definition raise {A} (e : exn) : M A := fun w => (Raised e, w).

Definition diverge {A} : M A := fun w => (Diverged, w).

(** [try: body  except ...: handler]; the handler decides what it catches *)
Definition try_except {A} (body : M A) (handler : exn -> M A) : M A :=
  fun w =>
    match body w with
    | (Raised e, w') => handler e w'
    | r => r
    end.

Definition get_world : M World := fun w => (Returned w, w).

Definition print (line : string) : M unit := fun w => (Returned tt, add_stdout line w).

Global Instance M_ret : MRet M := @ret.
Global Instance M_bind : MBind M := fun A B k m => bind m k.

(** ** Step 4: [sanitize_filename] *)

(** The character class of the [re.sub] call: the nine characters
    less-than, greater-than, colon, double quote (code 34), slash,
    backslash, bar, question mark and star. *)
Definition invalid_char (c : ascii) : bool :=
  PyStr.mem c "<>:/\|?*" || Ascii.eqb c "034"%char.

Definition replace_invalid_chars (filename : string) : string :=
  PyStr.map (fun c => if invalid_char c then "_"%char else c) filename.

(** The value of [filename] before the sanitization (the [f] parameter or
    the base name of the path) and the sanitization itself, as functions. *)
Definition filename_hint (video_url : string) : string :=
  let parsed_url := UrlParse.urlsplit video_url in
  match UrlParse.parse_qs (UrlParse.query parsed_url) !! "f" with
  | Some (v :: _) => v
  | _ => OsPath.basename (UrlParse.path parsed_url)
  end.


Definition clean_filename (filename : string) : string :=
  replace_invalid_chars (PyStr.replace "%20" "" filename).

Definition sanitize_filename (video_url : string) : M string :=
  let parsed_url := UrlParse.urlsplit video_url in
  let query_params := UrlParse.parse_qs (UrlParse.query parsed_url) in
  filename ←
    match query_params !! "f" return M string with
    | Some (v :: _) => ret v
    | Some [] => raise (IndexError "list index out of range")
    | None => ret (OsPath.basename (UrlParse.path parsed_url))
    end;
  print ("Base filename before sanitization: " +:+ filename) ;;
  let filename := PyStr.replace "%20" "" filename in
  let filename := replace_invalid_chars filename in
  print ("Sanitized filename after removing invalid characters: " +:+ filename) ;;
  ret filename.

(** ** Step 5: [download_video] *)

(** [os.makedirs(download_folder)], called when the test of the line before
    has found the folder missing: the folder is created.  How the call
    fails (the folder has appeared since the test, its name is empty) is
    part of [Calls.makedirs]. *)
Definition os_makedirs : M unit :=
  fun w => (Returned tt, set_folder (Some ∅) w).

(** [requests.get(video_url, headers=headers, stream=True)]: the response
    or the exception that the network has for the URL.  The script sets no
    timeout; a request that is never answered is not represented. *)
Definition requests_get (video_url : string) : M Response :=
  fun w =>
    match network w video_url with
    | FetchError msg => (Raised (RequestException msg), w)
    | FetchOk r => (Returned r, w)
    end.

(** [video_response.raise_for_status()] *)
Definition raise_for_status (r : Response) : M unit :=
  let code := status_code r in
  if (400 <=? code)%nat && (code <? 500)%nat then
    raise (RequestException
             (PyStr.str code +:+ " Client Error: " +:+ reason r +:+ " for url: " +:+ response_url r))
  else if (500 <=? code)%nat && (code <? 600)%nat then
    raise (RequestException
             (PyStr.str code +:+ " Server Error: " +:+ reason r +:+ " for url: " +:+ response_url r))
  else ret tt.

(** [f"{base_name}_{counter}{ext}"] *)
Definition candidate (base_name ext : string) (counter : nat) : string :=
  base_name +:+ "_" +:+ PyStr.str counter +:+ ext.

(** The loop [while os.path.exists(video_path)] of the collision check.
    [fuel] bounds the number of tests of the condition; [None] means that
    the fuel ran out. *)
Fixpoint probe_names (fuel : nat) (path_exists : string -> bool)
    (base_name ext video_name : string) (counter : nat) : option string :=
  match fuel with
  | O => None
  | S fuel' =>
      if path_exists video_name
      then probe_names fuel' path_exists base_name ext
             (candidate base_name ext counter) (S counter)
      else Some video_name
  end.

(** The collision check of [download_video]: the sanitized name when it is
    unused, else the first unused [base_name_counter ext]. *)
Definition unused_name (w : World) (video_name : string) : option string :=
  if entry_exists w video_name then
    let '(base_name, ext) := OsPath.splitext video_name in
    probe_names (2 + size (entries w)) (entry_exists w) base_name ext video_name 1
  else Some video_name.

(** [open(video_path, "wb")] for a name that the file system takes: the file
    is created, or emptied when it exists.  The names that [open] refuses (a
    zero byte, more than 255 bytes) are part of [Calls.open_file]. *)
Definition open_wb (video_name : string) : M unit :=
  fun w =>
    match folder w with
    | None => (Raised (OSError "[Errno 2] No such file or directory"), w)
    | Some d =>
        if names_directory video_name
        then (Raised (OSError "[Errno 21] Is a directory"), w)
        else (Returned tt,
              set_free_space (free_space w + String.length (default "" (d !! video_name)))
                (set_folder (Some (<[video_name := ""]> d)) w))
    end.

(** [video_file.write(chunk)]: the chunk is appended when the disk has room
    for it *)
Definition file_write (video_name chunk : string) : M unit :=
  fun w =>
    if (String.length chunk <=? free_space w)%nat then
      (Returned tt,
       set_free_space (free_space w - String.length chunk)
         (set_folder
            (Some (<[video_name := default "" (entries w !! video_name) +:+ chunk]> (entries w))) w))
    else (Raised (OSError "[Errno 28] No space left on device"), w).

(** [int(video_response.headers.get('Content-Length', 0))] *)
Definition total_size_of (r : Response) : M Z :=
  match content_length r with
  | CL_absent => ret 0%Z
  | CL_int n => ret n
  | CL_invalid text =>
      raise (ValueError ("invalid literal for int() with base 10: '" +:+ text +:+ "'"))
  end.

(** [for chunk in video_response.iter_content(chunk_size=chunk_size):
       video_file.write(chunk)]; the progress bar only draws on [stderr]
    and is left out. *)
Fixpoint write_chunks (video_name : string) (cs : list string) (err : option string) : M unit :=
  match cs with
  | [] =>
      match err with
      | Some msg => raise (RequestException msg)
      | None => ret tt
      end
  | chunk :: cs' => file_write video_name chunk ;; write_chunks video_name cs' err
  end.

(** The last part of [download_video]: the file is opened and the body is
    streamed into it. *)
Definition save_response (video_response : Response)
    (video_name download_folder : string) : M bool :=
  open_wb video_name ;;
  total_size ← total_size_of video_response;
  write_chunks video_name (chunks video_response) (stream_error video_response) ;;
  print ("Saved " +:+ video_name +:+ " to " +:+ download_folder +:+ ".") ;;
  ret true.

(** The Filename Resolver inside [download_video]: the sanitized name of
    the URL, then the collision check against the folder. *)
Definition resolve_filename (video_url : string) : M string :=
  video_name ← sanitize_filename video_url;
  w ← get_world;
  match unused_name w video_name return M string with
  | Some name => ret name
  | None => diverge
  end.

(** The world after the first two lines of [download_video]: the folder
    exists. *)
Definition with_folder (w : World) : World :=
  if bool_decide (is_Some (folder w)) then w else set_folder (Some ∅) w.

(** The [try] block of [download_video] *)
Definition download_attempt (video_url download_folder : string) : M bool :=
  print ("Downloading " +:+ video_url +:+ "...") ;;
  video_response ← requests_get video_url;
  raise_for_status video_response ;;
  let content_type := default "" (content_type video_response) in
  if negb (PyStr.contains "video" content_type) then
    print ("Skipping " +:+ video_url +:+ " (not a video).") ;;
    ret false
  else
    video_name ← resolve_filename video_url;
    save_response video_response video_name download_folder.

(** The clause [except requests.exceptions.RequestException as e]; any
    other exception goes on to the caller. *)
Definition except_RequestException (video_url : string) (e : exn) : M bool :=
  if is_RequestException e then
    print ("Error downloading " +:+ video_url +:+ ": " +:+ exn_str e) ;;
    ret false
  else raise e.

Definition download_video (video_url download_folder : string) : M bool :=
  w0 ← get_world;
  (if negb (bool_decide (is_Some (folder w0))) then os_makedirs else ret tt) ;;
  try_except (download_attempt video_url download_folder)
             (except_RequestException video_url).

(** the bytes of a body, its chunks put end to end *)
Definition join_chunks (cs : list string) : string := foldr String.append "" cs.

(** ** Step 7: [download_videos_concurrently]

    [ThreadPoolExecutor(max_workers=5)] with [executor.map] is a transition
    system: the main thread submits one work item per URL, then takes the
    results in submission order and counts the successful ones; worker
    threads take work items off the queue and run them.  A call of
    [download_video] acts on the world at the instant it completes: this
    serves for the bookkeeping of the pool (the futures, the threads, the
    count).  How the calls that run at the same time interleave on the
    download folder is followed in [Calls]. *)

Module Pool.

Definition max_workers : nat := 5.

(** The state of a [Future] *)
Inductive future :=
  | Pending
  | Running
  | Cancelled
  | Finished (r : result bool).

(** A worker thread: blocked in [work_queue.get], holding the work item
    it took off the queue, or inside the call of [download_video]. *)
Inductive thread :=
  | Idle
  | Holding (i : nat)
  | Busy (i : nat).

(** The main thread: in the submissions of [executor.map], in the [for]
    loop (waiting for the result of future [n], with the count so far),
    leaving the [with] block ([shutdown(wait=True)]), or returned. *)
Inductive main_pc :=
  | Submitting (n : nat)
  | Iterating (n downloaded_count : nat)
  | Exiting (r : result nat)
  | Done (r : result nat).

Record state := {
  selected_videos : list string;
  download_folder : string;
  main : main_pc;
  futures : list future;       (* [fs], in submission order *)
  work_queue : list nat;       (* the queued work items, by index *)
  idle_semaphore : nat;
  threads : list thread;
  world : World
}.

Definition set_main (pc : main_pc) (s : state) : state :=
  {| selected_videos := selected_videos s; download_folder := download_folder s;
     main := pc; futures := futures s; work_queue := work_queue s;
     idle_semaphore := idle_semaphore s; threads := threads s; world := world s |}.

Definition set_futures (fs : list future) (s : state) : state :=
  {| selected_videos := selected_videos s; download_folder := download_folder s;
     main := main s; futures := fs; work_queue := work_queue s;
     idle_semaphore := idle_semaphore s; threads := threads s; world := world s |}.

Definition set_work_queue (q : list nat) (s : state) : state :=
  {| selected_videos := selected_videos s; download_folder := download_folder s;
     main := main s; futures := futures s; work_queue := q;
     idle_semaphore := idle_semaphore s; threads := threads s; world := world s |}.

Definition set_idle_semaphore (n : nat) (s : state) : state :=
  {| selected_videos := selected_videos s; download_folder := download_folder s;
     main := main s; futures := futures s; work_queue := work_queue s;
     idle_semaphore := n; threads := threads s; world := world s |}.

Definition set_threads (ts : list thread) (s : state) : state :=
  {| selected_videos := selected_videos s; download_folder := download_folder s;
     main := main s; futures := futures s; work_queue := work_queue s;
     idle_semaphore := idle_semaphore s; threads := ts; world := world s |}.

Definition set_world (w : World) (s : state) : state :=
  {| selected_videos := selected_videos s; download_folder := download_folder s;
     main := main s; futures := futures s; work_queue := work_queue s;
     idle_semaphore := idle_semaphore s; threads := threads s; world := w |}.

(** [_adjust_thread_count]: an idle thread is claimed if there is one,
    else a new thread is started while fewer than [max_workers] exist. *)
Definition adjust_thread_count (s : state) : state :=
  match idle_semaphore s with
  | S n => set_idle_semaphore n s
  | O =>
      if (length (threads s) <? max_workers)%nat
      then set_threads (threads s ++ [Idle])%list s
      else s
  end.

(** [executor.submit]: a new future, its work item queued *)
Definition submit (s : state) : state :=
  let i := length (futures s) in
  adjust_thread_count
    (set_work_queue (work_queue s ++ [i])%list
       (set_futures (futures s ++ [Pending])%list s)).

(** [future.cancel()]: only a pending future is cancelled *)
Definition cancel (f : future) : future :=
  match f with
  | Pending => Cancelled
  | _ => f
  end.

(** the [finally] of [result_iterator]: the futures after [n] are cancelled
    (one after the other in [executor.map], here in the step of the main
    thread that takes the exception) *)
Definition cancel_after (n : nat) (fs : list future) : list future :=
  (take (S n) fs ++ (cancel <$> drop (S n) fs))%list.

Definition is_idle (t : thread) : bool :=
  match t with
  | Idle => true
  | _ => false
  end.

Definition main_step (s : state) : option state :=
  match main s with
  | Submitting n =>
      match selected_videos s !! n with
      | Some _ => Some (set_main (Submitting (S n)) (submit s))
      | None => Some (set_main (Iterating 0 0) s)
      end
  | Iterating n downloaded_count =>
      match futures s !! n with
      | None => Some (set_main (Exiting (Returned downloaded_count)) s)
      | Some (Finished (Returned success)) =>
          Some (set_main
                  (Iterating (S n) (if success then S downloaded_count else downloaded_count)) s)
      | Some (Finished (Raised e)) =>
          Some (set_main (Exiting (Raised e)) (set_futures (cancel_after n (futures s)) s))
      | Some Cancelled =>
          Some (set_main (Exiting (Raised CancelledError))
                  (set_futures (cancel_after n (futures s)) s))
      | Some (Finished Diverged) | Some Pending | Some Running => None
      end
  | Exiting r =>
      match work_queue s with
      | [] => if forallb is_idle (threads s) then Some (set_main (Done r) s) else None
      | _ :: _ => None
      end
  | Done _ => None
  end.

(** One step of worker thread [k] ([_worker] and [_WorkItem.run]).  A work
    item whose future is cancelled is dropped; [set_result] and
    [set_exception] apply to a running future. *)
Definition worker_step (k : nat) (s : state) : option state :=
  match threads s !! k with
  | None => None
  | Some Idle =>
      match work_queue s with
      | i :: q => Some (set_threads (<[k := Holding i]> (threads s)) (set_work_queue q s))
      | [] => None
      end
  | Some (Holding i) =>
      match futures s !! i with
      | Some Pending =>
          Some (set_threads (<[k := Busy i]> (threads s))
                  (set_futures (<[i := Running]> (futures s)) s))
      | Some Cancelled =>
          Some (set_idle_semaphore (S (idle_semaphore s))
                  (set_threads (<[k := Idle]> (threads s)) s))
      | _ => None
      end
  | Some (Busy i) =>
      match futures s !! i, selected_videos s !! i with
      | Some Running, Some video_url =>
          match download_video video_url (download_folder s) (world s) with
          | (Diverged, _) => None
          | (r, w') =>
              Some (set_world w'
                      (set_idle_semaphore (S (idle_semaphore s))
                         (set_threads (<[k := Idle]> (threads s))
                            (set_futures (<[i := Finished r]> (futures s)) s))))
          end
      | _, _ => None
      end
  end.

Inductive action :=
  | Main
  | Worker (k : nat).

Definition step (a : action) (s : state) : option state :=
  match a with
  | Main => main_step s
  | Worker k => worker_step k s
  end.

(** A schedule is the list of the threads that move, in order. *)
Fixpoint run (schedule : list action) (s : state) : option state :=
  match schedule with
  | [] => Some s
  | a :: schedule' =>
      match step a s with
      | Some s' => run schedule' s'
      | None => None
      end
  end.

(** The call [download_videos_concurrently(selected_videos, download_folder)]
    in world [w], before its first step. *)
Definition download_videos_concurrently
    (selected_videos : list string) (download_folder : string) (w : World) : state :=
  {| selected_videos := selected_videos; download_folder := download_folder;
     main := Submitting 0; futures := []; work_queue := [];
     idle_semaphore := 0; threads := []; world := w |}.

(** The downloads in flight: the worker threads inside [download_video] *)
Definition is_busy (t : thread) : bool :=
  match t with
  | Busy _ => true
  | _ => false
  end.

Definition in_flight (s : state) : nat := length (filter is_busy (threads s)).

(** The number of futures that hold the result [True] *)
Definition is_success (f : future) : bool :=
  match f with
  | Finished (Returned true) => true
  | _ => false
  end.

Definition successes (fs : list future) : nat := length (filter is_success fs).

(** The number of futures that hold the result [False] *)
Definition is_failure (f : future) : bool :=
  match f with
  | Finished (Returned false) => true
  | _ => false
  end.

Definition failures (fs : list future) : nat := length (filter is_failure fs).

(** A future that holds a returned value *)
Definition returned (f : future) : Prop := exists b : bool, f = Finished (Returned b).

End Pool.

(** ** Invariants used in the proofs *)

(** no name of the dictionary has an empty list of values *)
Definition no_empty_values (m : gmap string (list string)) : Prop :=
  forall k, m !! k <> Some [].

Module PoolInvariants.
Import Pool.

(** What the main thread knows: while it submits, one future per task
    submitted; in the loop, the results taken so far are all returned
    values and the count is the number of [True] among them; when it
    leaves with a count, that holds of all futures. *)
Definition main_invariant (s : state) : Prop :=
  match main s with
  | Submitting n => length (futures s) = n /\ n <= length (selected_videos s)
  | Iterating n downloaded_count =>
      length (futures s) = length (selected_videos s)
      /\ n <= length (futures s)
      /\ Forall returned (take n (futures s))
      /\ downloaded_count = successes (take n (futures s))
  | Exiting (Returned downloaded_count) | Done (Returned downloaded_count) =>
      length (futures s) = length (selected_videos s)
      /\ Forall returned (futures s)
      /\ downloaded_count = successes (futures s)
  | Exiting _ | Done _ => True
  end.

(** the world satisfies [W], and every finished future holds the outcome
    of a call of [download_video] on its own URL in a world that satisfies
    [W] *)
Definition outcomes_invariant (W : World -> Prop) (s : state) : Prop :=
  W (world s)
  /\ forall i r, futures s !! i = Some (Finished r) ->
       exists video_url w,
         W w
         /\ selected_videos s !! i = Some video_url
         /\ fst (download_video video_url (download_folder s) w) = r.



(** the worker threads are idle, and there is one *)
Definition workers_idle (s : state) : Prop :=
  exists ts, threads s = Idle :: ts /\ Forall (fun t => t = Idle) ts.

(** after [k] submissions, no worker having moved *)
Definition submitted (vids : list string) (dl_folder : string) (w : World)
    (k : nat) (s : state) : Prop :=
  main s = Submitting k
  /\ selected_videos s = vids /\ download_folder s = dl_folder
  /\ futures s = replicate k Pending
  /\ work_queue s = seq 0 k
  /\ idle_semaphore s = 0
  /\ Forall (fun t => t = Idle) (threads s)
  /\ (0 < k -> threads s <> [])
  /\ world s = w.

(** in the loop, before the result of task [i] is taken, the tasks from [i]
    on not yet started *)
Definition looping (vids : list string) (dl_folder : string) (i : nat) (s : state) : Prop :=
  (exists c, main s = Iterating i c)
  /\ selected_videos s = vids /\ download_folder s = dl_folder
  /\ length (futures s) = length vids
  /\ (forall j, i <= j < length vids -> futures s !! j = Some Pending)
  /\ work_queue s = seq i (length vids - i)
  /\ workers_idle s.

(** leaving the [with] block, the queued work items all cancelled *)
Definition draining (s : state) : Prop :=
  (exists r, main s = Exiting r)
  /\ (forall j, j ∈ work_queue s -> futures s !! j = Some Cancelled)
  /\ workers_idle s.

(** the work item a thread has in hand *)
Definition held (t : thread) : option nat :=
  match t with
  | Idle => None
  | Holding i | Busy i => Some i
  end.

Definition waiting (f : future) : Prop := f = Pending \/ f = Cancelled.

(** Every work item is in one place: in the queue once, or in the hand of
    one thread; the future of a queued or held item is pending or cancelled,
    the future of an item that is being run is running; there are no more
    futures than tasks. *)
Definition workers_invariant (s : state) : Prop :=
  NoDup (work_queue s)
  /\ (forall k k' t t' i,
        threads s !! k = Some t -> threads s !! k' = Some t' ->
        held t = Some i -> held t' = Some i -> k = k')
  /\ (forall k t i, threads s !! k = Some t -> held t = Some i -> i ∉ work_queue s)
  /\ (forall i, i ∈ work_queue s -> exists f, futures s !! i = Some f /\ waiting f)
  /\ (forall k i, threads s !! k = Some (Holding i) ->
        exists f, futures s !! i = Some f /\ waiting f)
  /\ (forall k i, threads s !! k = Some (Busy i) -> futures s !! i = Some Running)
  /\ length (futures s) <= length (selected_videos s).

End PoolInvariants.

(** ** Progress of the thread pool *)

Module PoolProgress.
Import Pool PoolInvariants.

(** Every future that is not settled is in the hands of the pool: a pending
    one is queued or held by a thread, a running one is run by a thread;
    there is a thread as soon as there is a future; and once the main thread
    has left, the queue is empty and every thread is idle. *)
Definition progress_invariant (s : state) : Prop :=
  (forall i, futures s !! i = Some Pending ->
     i ∈ work_queue s \/ exists k, threads s !! k = Some (Holding i))
  /\ (forall i, futures s !! i = Some Running -> exists k, threads s !! k = Some (Busy i))
  /\ (futures s = [] \/ threads s <> [])
  /\ (idle_semaphore s = 0 \/ threads s <> [])
  /\ (forall r, main s = Done r ->
        work_queue s = [] /\ Forall (fun t => t = Idle) (threads s)).






End PoolProgress.

(** ** Calls of [download_video] that run at the same time

    The worker threads of the pool run their calls of [download_video] side
    by side, on one download folder.  Here a call is followed from one
    access to the folder to the next: the test of the folder, [os.makedirs],
    each test of [os.path.exists] in the collision check, the [open] and
    each [write] are steps of their own, and between two steps of a call
    the other calls may take theirs.  (The pool lets at most five calls be
    under way at once; the schedules here are not held to that, so what
    holds of every schedule holds of those of the pool.)  What a step does
    to the world is what the same lines do in [download_video]; in addition
    [os.makedirs] and [open] fail here as they do on the file system when
    the folder has appeared meanwhile, when the folder name is empty, and
    when the file name holds a zero byte or is longer than the file system
    takes. *)

Module Calls.

(** the longest file name that the file system takes, in bytes ([NAME_MAX]) *)
Definition name_max : nat := 255.

(** the zero byte *)
Definition nul : ascii := "000"%char.

(** a file name that [open] takes: no zero byte, at most [name_max] bytes *)
Definition accepted_name (video_name : string) : bool :=
  negb (PyStr.mem nul video_name) && (String.length video_name <=? name_max)%nat.

(** Where a call of [download_video] stands: before the test of the folder,
    before [os.makedirs], at the start of the [try] block, before the [if]
    of the collision check, before a test of its [while] loop, before
    [open], in the loop over the chunks (with the position of the file
    object and the chunks still to come), or over. *)
Inductive call :=
  | AtFolderTest
  | AtMakedirs
  | AtRequest
  | AtFirstTest (video_response : Response) (video_name : string)
  | AtLoopTest (video_response : Response) (base_name ext video_name : string) (counter : nat)
  | AtOpen (video_response : Response) (video_name : string)
  | AtWrite (video_response : Response) (video_name : string) (position : nat)
      (rest : list string)
  | Over (r : result bool).

(** [if not os.path.exists(download_folder)]; the empty path never exists *)
Definition folder_test (download_folder : string) : M call :=
  w ← get_world;
  ret (if negb (bool_decide (download_folder = "")) && bool_decide (is_Some (folder w))
       then AtRequest else AtMakedirs).

(** [os.makedirs(download_folder)]: [FileNotFoundError] for the empty path,
    [FileExistsError] when the folder is there *)
Definition makedirs (download_folder : string) : M unit :=
  fun w =>
    if bool_decide (download_folder = "") then
      (Raised (OSError "[Errno 2] No such file or directory: ''"), w)
    else
      match folder w with
      | Some _ =>
          (Raised (OSError ("[Errno 17] File exists: '" +:+ download_folder +:+ "'")), w)
      | None => (Returned tt, set_folder (Some ∅) w)
      end.

(** The [try] block from its first line to the sanitized name *)
Definition request (video_url : string) : M call :=
  print ("Downloading " +:+ video_url +:+ "...") ;;
  video_response ← requests_get video_url;
  raise_for_status video_response ;;
  let content_type := default "" (content_type video_response) in
  if negb (PyStr.contains "video" content_type) then
    print ("Skipping " +:+ video_url +:+ " (not a video).") ;;
    ret (Over (Returned false))
  else
    video_name ← sanitize_filename video_url;
    ret (AtFirstTest video_response video_name).

(** [if os.path.exists(video_path)] *)
Definition first_test (video_response : Response) (video_name : string) : M call :=
  w ← get_world;
  if entry_exists w video_name then
    let '(base_name, ext) := OsPath.splitext video_name in
    ret (AtLoopTest video_response base_name ext video_name 1)
  else ret (AtOpen video_response video_name).

(** [while os.path.exists(video_path)] and the body of the loop *)
Definition loop_test (video_response : Response) (base_name ext video_name : string)
    (counter : nat) : M call :=
  w ← get_world;
  if entry_exists w video_name then
    ret (AtLoopTest video_response base_name ext (candidate base_name ext counter) (S counter))
  else ret (AtOpen video_response video_name).

(** [open(video_path, "wb")]: [ValueError] for a name with a zero byte,
    [OSError] for a name that is too long (the text of the exception is
    given without the path that follows it), else as [open_wb] *)
Definition open_file (video_name : string) : M unit :=
  if PyStr.mem nul video_name then raise (ValueError "embedded null byte")
  else if (name_max <? String.length video_name)%nat then
    raise (OSError "[Errno 36] File name too long")
  else open_wb video_name.

(** [open], then [total_size = int(...)] *)
Definition open_step (video_response : Response) (video_name : string) : M call :=
  open_file video_name ;;
  total_size ← total_size_of video_response;
  ret (AtWrite video_response video_name 0 (chunks video_response)).

Fixpoint zeros (n : nat) : string :=
  match n with
  | O => ""
  | S n' => String nul (zeros n')
  end.

(** The content of a file after [chunk] is written at [position]: the bytes
    from [position] on are replaced and the file grows as needed; a file
    that is shorter than [position] (another call has emptied it) is filled
    up with zero bytes. *)
Definition write_at (content : string) (position : nat) (chunk : string) : string :=
  let filled := content +:+ zeros (position - String.length content) in
  PyStr.take position filled +:+ chunk
  +:+ PyStr.drop (position + String.length chunk) filled.

(** [video_file.write(chunk)] through the file object of the call *)
Definition file_write_at (video_name : string) (position : nat) (chunk : string) : M unit :=
  fun w =>
    let old := default "" (entries w !! video_name) in
    let new := write_at old position chunk in
    let growth := String.length new - String.length old in
    if (growth <=? free_space w)%nat then
      (Returned tt,
       set_free_space (free_space w - growth)
         (set_folder (Some (<[video_name := new]> (entries w))) w))
    else (Raised (OSError "[Errno 28] No space left on device"), w).

(** One turn of the loop over [iter_content], or its end: the transfer has
    broken, or the file is closed and the success is printed. *)
Definition write_step (download_folder : string) (video_response : Response)
    (video_name : string) (position : nat) (rest : list string) : M call :=
  match rest with
  | chunk :: rest' =>
      file_write_at video_name position chunk ;;
      ret (AtWrite video_response video_name (position + String.length chunk) rest')
  | [] =>
      match stream_error video_response with
      | Some msg => raise (RequestException msg)
      | None =>
          print ("Saved " +:+ video_name +:+ " to " +:+ download_folder +:+ ".") ;;
          ret (Over (Returned true))
      end
  end.

(** Before the [try]: an exception ends the call. *)
Definition outside_try (out : result call * World) : call * World :=
  match out with
  | (Returned c, w) => (c, w)
  | (Raised e, w) => (Over (Raised e), w)
  | (Diverged, w) => (Over Diverged, w)
  end.

(** Inside the [try]: an exception goes through the [except] clause. *)
Definition inside_try (video_url : string) (out : result call * World) : call * World :=
  match out with
  | (Returned c, w) => (c, w)
  | (Raised e, w) =>
      let '(r, w') := except_RequestException video_url e w in (Over r, w')
  | (Diverged, w) => (Over Diverged, w)
  end.

(** One step of the call [download_video(video_url, download_folder)] *)
Definition call_step (video_url download_folder : string) (c : call) (w : World)
    : call * World :=
  match c with
  | AtFolderTest => outside_try (folder_test download_folder w)
  | AtMakedirs => outside_try ((makedirs download_folder ;; ret AtRequest) w)
  | AtRequest => inside_try video_url (request video_url w)
  | AtFirstTest r video_name => inside_try video_url (first_test r video_name w)
  | AtLoopTest r base_name ext video_name counter =>
      inside_try video_url (loop_test r base_name ext video_name counter w)
  | AtOpen r video_name => inside_try video_url (open_step r video_name w)
  | AtWrite r video_name position rest =>
      inside_try video_url (write_step download_folder r video_name position rest w)
  | Over r => (Over r, w)
  end.

(** [n] steps of a call on its own *)
Fixpoint call_run (n : nat) (video_url download_folder : string) (c : call) (w : World)
    : call * World :=
  match n with
  | O => (c, w)
  | S n' =>
      let '(c', w') := call_step video_url download_folder c w in
      call_run n' video_url download_folder c' w'
  end.

(** The calls that run together, one per URL, and the world they share *)
Record together := {
  calls : list call;
  shared : World
}.

(** The call of index [i] takes a step (nothing happens when it is over). *)
Definition take_turn (video_urls : list string) (download_folder : string) (i : nat)
    (s : together) : together :=
  match calls s !! i, video_urls !! i with
  | Some c, Some video_url =>
      let '(c', w') := call_step video_url download_folder c (shared s) in
      {| calls := <[i := c']> (calls s); shared := w' |}
  | _, _ => s
  end.

(** A schedule lists the calls that move, in order. *)
Definition interleave (video_urls : list string) (download_folder : string)
    (schedule : list nat) (s : together) : together :=
  foldl (fun s i => take_turn video_urls download_folder i s) s schedule.

(** one call per URL, none of them started *)
Definition at_start (video_urls : list string) (w : World) : together :=
  {| calls := replicate (length video_urls) AtFolderTest; shared := w |}.

(** the outcome of the rest of a call, as the call hands it on *)
Definition ended (out : result bool * World) : call * World := (Over out.1, out.2).

(** a call that will not touch the file [f]: the name it has chosen, if it
    has chosen one, is another *)
Definition spares (f : string) (c : call) : Prop :=
  match c with
  | AtOpen _ video_name | AtWrite _ video_name _ _ => video_name <> f
  | _ => True
  end.

(** the call has entered its [try] block and has not raised *)
Definition past_the_folder (c : call) : Prop :=
  match c with
  | AtFolderTest | AtMakedirs | Over (Raised _) | Over Diverged => False
  | _ => True
  end.

(** a call that has raised has raised an [OSError] or a [ValueError] *)
Definition raised_as_expected (c : call) : Prop :=
  forall e, c = Over (Raised e) -> (exists m, e = OSError m) \/ (exists m, e = ValueError m).

End Calls.

(** ** Example worlds and schedules *)

Module Examples.

Definition video_response (url : string) (body : list string) : Response :=
  {| status_code := 200; reason := "OK"; response_url := url;
     content_type := Some "video/mp4"; content_length := CL_absent;
     chunks := body; stream_error := None |}.

Definition html_response (url : string) (code : nat) (why : string) : Response :=
  {| status_code := code; reason := why; response_url := url;
     content_type := Some "text/html"; content_length := CL_absent;
     chunks := ["<html></html>"]; stream_error := None |}.

(** a small web: two videos, a page, a missing resource, a video with a
    [Content-Length] that is no number; every other URL is unreachable *)
Definition web (url : string) : fetch :=
  if bool_decide (url = "http://x/get?f=video.mp4&id=9") then
    FetchOk (video_response url ["abc"; "def"])
  else if bool_decide (url = "http://x/videos/") then
    FetchOk (video_response url ["zz"])
  else if bool_decide (url = "http://x/page") then
    FetchOk (html_response url 200 "OK")
  else if bool_decide (url = "http://x/gone.mp4") then
    FetchOk (html_response url 404 "Not Found")
  else if bool_decide (url = "http://x/odd.mp4") then
    FetchOk {| status_code := 200; reason := "OK"; response_url := url;
               content_type := Some "video/mp4"; content_length := CL_invalid "abc";
               chunks := ["zz"]; stream_error := None |}
  else FetchError "Connection refused".

(** a run that starts without the download folder, [free] bytes free *)
Definition fresh_world (free : nat) : World :=
  {| network := web; folder := None; free_space := free; stdout := [] |}.

(** a folder that already holds the listed files *)
Definition world_with (files : list (string * string)) (free : nat) : World :=
  {| network := web; folder := Some (list_to_map files); free_space := free; stdout := [] |}.

(** the state a schedule leads to (the initial state if it cannot run) *)
Definition state_after (schedule : list Pool.action) (s : Pool.state) : Pool.state :=
  default s (Pool.run schedule s).

(** twenty URLs *)
Definition twenty_videos : list string :=
  (fun i => "http://x/" +:+ PyStr.str i +:+ ".mp4") <$> seq 0 20.

(** all tasks submitted, then the first five taken and started *)
Definition five_started : list Pool.action :=
  (replicate 21 Pool.Main ++ (Pool.Worker <$> seq 0 5) ++ (Pool.Worker <$> seq 0 5))%list.

(** three tasks run one after the other by the first worker, the main
    thread taking each result when it is there *)
Definition one_by_one : list Pool.action :=
  [Pool.Main; Pool.Main; Pool.Main; Pool.Main;
   Pool.Worker 0; Pool.Worker 0; Pool.Worker 0; Pool.Main;
   Pool.Worker 0; Pool.Worker 0; Pool.Worker 0; Pool.Main;
   Pool.Worker 0; Pool.Worker 0; Pool.Worker 0; Pool.Main;
   Pool.Main; Pool.Main].

(** the first task fails before a worker has taken the others: they are
    cancelled and dropped *)
Definition first_fails_early : list Pool.action :=
  [Pool.Main; Pool.Main; Pool.Main; Pool.Main;
   Pool.Worker 0; Pool.Worker 0; Pool.Worker 0; Pool.Main;
   Pool.Worker 0; Pool.Worker 0; Pool.Worker 0; Pool.Worker 0; Pool.Main].

(** the first task fails while the second is running: the second is
    completed, the third is cancelled and dropped *)
Definition first_fails_midway : list Pool.action :=
  [Pool.Main; Pool.Main; Pool.Main; Pool.Main;
   Pool.Worker 0; Pool.Worker 0; Pool.Worker 1; Pool.Worker 1;
   Pool.Worker 0; Pool.Main; Pool.Worker 1; Pool.Worker 2; Pool.Worker 2; Pool.Main].

Definition three_tasks : list string :=
  ["http://x/get?f=video.mp4&id=9"; "http://x/page"; "http://y/clip.mp4"].

End Examples.

(** two sites that serve different videos under the same name *)
Module RaceExamples.

Definition two_sites (url : string) : fetch :=
  if bool_decide (url = "http://a/video.mp4") then
    FetchOk (Examples.video_response url ["abc"; "def"])
  else if bool_decide (url = "http://b/video.mp4") then
    FetchOk (Examples.video_response url ["xyz"])
  else FetchError "Connection refused".

Definition two_videos : list string := ["http://a/video.mp4"; "http://b/video.mp4"].

Definition empty_disk (free : nat) : World :=
  {| network := two_sites; folder := None; free_space := free; stdout := [] |}.

(** the first call has found the name [video.mp4] unused when the second
    call starts, and the second call runs to its end *)
Definition second_overtakes : list nat := [0; 0; 0; 0; 1; 1; 1; 1; 1; 1].

(** then the first call opens its file and writes its two chunks *)
Definition first_finishes : list nat := [0; 0; 0; 0].

(** the two calls one after the other *)
Definition in_turn : list nat := replicate 8 0 ++ replicate 8 1.

(** both calls test the folder before either creates it *)
Definition both_make_the_folder : list nat := [0; 1; 0; 1].

(** the pool: both tasks are submitted, and each is taken and started by a
    worker thread of its own *)
Definition both_started : list Pool.action :=
  [Pool.Main; Pool.Main; Pool.Main;
   Pool.Worker 0; Pool.Worker 0; Pool.Worker 1; Pool.Worker 1].

End RaceExamples.

(** ** The rest of the script: the page, its links, the prompt

    Steps 1, 2, 3 and 6 of the script and its main block act on more than
    the download folder: on text files of the working directory, on the
    page that [requests.get(url)] fetches, and on the answers typed on
    standard input. *)

Module Script.
Import PyStr.

(** The exceptions of the download engine and the other ones that the
    script can meet.  All of them are instances of [Exception]. *)
Inductive error :=
  | Engine (e : exn)
  | NameError (msg : string)
  | EOFError (msg : string)
  | RecursionError (msg : string).

(** [str(e)] *)
Definition error_str (e : error) : string :=
  match e with
  | Engine e => exn_str e
  | NameError msg | EOFError msg | RecursionError msg => msg
  end.

(** What [requests.get(url)] gives for a page: a [RequestException], or a
    response together with its [text]. *)
Inductive page :=
  | PageError (msg : string)
  | PageOk (r : Response) (text : string).

(** The environment of a run of the script: the world of the download
    engine (its [stdout] and its disk are those of the script), the pages,
    the text files of the working directory, the names that cannot be
    opened for writing (a directory, a file without write permission), the
    lines still to be read on standard input, and the number of nested calls
    of a function that the interpreter allows. *)
Record Env := {
  world : World;
  pages : string -> page;
  files : gmap string string;
  write_protected : gset string;
  stdin : list string;
  recursion_limit : nat
}.

Definition set_env_world (w : World) (env : Env) : Env :=
  {| world := w; pages := pages env; files := files env;
     write_protected := write_protected env; stdin := stdin env;
     recursion_limit := recursion_limit env |}.

Definition set_files (fs : gmap string string) (env : Env) : Env :=
  {| world := world env; pages := pages env; files := fs;
     write_protected := write_protected env; stdin := stdin env;
     recursion_limit := recursion_limit env |}.

Definition set_stdin (ls : list string) (env : Env) : Env :=
  {| world := world env; pages := pages env; files := files env;
     write_protected := write_protected env; stdin := ls;
     recursion_limit := recursion_limit env |}.

(** *** The monad of the script *)

(** [Unfinished]: the call has not come back (the schedule given for the
    thread pool stops before the end of the batch). *)
Inductive outcome (A : Type) :=
  | Value (a : A)
  | Error (e : error)
  | Unfinished.
Arguments Value {A} a.
Arguments Error {A} e.
Arguments Unfinished {A}.

Definition IO (A : Type) : Type := Env -> outcome A * Env.

Definition io_ret {A} (a : A) : IO A := fun env => (Value a, env).

Definition io_bind {A B} (m : IO A) (k : A -> IO B) : IO B :=
  fun env =>
    match m env with
    | (Value a, env') => k a env'
    | (Error e, env') => (Error e, env')
    | (Unfinished, env') => (Unfinished, env')
    end.

Definition io_raise {A} (e : error) : IO A := fun env => (Error e, env).

Definition io_outcome {A} (o : outcome A) : IO A := fun env => (o, env).

Definition get_env : IO Env := fun env => (Value env, env).

(** [try: body  except ...: handler]; the handler decides what it catches *)
Definition io_try {A} (body : IO A) (handler : error -> IO A) : IO A :=
  fun env =>
    match body env with
    | (Error e, env') => handler e env'
    | r => r
    end.

(** a computation of the download engine, run on the world of the script *)
Definition lift {A} (m : M A) : IO A :=
  fun env =>
    match m (world env) with
    | (Returned a, w) => (Value a, set_env_world w env)
    | (Raised e, w) => (Error (Engine e), set_env_world w env)
    | (Diverged, w) => (Unfinished, set_env_world w env)
    end.

Global Instance IO_ret : MRet IO := @io_ret.
Global Instance IO_bind : MBind IO := fun A B k m => io_bind m k.

(** [print(line)] *)
Definition io_print (line : string) : IO unit := lift (print line).

(** *** Text files *)

(** [open(filename, "r", encoding="utf-8")] and the reading of the file.
    The files hold text: undecodable bytes are not represented. *)
Definition open_r (filename : string) : IO string :=
  fun env =>
    match files env !! filename with
    | Some text => (Value text, env)
    | None =>
        (Error (Engine (OSError ("[Errno 2] No such file or directory: '"
                                 +:+ filename +:+ "'"))), env)
    end.

(** [open(filename, "w", encoding="utf-8")]: the file is created, or emptied
    when it exists *)
Definition open_w (filename : string) : IO unit :=
  fun env =>
    if decide (filename ∈ write_protected env) then
      (Error (Engine (OSError ("[Errno 13] Permission denied: '" +:+ filename +:+ "'"))), env)
    else
      (Value tt,
       set_env_world
         (set_free_space
            (free_space (world env) + String.length (default "" (files env !! filename)))
            (world env))
         (set_files (<[filename := ""]> (files env)) env)).

(** [file.write(text)]: the text is appended when the disk has room for it *)
Definition text_write (filename text : string) : IO unit :=
  fun env =>
    if (String.length text <=? free_space (world env))%nat then
      (Value tt,
       set_env_world
         (set_free_space (free_space (world env) - String.length text) (world env))
         (set_files (<[filename := default "" (files env !! filename) +:+ text]> (files env))
            env))
    else (Error (Engine (OSError "[Errno 28] No space left on device")), env).

(** *** Step 1: [save_page_source] *)

(** [requests.get(url)] *)
Definition requests_get_page (url : string) : IO (Response * string) :=
  fun env =>
    match pages env url with
    | PageError msg => (Error (Engine (RequestException msg)), env)
    | PageOk r text => (Value (r, text), env)
    end.

Definition save_page_source (url filename : string) : IO unit :=
  io_try
    (response ← requests_get_page url;
     lift (raise_for_status (fst response)) ;;
     open_w filename ;;
     text_write filename (snd response) ;;
     io_print ("Page source saved to " +:+ filename +:+ "."))
    (fun e =>
       match e with
       | Engine (RequestException msg) => io_print ("Error fetching the website: " +:+ msg)
       | _ => io_raise e
       end).

(** *** Step 2: [extract_video_links_from_html] *)

(** A tag of the parsed document: its name and its attributes *)
Record Tag := {
  tag_name : string;
  attrs : gmap string string
}.

(** U+212A, the Kelvin sign, in UTF-8: the one character outside ASCII
    whose lower case is a letter of the pattern *)
Definition kelvin_sign : string :=
  String (ascii_of_nat 226) (String (ascii_of_nat 132) (String (ascii_of_nat 170) "")).

(** One letter of the pattern against the start of the text, ignoring
    case: the text after the letter when it matches. *)
Definition match_letter (p : ascii) (s : string) : option string :=
  match s with
  | EmptyString => None
  | String c s' =>
      if Ascii.eqb (lower_char c) p then Some s'
      else if Ascii.eqb p "k" && startswith kelvin_sign s then Some (drop 3 s)
      else None
  end.

Fixpoint match_letters (pattern s : string) : option string :=
  match pattern with
  | EmptyString => Some s
  | String p pattern' =>
      match match_letter p s with
      | Some s' => match_letters pattern' s'
      | None => None
      end
  end.

(** [$]: the end of the text, or the newline that ends it *)
Definition at_end (s : string) : bool :=
  bool_decide (s = "") || bool_decide (s = String "010"%char "").

(** the pattern [\.(mp4|webm|mkv)$] at the start of the text *)
Definition match_video_extension (s : string) : bool :=
  match s with
  | String c s' =>
      Ascii.eqb c "."
      && existsb (fun ext =>
                    match match_letters ext s' with
                    | Some rest => at_end rest
                    | None => false
                    end) ["mp4"; "webm"; "mkv"]
  | EmptyString => false
  end.

(** [re.compile(r"\.(mp4|webm|mkv)$", re.IGNORECASE).search(s)]: the
    pattern is tried at every position *)
Fixpoint search_video_extension (s : string) : bool :=
  match_video_extension s
  || match s with
     | EmptyString => false
     | String _ s' => search_video_extension s'
     end.

(** [soup.find_all("a", href=re.compile(...))], the document being the
    list of its tags in document order *)
Definition is_video_link (tag : Tag) : bool :=
  bool_decide (tag_name tag = "a")
  && match attrs tag !! "href" with
     | Some href => search_video_extension href
     | None => false
     end.

Definition find_all_video_links (soup : list Tag) : list Tag := filter is_video_link soup.

(** The [for] loop over the tags.  The global name [url] that the branch
    of the root-relative links reads is defined nowhere in the script. *)
Fixpoint links_loop (max_videos : Z) (a_tags : list Tag)
    (valid_videos : list string) (count : Z) : outcome (list string) :=
  match a_tags with
  | [] => Value valid_videos
  | a_tag :: a_tags' =>
      if (max_videos <=? count)%Z then Value valid_videos
      else
        match attrs a_tag !! "href" with
        | None => links_loop max_videos a_tags' valid_videos count
        | Some video_url =>
            if decide (video_url = "") then links_loop max_videos a_tags' valid_videos count
            else if startswith "//" video_url then
              links_loop max_videos a_tags'
                (valid_videos ++ ["http:" +:+ video_url])%list (count + 1)%Z
            else if startswith "/" video_url then
              Error (NameError "name 'url' is not defined")
            else
              links_loop max_videos a_tags' (valid_videos ++ [video_url])%list (count + 1)%Z
        end
  end.

Section Parser.

(** [BeautifulSoup(file, "html.parser")]: the parser is a parameter of the
    model; it gives the tags of the document in document order. *)
Variable BeautifulSoup : string -> list Tag.

Definition extract_video_links_from_html (filename : string) (max_videos : Z)
    : IO (list string) :=
  io_try
    (file ← open_r filename;
     let soup := BeautifulSoup file in
     let a_tags := find_all_video_links soup in
     io_outcome (links_loop max_videos a_tags [] 0))
    (fun e =>
       io_print ("Error reading " +:+ filename +:+ ": " +:+ error_str e) ;;
       mret []).

End Parser.

(** *** Step 3: [save_videos_to_html] *)

(** the double quote and the newline *)
Definition dq : string := String "034"%char "".
Definition nl : string := String "010"%char "".

Definition lines (ls : list string) : string := String.concat nl ls.

(** the text written before the videos *)
Definition page_head : string :=
  lines
    [" ";
     "            <!DOCTYPE html>";
     "            <html lang=" +:+ dq +:+ "en" +:+ dq +:+ ">";
     "            <head>";
     "                <meta charset=" +:+ dq +:+ "UTF-8" +:+ dq +:+ ">";
     "                <meta name=" +:+ dq +:+ "viewport" +:+ dq +:+ " content=" +:+ dq
       +:+ "width=device-width, initial-scale=1.0" +:+ dq +:+ ">";
     "                <title>Extracted Videos</title>";
     "                <style>";
     "                    body {";
     "                        font-family: Arial, sans-serif;";
     "                        background-color: #f4f4f9;";
     "                        margin: 0;";
     "                        padding: 20px;";
     "                    }";
     "                    h1 {";
     "                        text-align: center;";
     "                        color: #333;";
     "                    }";
     "                    .gallery {";
     "                        display: flex;";
     "                        flex-wrap: wrap;";
     "                        gap: 15px;";
     "                        justify-content: center;";
     "                    }";
     "                    .gallery video {";
     "                        max-width: 300px;";
     "                        max-height: 200px;";
     "                        border: 1px solid #ddd;";
     "                        border-radius: 5px;";
     "                        box-shadow: 0 4px 6px rgba(0, 0, 0, 0.1);";
     "                    }";
     "                </style>";
     "            </head>";
     "            <body>";
     "                <h1>Extracted Videos</h1>";
     "                <div class=" +:+ dq +:+ "gallery" +:+ dq +:+ ">";
     "            "].

(** the text written after the videos *)
Definition page_foot : string :=
  lines
    [" ";
     "                </div>";
     "            </body>";
     "            </html>";
     "            "].

(** [f'<video controls><source src="{video_link}" type="video/mp4"></video>'] *)
Definition video_element (video_link : string) : string :=
  "<video controls><source src=" +:+ dq +:+ video_link +:+ dq
  +:+ " type=" +:+ dq +:+ "video/mp4" +:+ dq +:+ "></video>".

Fixpoint write_videos (output_file : string) (video_links : list string) : IO unit :=
  match video_links with
  | [] => mret tt
  | video_link :: video_links' =>
      text_write output_file (video_element video_link) ;;
      write_videos output_file video_links'
  end.

Definition save_videos_to_html (video_links : list string) (output_file : string) : IO unit :=
  io_try
    (open_w output_file ;;
     text_write output_file page_head ;;
     write_videos output_file video_links ;;
     text_write output_file page_foot ;;
     io_print ("Videos saved to " +:+ output_file +:+ "."))
    (fun e => io_print ("Error saving videos to HTML: " +:+ error_str e)).

(** the page that [save_videos_to_html] writes for a list of links *)
Definition videos_page (video_links : list string) : string :=
  page_head +:+ foldr String.append "" (video_element <$> video_links) +:+ page_foot.

(** *** Step 6: [ask_user_to_download_video] *)

Definition bytes (codes : list nat) : string :=
  string_of_list_ascii (ascii_of_nat <$> codes).

(** The characters that [str.isspace] accepts, in UTF-8: the ASCII ones
    (tab to carriage return, the four separators 28 to 31, the space), then
    U+0085, U+00A0, U+1680, U+2000 to U+200A, U+2028, U+2029, U+202F, U+205F
    and U+3000. *)
Definition whitespace : list string :=
  ((fun c => bytes [c]) <$> [9; 10; 11; 12; 13; 28; 29; 30; 31; 32])
  ++ [bytes [194; 133]; bytes [194; 160]; bytes [225; 154; 128]]
  ++ ((fun c => bytes [226; 128; c]) <$> seq 128 11)
  ++ [bytes [226; 128; 168]; bytes [226; 128; 169]; bytes [226; 128; 175];
      bytes [226; 129; 159]; bytes [227; 128; 128]].

Fixpoint string_rev (s : string) : string :=
  match s with
  | EmptyString => EmptyString
  | String c s' => string_rev s' +:+ String c EmptyString
  end.

(** the number of bytes of the whitespace character that the text starts
    with, 0 when it starts with none *)
Definition leading_whitespace (spaces : list string) (s : string) : nat :=
  match List.find (fun ws => startswith ws s) spaces with
  | Some ws => String.length ws
  | None => 0
  end.

Fixpoint lstrip_go (fuel : nat) (spaces : list string) (s : string) : string :=
  match fuel with
  | O => s
  | S fuel' =>
      match leading_whitespace spaces s with
      | O => s
      | n => lstrip_go fuel' spaces (drop n s)
      end
  end.

(** [s.strip()] *)
Definition strip (s : string) : string :=
  let s := lstrip_go (String.length s) whitespace s in
  string_rev (lstrip_go (String.length s) (string_rev <$> whitespace) (string_rev s)).

(** [input(prompt)]: the prompt is written to standard output, a line is
    read; at the end of the input [EOFError] is raised. *)
Definition read_line : IO string :=
  fun env =>
    match stdin env with
    | line :: rest => (Value line, set_stdin rest env)
    | [] => (Error (EOFError "EOF when reading a line"), env)
    end.

Definition input (prompt : string) : IO string :=
  io_print prompt ;;
  read_line.

(** [depth] is the number of nested calls that the interpreter still
    allows; the call raises [RecursionError] when there is none left. *)
Fixpoint ask_user_to_download_video (depth : nat) (video_url : string) : IO (option string) :=
  match depth with
  | O => io_raise (RecursionError "maximum recursion depth exceeded")
  | S depth' =>
      response ← input ("Do you want to download this video? " +:+ video_url
                        +:+ " (1 for yes, 2 for no): ");
      let response := strip response in
      if decide (response = "1") then mret (Some video_url)
      else if decide (response = "2") then
        io_print ("Skipping video: " +:+ video_url) ;;
        mret None
      else
        io_print "Invalid input. Please enter '1' for yes or '2' for no." ;;
        ask_user_to_download_video depth' video_url
  end.

(** *** The main block *)

(** the loop [for video_url in video_links] of the main block *)
Fixpoint ask_for_each (video_links selected_videos : list string) : IO (list string) :=
  match video_links with
  | [] => mret selected_videos
  | video_url :: video_links' =>
      env ← get_env;
      result ← ask_user_to_download_video (recursion_limit env) video_url;
      ask_for_each video_links'
        (match result with
         | Some r => if decide (r = "") then selected_videos else (selected_videos ++ [r])%list
         | None => selected_videos
         end)
  end.

(** The call [download_videos_concurrently(selected_videos)] of the main
    block, the threads moving as the schedule says. *)
Definition run_batch (schedule : list Pool.action) (selected_videos : list string)
    (download_folder : string) : IO nat :=
  fun env =>
    match Pool.run schedule
            (Pool.download_videos_concurrently selected_videos download_folder (world env)) with
    | Some s =>
        (match Pool.main s with
         | Pool.Done (Returned downloaded_count) => Value downloaded_count
         | Pool.Done (Raised e) => Error (Engine e)
         | _ => Unfinished
         end, set_env_world (Pool.world s) env)
    | None => (Unfinished, env)
    end.

Section Main.

Variable BeautifulSoup : string -> list Tag.

(** The main block, for a value of its two parameters *)
Definition main_block (website_url : string) (max_videos : Z)
    (schedule : list Pool.action) : IO unit :=
  save_page_source website_url "index.html" ;;
  video_links ← extract_video_links_from_html BeautifulSoup "index.html" max_videos;
  save_videos_to_html video_links "videos.html" ;;
  selected_videos ← ask_for_each video_links [];
  match selected_videos return IO unit with
  | [] => mret tt
  | _ :: _ =>
      downloaded_count ← run_batch schedule selected_videos "downloaded_videos";
      io_print (nl +:+ "Total videos downloaded: (" +:+ str downloaded_count +:+ "/"
                +:+ str (length selected_videos) +:+ ")")
  end ;;
  io_print "Script finished.".

(** The parameters as the script sets them *)
Definition website_url : string := " ".
Definition max_videos : Z := 0.

Definition main : list Pool.action -> IO unit := main_block website_url max_videos.

End Main.

End Script.

(** ** Notions used in the statements about the script *)

Module ScriptFacts.
Import Script.

(** the [href] values of a list of tags *)
Definition hrefs (tags : list Tag) : list string := omap (fun tag => attrs tag !! "href") tags.

(** a link that starts with one slash: the branch of the loop that reads
    the name [url] *)
Definition root_relative (href : string) : bool :=
  PyStr.startswith "/" href && negb (PyStr.startswith "//" href).

(** what the loop appends for a link that does not start with one slash *)
Definition with_scheme (href : string) : string :=
  if PyStr.startswith "//" href then "http:" +:+ href else href.

(** the links that the loop looks at: the first [max_videos] links to a
    video of the document *)
Definition considered (soup : list Tag) (max_videos : Z) : list string :=
  take (Z.to_nat max_videos) (hrefs (find_all_video_links soup)).

(** an answer that the prompt accepts *)
Definition valid_answer (line : string) : bool :=
  bool_decide (strip line = "1") || bool_decide (strip line = "2").

(** the prompt of [ask_user_to_download_video] *)
Definition prompt (video_url : string) : string :=
  "Do you want to download this video? " +:+ video_url +:+ " (1 for yes, 2 for no): ".

Definition invalid_input : string := "Invalid input. Please enter '1' for yes or '2' for no.".

(** what is written while the answers of a list are refused *)
Definition refusals (video_url : string) (answers : list string) : list string :=
  flat_map (fun _ => [prompt video_url; invalid_input]) answers.

(** the links of a list that are answered with [1], the answers given one
    per link; an empty link counts as refused *)
Definition accepted (video_links answers : list string) : list string :=
  omap (fun p : string * string =>
          if decide (strip p.2 = "1")
          then (if decide (p.1 = "") then None else Some p.1)
          else None)
       (zip video_links answers).

(** an environment that differs in what was printed only *)
Definition add_output (printed : list string) (env : Env) : Env :=
  set_env_world
    {| network := network (world env); folder := folder (world env);
       free_space := free_space (world env);
       stdout := (stdout (world env) ++ printed)%list |} env.

End ScriptFacts.

(** ** Example environments of the script *)

Module ScriptExamples.
Import Script.

(** a video whose [Content-Length] announces more than the body holds, and
    a video whose transfer breaks after the first chunk; the other URLs as
    in [Examples.web] *)
Definition more_web (url : string) : fetch :=
  if bool_decide (url = "http://x/short.mp4") then
    FetchOk {| status_code := 200; reason := "OK"; response_url := url;
               content_type := Some "video/mp4"; content_length := CL_int 1000000;
               chunks := ["zz"]; stream_error := None |}
  else if bool_decide (url = "http://x/broken.mp4") then
    FetchOk {| status_code := 200; reason := "OK"; response_url := url;
               content_type := Some "video/mp4"; content_length := CL_int 6;
               chunks := ["abc"]; stream_error := Some "Connection broken" |}
  else Examples.web url.

Definition new_world (free : nat) : World :=
  {| network := more_web; folder := None; free_space := free; stdout := [] |}.

(** a parser for the examples: every line of the text is the [href] of an
    [a] tag *)
Definition one_link_per_line (text : string) : list Tag :=
  (fun line => {| tag_name := "a"; attrs := {[ "href" := line ]} |})
    <$> PyStr.split "010"%char text.

(** the text of a page with three links *)
Definition three_links : string := lines ["a.mp4"; "//cdn/b.WEBM"; "/videos/c.mkv"].

(** one page can be fetched, one answers 404, the others cannot be reached *)
Definition site (url : string) : page :=
  if bool_decide (url = "http://site/") then
    PageOk (Examples.html_response url 200 "OK") three_links
  else if bool_decide (url = "http://site/gone") then
    PageOk (Examples.html_response url 404 "Not Found") "not found"
  else PageError "Connection refused".

(** a run that starts with the given files and the given answers *)
Definition env_with (fs : list (string * string)) (answers : list string) : Env :=
  {| world := new_world 4000; pages := site; files := list_to_map fs;
     write_protected := ∅; stdin := answers; recursion_limit := 1000 |}.

End ScriptExamples.

(** * Properties *)

(** ** The library functions on examples

    The values are those of Python 3.11. *)

Section LibraryExamples.
Import PyStr UrlParse OsPath.

Example urlsplit_example :
  urlsplit "HTTP://x.com:80/a/b/c.mp4?x=1#frag"
  = {| scheme := "http"; netloc := "x.com:80"; path := "/a/b/c.mp4";
       query := "x=1"; fragment := "frag" |}.
Proof. reflexivity. Qed.

Example urlsplit_no_scheme : path (urlsplit "a/b:c/d") = "a/b:c/d".
Proof. reflexivity. Qed.

Example parse_qsl_example :
  parse_qsl "f=&id=9&g&=x&%66=my%20clip+1.mp4&f=b%zz%4"
  = [("id", "9"); ("", "x"); ("f", "my clip 1.mp4"); ("f", "b%zz%4")].
Proof. reflexivity. Qed.

Example parse_qs_example : parse_qs "f=a&id=9&f=b" !! "f" = Some ["a"; "b"].
Proof. reflexivity. Qed.

Example unquote_ill_formed :
  unquote "%C3%A9%C3x" = "é" +:+ replacement_character +:+ "x".
Proof. reflexivity. Qed.

Example basename_examples :
  basename "/a/b/c.mp4" = "c.mp4" /\ basename "/a/b/" = "" /\ basename "abc" = "abc".
Proof. repeat split. Qed.

Example splitext_examples :
  splitext "video.mp4" = ("video", ".mp4")
  /\ splitext ".bashrc" = (".bashrc", "")
  /\ splitext "a.b.c" = ("a.b", ".c")
  /\ splitext "" = ("", "").
Proof. repeat split. Qed.

Example replace_examples :
  replace "%20" "" "a%20b%20" = "ab"
  /\ replace "%20" "" "%%2020x" = "%20x"
  /\ replace "aa" "b" "aaa" = "ba".
Proof. repeat split. Qed.

Example str_examples : str 0 = "0" /\ str 12 = "12".
Proof. split; vm_compute; reflexivity. Qed.

End LibraryExamples.

(** ** Strings *)

Section StringFacts.
Import PyStr.

Lemma string_app_cons (c : ascii) (s t : string) : String c s +:+ t = String c (s +:+ t).
Proof. reflexivity. Qed.

Lemma string_app_empty_l (t : string) : "" +:+ t = t.
Proof. reflexivity. Qed.

Lemma string_length_app (s t : string) :
  String.length (s +:+ t) = String.length s + String.length t.
Proof. induction s as [|c s IH]; rewrite ?string_app_cons; cbn; [done | by rewrite IH]. Qed.

Lemma string_app_empty_r (s : string) : s +:+ "" = s.
Proof. induction s as [|c s IH]; rewrite ?string_app_cons; [done | by rewrite IH]. Qed.

Lemma string_app_assoc (s t u : string) : (s +:+ t) +:+ u = s +:+ (t +:+ u).
Proof. induction s as [|c s IH]; rewrite ?string_app_cons; [done | by rewrite IH]. Qed.

(** cancellation of a common suffix *)
Lemma string_app_inj_suffix (t s1 s2 : string) : s1 +:+ t = s2 +:+ t -> s1 = s2.
Proof.
  revert s2. induction s1 as [|a s1 IH]; intros [|b s2] H;
    rewrite ?string_app_cons, ?string_app_empty_l in H.
  - done.
  - apply (f_equal String.length) in H. cbn in H. rewrite string_length_app in H. lia.
  - apply (f_equal String.length) in H. cbn in H. rewrite string_length_app in H. lia.
  - injection H as -> H. f_equal. by apply IH.
Qed.

Lemma string_mem_app (c : ascii) (s t : string) : mem c (s +:+ t) = mem c s || mem c t.
Proof.
  induction s as [|a s IH]; rewrite ?string_app_cons; cbn; [done | by rewrite IH, orb_assoc].
Qed.




(** The candidate names of the collision check differ for different
    counters. *)
Lemma candidate_inj (base_name ext : string) (i j : nat) :
  candidate base_name ext i = candidate base_name ext j -> i = j.
Proof.
  unfold candidate. intros H. apply String.app_inj in H. rewrite !string_app_cons, !string_app_empty_l in H.
  injection H as H. apply string_app_inj_suffix in H. unfold str in H. by apply (inj pretty) in H.
Qed.

Lemma candidate_neq_empty (base_name ext : string) (k : nat) :
  candidate base_name ext k <> "".
Proof.
  unfold candidate. intros H. apply (f_equal String.length) in H.
  rewrite string_length_app, string_app_cons in H. cbn in H. lia.
Qed.

Lemma candidate_mem_underscore (base_name ext : string) (k : nat) :
  mem "_" (candidate base_name ext k) = true.
Proof. unfold candidate. rewrite string_mem_app, string_app_cons. cbn. apply orb_true_r. Qed.

Lemma candidate_not_directory (base_name ext : string) (k : nat) :
  names_directory (candidate base_name ext k) = false.
Proof.
  pose proof (candidate_mem_underscore base_name ext k) as H.
  unfold names_directory.
  repeat case_bool_decide; try done;
    match goal with E : _ = _ |- _ => rewrite E in H; by cbn in H end.
Qed.


Lemma replace_percent20_none (a : string) :
  mem "%" a = false -> replace "%20" "" a = a.
Proof.
  unfold replace. induction a as [|c a IH]; intros Ha; [done |].
  cbn in Ha. apply orb_false_iff in Ha as [Hc Ha].
  cbn [replace_go startswith]. rewrite Ascii.eqb_sym, Hc.
  f_equal. by apply IH.
Qed.


End StringFacts.

(** ** The query string *)

Section ParseQs.
Import UrlParse.




Lemma add_value_no_empty (m : gmap string (list string)) (nv : string * string) :
  no_empty_values m -> no_empty_values (add_value m nv).
Proof.
  intros Hm k. destruct nv as [n v]. unfold add_value.
  destruct (m !! n) as [l|] eqn:E; (destruct (decide (n = k)) as [->|Hne];
    [rewrite lookup_insert_eq | rewrite lookup_insert_ne by done; apply Hm]).
  - intros [=H]. by destruct l.
  - done.
Qed.

Lemma foldl_add_value_no_empty (pairs : list (string * string))
    (m : gmap string (list string)) :
  no_empty_values m -> no_empty_values (foldl add_value m pairs).
Proof.
  revert m. induction pairs as [|nv pairs IH]; intros m Hm; cbn [foldl]; [done |].
  by apply IH, add_value_no_empty.
Qed.

Lemma parse_qs_no_empty (qs : string) : no_empty_values (parse_qs qs).
Proof. apply foldl_add_value_no_empty. intros k. by rewrite lookup_empty. Qed.





End ParseQs.

(** ** [sanitize_filename] *)

(** [sanitize_filename] returns the sanitized hint and prints its two lines;
    the indexing of the dictionary entry never fails. *)
Lemma sanitize_filename_run (video_url : string) (w : World) :
  sanitize_filename video_url w =
    (Returned (clean_filename (filename_hint video_url)),
     add_stdout ("Sanitized filename after removing invalid characters: "
                 +:+ clean_filename (filename_hint video_url))
       (add_stdout ("Base filename before sanitization: " +:+ filename_hint video_url) w)).
Proof.
  unfold sanitize_filename, filename_hint.
  pose proof (parse_qs_no_empty (UrlParse.query (UrlParse.urlsplit video_url)) "f") as Hne.
  destruct (UrlParse.parse_qs _ !! "f") as [[|v l]|]; done.
Qed.






(** ** The collision check *)

Section Probing.
Variable path_exists : string -> bool.
Variables base_name ext : string.

Local Abbreviation name_of k := (candidate base_name ext k).

(** What the loop returns: the name it started from when that is unused,
    else the first unused candidate, the counters from [counter] on being
    tried in order. *)
Lemma probe_names_Some (fuel : nat) (video_name : string) (counter : nat) (r : string) :
  probe_names fuel path_exists base_name ext video_name counter = Some r ->
  path_exists r = false /\
  ((path_exists video_name = false /\ r = video_name) \/
   (path_exists video_name = true /\
    exists k, counter <= k /\ r = name_of k /\
              forall j, counter <= j < k -> path_exists (name_of j) = true)).
Proof.
  revert video_name counter.
  induction fuel as [|fuel IH]; intros video_name counter H; cbn in H; [done |].
  destruct (path_exists video_name) eqn:E.
  - apply IH in H as [Hr [[Hc ->]|[Hc (k & Hk & -> & Hall)]]].
    + split; [done |]. right. split; [done |]. exists counter. split; [lia |].
      split; [done |]. intros j Hj. lia.
    + split; [done |]. right. split; [done |]. exists k. split; [lia |].
      split; [done |]. intros j Hj.
      destruct (decide (j = counter)) as [->|]; [done |]. apply Hall. lia.
  - injection H as <-. split; [done |]. by left.
Qed.

(** When the fuel runs out, every name that was tried exists. *)
Lemma probe_names_None (fuel : nat) (video_name : string) (counter : nat) :
  probe_names fuel path_exists base_name ext video_name counter = None ->
  (0 < fuel -> path_exists video_name = true) /\
  forall j, j + 1 < fuel -> path_exists (name_of (counter + j)) = true.
Proof.
  revert video_name counter.
  induction fuel as [|fuel IH]; intros video_name counter H; cbn in H.
  - split; intros; lia.
  - destruct (path_exists video_name) eqn:E; [|done].
    apply IH in H as [H0 Hj]. split; [done |].
    intros [|j] Hlt.
    + rewrite Nat.add_0_r. apply H0. lia.
    + replace (counter + S j) with (S counter + j) by lia. apply Hj. lia.
Qed.

(** More fuel does not change a result. *)
Lemma probe_names_more_fuel (fuel fuel' : nat) (video_name : string) (counter : nat)
    (r : string) :
  fuel <= fuel' ->
  probe_names fuel path_exists base_name ext video_name counter = Some r ->
  probe_names fuel' path_exists base_name ext video_name counter = Some r.
Proof.
  revert fuel' video_name counter.
  induction fuel as [|fuel IH]; intros [|fuel'] video_name counter Hle H;
    cbn in *; try done; try lia.
  destruct (path_exists video_name); [|done]. apply IH; [lia | done].
Qed.

(** The loop ends: when the candidates that exist all lie in a finite set
    [present], the condition is tested at most [size present + 2] times. *)
Lemma probe_names_terminates (present : gset string) (fuel : nat)
    (video_name : string) (counter : nat) :
  (forall k, path_exists (name_of k) = true -> name_of k ∈ present) ->
  size present + 2 <= fuel ->
  is_Some (probe_names fuel path_exists base_name ext video_name counter).
Proof.
  intros Hpresent Hfuel.
  destruct (probe_names fuel _ _ _ _ _) as [r|] eqn:E; [by eexists |].
  exfalso. apply probe_names_None in E as [_ Hall].
  set (tried := (fun j => name_of (counter + j)) <$> seq 0 (size present + 1)).
  assert (NoDup tried) as Hnodup.
  { apply NoDup_fmap_2_strong; [|apply NoDup_seq].
    intros i j _ _ Hij. apply candidate_inj in Hij. lia. }
  assert (list_to_set tried ⊆ present) as Hsub.
  { intros x [j [-> Hj]]%elem_of_list_to_set%list_elem_of_fmap.
    apply elem_of_seq in Hj. apply Hpresent, Hall. lia. }
  apply subseteq_size in Hsub. rewrite size_list_to_set in Hsub by done.
  unfold tried in Hsub. rewrite length_fmap, length_seq in Hsub. lia.
Qed.

End Probing.

Lemma entry_exists_candidate (w : World) (base_name ext : string) (k : nat) :
  entry_exists w (candidate base_name ext k) = true ->
  candidate base_name ext k ∈ dom (entries w).
Proof.
  unfold entry_exists, entries. destruct (folder w) as [d|]; [|done].
  rewrite candidate_not_directory. cbn. intros H%bool_decide_eq_true.
  by apply elem_of_dom.
Qed.

Lemma probe_names_entries_terminates (w : World) (base_name ext video_name : string)
    (counter fuel : nat) :
  2 + size (entries w) <= fuel ->
  is_Some (probe_names fuel (entry_exists w) base_name ext video_name counter).
Proof.
  intros Hfuel. apply (probe_names_terminates _ _ _ (dom (entries w))).
  - apply entry_exists_candidate.
  - rewrite size_dom. lia.
Qed.

(** The collision check always returns a name, and that name is unused. *)
Lemma unused_name_total (w : World) (video_name : string) :
  exists name, unused_name w video_name = Some name /\ entry_exists w name = false.
Proof.
  unfold unused_name. destruct (entry_exists w video_name) eqn:E.
  - destruct (OsPath.splitext video_name) as [base_name ext].
    destruct (probe_names_entries_terminates w base_name ext video_name 1
                (2 + size (entries w)) (le_n _)) as [name Hname].
    exists name. split; [done |]. by apply probe_names_Some in Hname as [? _].
  - by exists video_name.
Qed.

Lemma unused_name_unused (w : World) (video_name name : string) :
  unused_name w video_name = Some name -> entry_exists w name = false.
Proof.
  intros H. destruct (unused_name_total w video_name) as (name' & H' & Hf). congruence.
Qed.

(** ** [download_video] *)

(** The resolver returns what the collision check makes of the sanitized
    name; it only prints. *)
Lemma resolve_filename_run (video_url : string) (w : World) :
  resolve_filename video_url w =
    let w' :=
      add_stdout ("Sanitized filename after removing invalid characters: "
                  +:+ clean_filename (filename_hint video_url))
        (add_stdout ("Base filename before sanitization: " +:+ filename_hint video_url) w) in
    match unused_name w (clean_filename (filename_hint video_url)) with
    | Some name => (Returned name, w')
    | None => (Diverged, w')
    end.
Proof.
  unfold resolve_filename, mbind, M_bind, bind. rewrite sanitize_filename_run.
  cbn.
  change (unused_name (add_stdout _ (add_stdout _ w)) ?n) with (unused_name w n).
  by destruct (unused_name w _).
Qed.

Lemma write_chunks_lookup_ne (video_name : string) (cs : list string) (err : option string)
    (w : World) (f : string) :
  f <> video_name ->
  entries (snd (write_chunks video_name cs err w)) !! f = entries w !! f.
Proof.
  intros Hne. revert w. induction cs as [|chunk cs IH]; intros w; cbn.
  - by destruct err.
  - unfold mbind, M_bind, bind, file_write.
    destruct (String.length chunk <=? free_space w)%nat; [|done].
    rewrite IH. cbn. by rewrite lookup_insert_ne.
Qed.

Ltac fold_entries :=
  repeat match goal with
         | |- context [default ∅ (folder ?w)] => change (default ∅ (folder w)) with (entries w)
         end.

Lemma open_wb_lookup_ne (video_name : string) (w : World) (f : string) :
  f <> video_name -> entries (snd (open_wb video_name w)) !! f = entries w !! f.
Proof.
  intros Hne. unfold open_wb. destruct (folder w) as [d|] eqn:E; [|done].
  destruct (names_directory video_name); [done |].
  unfold entries. cbn. rewrite E. cbn. by rewrite lookup_insert_ne.
Qed.

Lemma save_response_lookup_ne (r : Response) (video_name download_folder : string)
    (w : World) (f : string) :
  f <> video_name ->
  entries (snd (save_response r video_name download_folder w)) !! f = entries w !! f.
Proof.
  intros Hne. unfold save_response, mbind, M_bind, bind.
  pose proof (open_wb_lookup_ne video_name w f Hne) as Ho.
  destruct (open_wb video_name w) as [[[]| |] w1]; cbn in Ho; try done.
  unfold total_size_of. destruct (content_length r); cbn; try done.
  - pose proof (write_chunks_lookup_ne video_name (chunks r) (stream_error r) w1 f Hne) as Hw.
    destruct (write_chunks _ _ _ w1) as [[[]| |] w2]; cbn in *; fold_entries; congruence.
  - pose proof (write_chunks_lookup_ne video_name (chunks r) (stream_error r) w1 f Hne) as Hw.
    destruct (write_chunks _ _ _ w1) as [[[]| |] w2]; cbn in *; fold_entries; congruence.
Qed.

Lemma entry_exists_false_lookup (w : World) (name : string) :
  is_Some (folder w) -> entry_exists w name = false -> entries w !! name = None.
Proof.
  unfold entry_exists, entries. intros [d ->]. cbn.
  intros [_ H]%orb_false_iff. apply bool_decide_eq_false in H.
  by apply eq_None_not_Some.
Qed.


Lemma try_except_entries {A} (body : M A) (handler : exn -> M A) (w : World) :
  (forall e w', entries (snd (handler e w')) = entries w') ->
  entries (snd (try_except body handler w)) = entries (snd (body w)).
Proof.
  intros Hh. unfold try_except. destruct (body w) as [[a|e|] w']; cbn; try done.
Qed.

Lemma raise_for_status_world (r : Response) (w : World) :
  snd (raise_for_status r w) = w.
Proof.
  unfold raise_for_status.
  destruct (_ && _); [done |]. by destruct (_ && _).
Qed.

Lemma resolve_filename_entries (video_url : string) (w : World) :
  entries (snd (resolve_filename video_url w)) = entries w.
Proof.
  rewrite resolve_filename_run. cbn.
  by destruct (unused_name w _).
Qed.


Lemma download_video_eq (video_url download_folder : string) (w : World) :
  download_video video_url download_folder w =
    try_except (download_attempt video_url download_folder)
               (except_RequestException video_url) (with_folder w).
Proof.
  unfold download_video, with_folder, mbind, M_bind, bind, get_world. cbn.
  by destruct (bool_decide (is_Some (folder w))).
Qed.

Lemma with_folder_entries (w : World) : entries (with_folder w) = entries w.
Proof.
  unfold with_folder, entries. case_bool_decide as H; [done |].
  cbn. destruct (folder w); [|done]. exfalso. apply H. by eexists.
Qed.

Lemma with_folder_is_Some (w : World) : is_Some (folder (with_folder w)).
Proof. unfold with_folder. case_bool_decide; [done | by eexists]. Qed.

Lemma except_RequestException_entries (video_url : string) (e : exn) (w : World) :
  entries (snd (except_RequestException video_url e w)) = entries w.
Proof. unfold except_RequestException. by destruct (is_RequestException e). Qed.

Lemma download_attempt_keeps_entries (video_url download_folder : string) (w : World)
    (f content : string) :
  is_Some (folder w) ->
  entries w !! f = Some content ->
  entries (snd (download_attempt video_url download_folder w)) !! f = Some content.
Proof.
  intros Hfolder Hf. unfold download_attempt.
  unfold mbind, M_bind, bind, requests_get. cbn.
  destruct (network w video_url) as [msg|r]; cbn; fold_entries; [done |].
  pose proof (raise_for_status_world r
                (add_stdout ("Downloading " +:+ video_url +:+ "...") w)) as Hs.
  destruct (raise_for_status r _) as [[[]|e|] w2]; cbn in Hs; subst w2;
    cbn; fold_entries; try done.
  destruct (negb _); cbn; fold_entries; [done |].
  rewrite resolve_filename_run.
  destruct (unused_name _ _) as [name|] eqn:Hname; cbn; fold_entries; [|done].
  apply unused_name_unused in Hname.
  rewrite save_response_lookup_ne; [done |].
  intros ->. apply entry_exists_false_lookup in Hname; [|done].
  change (entries w !! name = None) in Hname. congruence.
Qed.

Lemma download_video_keeps_entries (video_url download_folder : string) (w : World)
    (f content : string) :
  entries w !! f = Some content ->
  entries (snd (download_video video_url download_folder w)) !! f = Some content.
Proof.
  intros Hf. rewrite download_video_eq, try_except_entries.
  - apply download_attempt_keeps_entries; [apply with_folder_is_Some |].
    by rewrite with_folder_entries.
  - apply except_RequestException_entries.
Qed.

Lemma raise_for_status_ok (r : Response) (w : World) :
  status_code r < 400 \/ 600 <= status_code r ->
  raise_for_status r w = (Returned tt, w).
Proof.
  intros H. unfold raise_for_status.
  destruct (400 <=? status_code r)%nat eqn:E1, (status_code r <? 500)%nat eqn:E2,
    (500 <=? status_code r)%nat eqn:E3, (status_code r <? 600)%nat eqn:E4; cbn; try done;
    apply Nat.leb_le in E1 || apply Nat.leb_gt in E1;
    apply Nat.ltb_lt in E2 || apply Nat.ltb_ge in E2;
    apply Nat.leb_le in E3 || apply Nat.leb_gt in E3;
    apply Nat.ltb_lt in E4 || apply Nat.ltb_ge in E4; lia.
Qed.

Lemma raise_for_status_cases (r : Response) (w : World) :
  raise_for_status r w = (Returned tt, w) \/
  exists msg, raise_for_status r w = (Raised (RequestException msg), w).
Proof.
  unfold raise_for_status.
  destruct (_ && _); [right; by eexists |].
  destruct (_ && _); [right; by eexists | by left].
Qed.

Lemma download_attempt_not_video (video_url download_folder : string) (w : World)
    (r : Response) :
  network w video_url = FetchOk r ->
  PyStr.contains "video" (default "" (content_type r)) = false ->
  let w1 := add_stdout ("Downloading " +:+ video_url +:+ "...") w in
  download_attempt video_url download_folder w =
    match raise_for_status r w1 with
    | (Returned _, _) =>
        (Returned false, add_stdout ("Skipping " +:+ video_url +:+ " (not a video).") w1)
    | (Raised e, _) => (Raised e, w1)
    | (Diverged, _) => (Diverged, w1)
    end.
Proof.
  intros Hnet Hct w1. unfold download_attempt, mbind, M_bind, bind, requests_get. cbn.
  rewrite Hnet. fold w1.
  destruct (raise_for_status_cases r w1) as [->|[msg ->]]; [|done].
  by rewrite Hct.
Qed.

(** A response that is no video: [download_video] returns [False] and
    leaves the folder and the disk as they were. *)
Lemma download_video_not_video (video_url download_folder : string) (w : World) (r : Response) :
  network w video_url = FetchOk r ->
  PyStr.contains "video" (default "" (content_type r)) = false ->
  let out := download_video video_url download_folder w in
  fst out = Returned false
  /\ entries (snd out) = entries w
  /\ free_space (snd out) = free_space w
  /\ (status_code r < 400 \/ 600 <= status_code r ->
      stdout (snd out) =
        (stdout w ++ ["Downloading " +:+ video_url +:+ "...";
                      "Skipping " +:+ video_url +:+ " (not a video)."])%list).
Proof.
  intros Hnet Hct. cbn zeta. rewrite download_video_eq. unfold try_except.
  assert (network (with_folder w) video_url = FetchOk r) as Hnet'.
  { unfold with_folder. by case_bool_decide. }
  assert (free_space (with_folder w) = free_space w) as Hfree.
  { unfold with_folder. by case_bool_decide. }
  assert (stdout (with_folder w) = stdout w) as Hout.
  { unfold with_folder. by case_bool_decide. }
  pose proof (with_folder_entries w) as Hent.
  generalize dependent (with_folder w). intros w1 Hnet' Hfree Hout Hent.
  rewrite (download_attempt_not_video _ _ _ r) by done.
  destruct (raise_for_status_cases r
              (add_stdout ("Downloading " +:+ video_url +:+ "...") w1))
    as [E|[msg E]].
  - rewrite E. cbn. fold_entries. repeat split; try done.
    intros _. rewrite Hout. by rewrite <- app_assoc.
  - rewrite E. cbn. unfold mbind, M_bind, bind. cbn. fold_entries.
    repeat split; try done.
    intros Hok. rewrite raise_for_status_ok in E by done. done.
Qed.

(** C2.  When the response of a task carries a [Content-Type] without
    [video] (a missing header counts as the empty string), [download_video]
    returns [False], and the folder has the entries and the disk the free
    space it had before the call: no file is created and no byte of the body
    is written.  When the status is no error status, the call reports the
    skip on [stdout]; with a status from 400 to 599 [raise_for_status] has
    already raised and the call reports the failure instead. *)
Theorem non_video_response_is_skipped (video_url download_folder : string) (w : World) (r : Response) :
  network w video_url = FetchOk r ->
  PyStr.contains "video" (default "" (content_type r)) = false ->
  let out := download_video video_url download_folder w in
  fst out = Returned false
  /\ entries (snd out) = entries w
  /\ free_space (snd out) = free_space w
  /\ (status_code r < 400 \/ 600 <= status_code r ->
      stdout (snd out) =
        (stdout w ++ ["Downloading " +:+ video_url +:+ "...";
                      "Skipping " +:+ video_url +:+ " (not a video)."])%list).
Proof. apply download_video_not_video. Qed.

Lemma download_video_fetch_error (video_url download_folder : string) (w : World)
    (msg : string) :
  network w video_url = FetchError msg ->
  let out := download_video video_url download_folder w in
  fst out = Returned false
  /\ entries (snd out) = entries w
  /\ stdout (snd out) =
       (stdout w ++ ["Downloading " +:+ video_url +:+ "...";
                     "Error downloading " +:+ video_url +:+ ": " +:+ msg])%list.
Proof.
  intros Hnet. cbn zeta. rewrite download_video_eq. unfold try_except.
  assert (network (with_folder w) video_url = FetchError msg) as Hnet'.
  { unfold with_folder. by case_bool_decide. }
  assert (stdout (with_folder w) = stdout w) as Hout.
  { unfold with_folder. by case_bool_decide. }
  pose proof (with_folder_entries w) as Hent.
  generalize dependent (with_folder w). intros w1 Hnet' Hout Hent.
  unfold download_attempt, mbind, M_bind, bind, requests_get. cbn.
  rewrite Hnet'. cbn. unfold mbind, M_bind, bind. cbn. fold_entries.
  repeat split; try done.
  rewrite Hout. by rewrite <- app_assoc.
Qed.

Lemma unused_name_spec (w : World) (video_name : string) :
  exists name,
    unused_name w video_name = Some name
    /\ entry_exists w name = false
    /\ (entry_exists w video_name = false -> name = video_name)
    /\ (entry_exists w video_name = true ->
        exists k, 1 <= k
          /\ name = candidate (OsPath.splitext video_name).1 (OsPath.splitext video_name).2 k
          /\ forall j, 1 <= j < k ->
               entry_exists w (candidate (OsPath.splitext video_name).1
                                            (OsPath.splitext video_name).2 j) = true).
Proof.
  destruct (unused_name_total w video_name) as (name & Hname & Hfree).
  exists name. split; [done |]. split; [done |].
  unfold unused_name in Hname. destruct (entry_exists w video_name) eqn:E.
  - split; [done |]. intros _.
    destruct (OsPath.splitext video_name) as [base_name ext]. cbn.
    apply probe_names_Some in Hname as [_ [[Hc _]|[_ Hk]]]; [congruence | done].
  - injection Hname as <-. split; [done | done].
Qed.

Lemma entry_exists_lookup (w : World) (d : gmap string string) (name : string) :
  folder w = Some d ->
  entry_exists w name = names_directory name || bool_decide (is_Some (d !! name)).
Proof. intros H. unfold entry_exists. by rewrite H. Qed.

Lemma unused_name_video_1 (w : World) (d : gmap string string) :
  folder w = Some d -> is_Some (d !! "video.mp4") -> d !! "video_1.mp4" = None ->
  unused_name w "video.mp4" = Some "video_1.mp4".
Proof.
  intros Hd H0 H1.
  destruct (unused_name_spec w "video.mp4") as (name & -> & _ & _ & Hk). f_equal.
  destruct Hk as (k & Hk & -> & Hall).
  { rewrite (entry_exists_lookup w d) by done. by rewrite (bool_decide_eq_true_2 _ H0). }
  destruct (decide (k = 1)) as [->|]; [by vm_compute |].
  specialize (Hall 1 ltac:(lia)). rewrite (entry_exists_lookup w d) in Hall by done.
  change (bool_decide (is_Some (d !! "video_1.mp4")) = true) in Hall.
  rewrite H1 in Hall. by apply bool_decide_eq_true, is_Some_None in Hall.
Qed.

Lemma unused_name_video_2 (w : World) (d : gmap string string) :
  folder w = Some d -> is_Some (d !! "video.mp4") -> is_Some (d !! "video_1.mp4") ->
  d !! "video_2.mp4" = None ->
  unused_name w "video.mp4" = Some "video_2.mp4".
Proof.
  intros Hd H0 H1 H2.
  destruct (unused_name_spec w "video.mp4") as (name & -> & Hfree & _ & Hk). f_equal.
  destruct Hk as (k & Hk & -> & Hall).
  { rewrite (entry_exists_lookup w d) by done. by rewrite (bool_decide_eq_true_2 _ H0). }
  destruct (decide (k = 1)) as [->|].
  { rewrite (entry_exists_lookup w d) in Hfree by done.
    change (bool_decide (is_Some (d !! "video_1.mp4")) = false) in Hfree.
    by rewrite (bool_decide_eq_true_2 _ H1) in Hfree. }
  destruct (decide (k = 2)) as [->|]; [by vm_compute |].
  specialize (Hall 2 ltac:(lia)). rewrite (entry_exists_lookup w d) in Hall by done.
  change (bool_decide (is_Some (d !! "video_2.mp4")) = true) in Hall.
  rewrite H2 in Hall. by apply bool_decide_eq_true, is_Some_None in Hall.
Qed.

Lemma write_chunks_keeps_file (video_name : string) (cs : list string) (err : option string)
    (w : World) :
  is_Some (entries w !! video_name) ->
  is_Some (entries (snd (write_chunks video_name cs err w)) !! video_name).
Proof.
  revert w. induction cs as [|chunk cs IH]; intros w Hw; cbn.
  - by destruct err.
  - unfold mbind, M_bind, bind, file_write.
    destruct (String.length chunk <=? free_space w)%nat; [|done].
    apply IH. cbn. rewrite lookup_insert_eq. by eexists.
Qed.




Lemma write_chunks_not_diverged (video_name : string) (cs : list string) (err : option string)
    (w : World) :
  fst (write_chunks video_name cs err w) <> Diverged.
Proof.
  revert w. induction cs as [|chunk cs IH]; intros w; cbn.
  - by destruct err.
  - unfold mbind, M_bind, bind, file_write.
    destruct (String.length chunk <=? free_space w)%nat; [apply IH | done].
Qed.

Lemma save_response_not_diverged (r : Response) (video_name download_folder : string)
    (w : World) :
  fst (save_response r video_name download_folder w) <> Diverged.
Proof.
  unfold save_response, mbind, M_bind, bind, open_wb.
  destruct (folder w); [|done]. destruct (names_directory video_name); [done |].
  unfold total_size_of. destruct (content_length r); cbn; try done;
    match goal with
    | |- context [write_chunks ?n ?c ?e ?w1] =>
        pose proof (write_chunks_not_diverged n c e w1);
        destruct (write_chunks n c e w1) as [[[]| |] ?]; cbn in *; done
    end.
Qed.

(** [download_video] always comes back: it returns or it raises. *)
Lemma download_video_not_diverged (video_url download_folder : string) (w : World) :
  fst (download_video video_url download_folder w) <> Diverged.
Proof.
  rewrite download_video_eq. generalize (with_folder w). intros w1.
  unfold try_except, download_attempt, mbind, M_bind, bind, requests_get. cbn.
  destruct (network w1 video_url) as [msg|r]; cbn.
  { unfold mbind, M_bind, bind. cbn. done. }
  destruct (raise_for_status_cases r
              (add_stdout ("Downloading " +:+ video_url +:+ "...") w1)) as [->|[msg ->]].
  2:{ cbn. unfold mbind, M_bind, bind. cbn. done. }
  destruct (negb _); cbn; [done |].
  rewrite resolve_filename_run.
  destruct (unused_name_total (add_stdout ("Downloading " +:+ video_url +:+ "...") w1)
              (clean_filename (filename_hint video_url))) as (name & -> & _).
  cbn. set (w2 := add_stdout _ _).
  pose proof (save_response_not_diverged r name download_folder w2) as Hs.
  destruct (save_response r name download_folder w2) as [[b|e|] w3]; cbn in *; try done.
  unfold except_RequestException. destruct (is_RequestException e); cbn; [|done].
  unfold mbind, M_bind, bind. cbn. done.
Qed.

(** C8.  The collision loop of [download_video] ends for every folder: with
    [n] entries in the folder the condition [os.path.exists(video_path)] is
    tested at most [n + 2] times, whatever fuel beyond that is given, and the
    loop leaves with a name that does not exist.  The collision check of
    [download_video] therefore always returns a name, and no call of
    [download_video] hangs: it returns or it raises. *)
Theorem collision_loop_terminates (w : World) (base_name ext video_name : string)
    (counter fuel : nat) :
  2 + size (entries w) <= fuel ->
  exists name,
    probe_names fuel (entry_exists w) base_name ext video_name counter = Some name
    /\ probe_names (2 + size (entries w)) (entry_exists w) base_name ext video_name counter
       = Some name
    /\ entry_exists w name = false
    /\ is_Some (unused_name w video_name)
    /\ forall video_url download_folder : string,
         fst (download_video video_url download_folder w) <> Diverged.
Proof.
  intros Hfuel.
  destruct (probe_names_entries_terminates w base_name ext video_name counter
              (2 + size (entries w)) (le_n _)) as [name Hname].
  exists name. split; [|split; [done |]; split; [|split]].
  - by apply (probe_names_more_fuel _ _ _ (2 + size (entries w))).
  - by apply probe_names_Some in Hname as [? _].
  - destruct (unused_name_total w video_name) as (name' & -> & _). by eexists.
  - intros video_url download_folder. apply download_video_not_diverged.
Qed.

(** A download changes neither the network nor adds free space. *)
Lemma write_chunks_frame (video_name : string) (cs : list string) (err : option string)
    (w : World) :
  let w' := snd (write_chunks video_name cs err w) in
  network w' = network w /\ free_space w' <= free_space w.
Proof.
  revert w. induction cs as [|chunk cs IH]; intros w; cbn.
  - by destruct err.
  - unfold mbind, M_bind, bind, file_write.
    destruct (String.length chunk <=? free_space w)%nat; [|done].
    match goal with |- context [write_chunks _ _ _ ?w1] => destruct (IH w1) as [Hn Hf] end.
    cbn in *. split; [done | lia].
Qed.

Lemma save_response_frame (r : Response) (video_name download_folder : string)
    (w : World) :
  entries w !! video_name = None ->
  let w' := snd (save_response r video_name download_folder w) in
  network w' = network w /\ free_space w' <= free_space w.
Proof.
  intros Hnew. unfold save_response, mbind, M_bind, bind, open_wb.
  unfold entries in Hnew.
  destruct (folder w) as [d|] eqn:Hd; [|done]. cbn in Hnew.
  destruct (names_directory video_name); [done |]. rewrite Hnew. cbn.
  unfold total_size_of. destruct (content_length r); cbn; try (split; [done | lia]);
    match goal with
    | |- context [write_chunks ?n ?c ?e ?w1] =>
        destruct (write_chunks_frame n c e w1) as [Hn Hf];
        destruct (write_chunks n c e w1) as [[[]| |] ?]; cbn in *; (split; [done | lia])
    end.
Qed.

Lemma download_video_frame (video_url download_folder : string) (w : World) :
  let w' := snd (download_video video_url download_folder w) in
  network w' = network w /\ free_space w' <= free_space w.
Proof.
  rewrite download_video_eq.
  assert (network (with_folder w) = network w /\ free_space (with_folder w) = free_space w)
    as [<- <-] by (unfold with_folder; by case_bool_decide).
  pose proof (with_folder_is_Some w) as Hfolder.
  generalize dependent (with_folder w). intros w1 Hfolder.
  unfold try_except, download_attempt, mbind, M_bind, bind, requests_get. cbn.
  destruct (network w1 video_url) as [msg|r]; cbn.
  { unfold mbind, M_bind, bind. cbn. done. }
  destruct (raise_for_status_cases r
              (add_stdout ("Downloading " +:+ video_url +:+ "...") w1)) as [->|[msg ->]].
  2:{ cbn. unfold mbind, M_bind, bind. cbn. done. }
  destruct (negb _); cbn; [done |].
  rewrite resolve_filename_run.
  destruct (unused_name_total (add_stdout ("Downloading " +:+ video_url +:+ "...") w1)
              (clean_filename (filename_hint video_url))) as (name & -> & Hfree).
  cbn. set (w2 := add_stdout _ _).
  assert (entries w2 !! name = None) as Hnew.
  { by apply (entry_exists_false_lookup w1). }
  destruct (save_response_frame r name download_folder w2 Hnew) as [Hn Hf].
  destruct (save_response r name download_folder w2) as [[b|e|] w3]; cbn in *; try done.
  unfold except_RequestException. destruct (is_RequestException e); cbn; [|done].
  unfold mbind, M_bind, bind. cbn. done.
Qed.

Lemma write_chunks_short_disk (video_name : string) (cs : list string) (err : option string)
    (w : World) :
  free_space w < body_size cs ->
  fst (write_chunks video_name cs err w) = Raised (OSError "[Errno 28] No space left on device").
Proof.
  revert w. induction cs as [|chunk cs IH]; intros w Hshort; cbn in *; [lia |].
  unfold mbind, M_bind, bind, file_write.
  destruct (String.length chunk <=? free_space w)%nat eqn:E; [|done].
  apply Nat.leb_le in E. apply IH. cbn. unfold body_size in *. cbn in Hshort. lia.
Qed.

(** A video that does not fit on the disk: the write raises [OSError], and
    [download_video] lets it through. *)
Lemma download_video_short_disk (video_url download_folder : string) (w : World)
    (r : Response) :
  network w video_url = FetchOk r ->
  status_code r < 400 \/ 600 <= status_code r ->
  PyStr.contains "video" (default "" (content_type r)) = true ->
  (forall text, content_length r <> CL_invalid text) ->
  free_space w < body_size (chunks r) ->
  fst (download_video video_url download_folder w)
  = Raised (OSError "[Errno 28] No space left on device").
Proof.
  intros Hnet Hok Hct Hcl Hshort. rewrite download_video_eq.
  assert (network (with_folder w) = network w /\ free_space (with_folder w) = free_space w)
    as [Hn Hf] by (unfold with_folder; by case_bool_decide).
  rewrite <- Hn in Hnet. rewrite <- Hf in Hshort. clear Hn Hf.
  pose proof (with_folder_is_Some w) as Hfolder.
  generalize dependent (with_folder w). intros w1 Hnet Hshort Hfolder.
  unfold try_except, download_attempt, mbind, M_bind, bind, requests_get. cbn.
  rewrite Hnet. rewrite raise_for_status_ok by done. rewrite Hct. cbn.
  rewrite resolve_filename_run.
  destruct (unused_name_total (add_stdout ("Downloading " +:+ video_url +:+ "...") w1)
              (clean_filename (filename_hint video_url))) as (name & -> & Hfree).
  cbn. set (w2 := add_stdout _ _).
  assert (entries w2 !! name = None) as Hnew by (by apply (entry_exists_false_lookup w1)).
  assert (fst (save_response r name download_folder w2)
          = Raised (OSError "[Errno 28] No space left on device")) as Hsave.
  { unfold save_response, mbind, M_bind, bind, open_wb.
    destruct Hfolder as [d Hd]. change (folder w2) with (folder w1). rewrite Hd.
    assert (names_directory name = false) as ->.
    { unfold entry_exists in Hfree. cbn in Hfree. rewrite Hd in Hfree.
      by apply orb_false_iff in Hfree as [? _]. }
    unfold entries in Hnew. change (folder w2) with (folder w1) in Hnew.
    rewrite Hd in Hnew. cbn in Hnew. rewrite Hnew. cbn.
    unfold total_size_of. destruct (content_length r) eqn:Ecl; cbn.
    3:{ by destruct (Hcl text). }
    all: match goal with
         | |- context [write_chunks ?n ?c ?e ?w3] =>
             pose proof (write_chunks_short_disk n c e w3) as Hw;
             specialize (Hw ltac:(cbn; lia));
             destruct (write_chunks n c e w3) as [[[]| |] ?]; cbn in *
         end; try done; by injection Hw as ->. }
  destruct (save_response r name download_folder w2) as [[b|e|] w3]; cbn in *; try done.
  by injection Hsave as ->.
Qed.

(** What [download_video] raises is no [RequestException]. *)
Lemma download_video_raises_other (video_url download_folder : string) (w : World) (e : exn) :
  fst (download_video video_url download_folder w) = Raised e ->
  is_RequestException e = false.
Proof.
  rewrite download_video_eq. unfold try_except.
  destruct (download_attempt video_url download_folder (with_folder w)) as [[b|e0|] w1];
    cbn; try done.
  unfold except_RequestException. destruct (is_RequestException e0) eqn:E; cbn.
  - unfold mbind, M_bind, bind. cbn. done.
  - by intros [= <-].
Qed.

(** ** The thread pool *)

Section PoolFacts.
Import Pool PoolInvariants.

(** A property kept by every step holds along every schedule. *)
Lemma run_invariant (P : state -> Prop) :
  (forall a s s', step a s = Some s' -> P s -> P s') ->
  forall schedule s s', run schedule s = Some s' -> P s -> P s'.
Proof.
  intros Hstep schedule. induction schedule as [|a schedule IH]; intros s s' Hrun Hs.
  - by injection Hrun as <-.
  - cbn in Hrun. destruct (step a s) as [s1|] eqn:E; [|done].
    eapply IH; [done |]. by eapply Hstep.
Qed.

Ltac step_cases H :=
  unfold step, main_step, worker_step, submit, adjust_thread_count in H;
  repeat case_match; simplify_eq; cbn.

Lemma step_constants (a : action) (s s' : state) :
  step a s = Some s' ->
  selected_videos s' = selected_videos s /\ download_folder s' = download_folder s.
Proof. intros H. destruct a; step_cases H; done. Qed.

Lemma step_threads_bound (a : action) (s s' : state) :
  step a s = Some s' ->
  length (threads s) <= max_workers -> length (threads s') <= max_workers.
Proof.
  intros H Hle. destruct a; step_cases H; rewrite ?length_insert, ?length_app; try done.
  match goal with E : (_ <? _)%nat = true |- _ => apply Nat.ltb_lt in E; cbn in E end.
  cbn. lia.
Qed.

Lemma in_flight_le_threads (s : state) : in_flight s <= length (threads s).
Proof. apply length_filter. Qed.

(** C9.  Along every schedule of the pool, for every list of tasks, at
    most five worker threads exist and so at most five calls of
    [download_video] are in flight at any time. *)
Theorem at_most_five_downloads_in_flight (selected_videos : list string)
    (download_folder : string) (w : World) (schedule : list action) (s : state) :
  run schedule (download_videos_concurrently selected_videos download_folder w) = Some s ->
  in_flight s <= 5 /\ length (threads s) <= 5.
Proof.
  intros Hrun.
  assert (length (threads s) <= max_workers) as Hle.
  { eapply (run_invariant (fun s => length (threads s) <= max_workers));
      [apply step_threads_bound | done | cbn; unfold max_workers; lia]. }
  split; [|done]. etrans; [apply in_flight_le_threads | done].
Qed.

(** *** The count *)

Lemma successes_app (fs gs : list future) :
  successes (fs ++ gs) = successes fs + successes gs.
Proof. unfold successes. by rewrite filter_app, length_app. Qed.

Lemma successes_le (fs : list future) : successes fs <= length fs.
Proof. apply length_filter. Qed.



Lemma worker_step_futures_length (k : nat) (s s' : state) :
  worker_step k s = Some s' -> length (futures s') = length (futures s).
Proof.
  intros H. unfold worker_step in H.
  repeat case_match; simplify_eq; cbn; by rewrite ?length_insert.
Qed.

Lemma not_returned_beyond (fs : list future) (n i : nat) (f : future) :
  Forall returned (take n fs) -> fs !! i = Some f -> ~ returned f -> n <= i.
Proof.
  intros Hall Hi Hf. destruct (decide (n <= i)) as [|Hlt]; [done |].
  exfalso. apply Hf. eapply (proj1 (Forall_lookup _ _) Hall i).
  rewrite lookup_take_lt by lia. done.
Qed.

Lemma step_main_invariant (a : action) (s s' : state) :
  step a s = Some s' -> main_invariant s -> main_invariant s'.
Proof.
  intros H Hinv. unfold main_invariant in *. destruct a.
  - (* the main thread *)
    unfold step, main_step in H. destruct (main s) as [n|n c|r|r] eqn:Hmain.
    + destruct Hinv as [Hlen Hle].
      destruct (selected_videos s !! n) as [url|] eqn:Hn; simplify_eq; cbn.
      * unfold submit, adjust_thread_count. repeat case_match; cbn;
          rewrite length_app; cbn; (split; [lia |]);
          apply lookup_lt_Some in Hn; lia.
      * apply lookup_ge_None_1 in Hn. rewrite take_0. repeat split; try done; lia.
    + destruct Hinv as (Hlen & Hle & Hall & ->).
      destruct (futures s !! n) as [[| | |[b|e|]]|] eqn:Hn; simplify_eq; cbn; try done.
      * rewrite (take_S_r _ _ _ Hn).
        split; [done |]. split; [by apply lookup_lt_Some in Hn |].
        split; [apply Forall_app; split; [done |]; apply Forall_singleton; by eexists |].
        fold (successes (take n (futures s))).
        fold (successes (take n (futures s) ++ [Finished (Returned b)])).
        rewrite successes_app.
        destruct b;
          [change (successes [Finished (Returned true)]) with 1
          |change (successes [Finished (Returned false)]) with 0]; lia.
      * apply lookup_ge_None_1 in Hn. rewrite take_ge in * by lia. done.
    + destruct (work_queue s); [|done]. destruct (forallb _ _); simplify_eq. cbn.
      by destruct r.
    + done.
  - (* a worker thread *)
    assert (main s' = main s) as Hmain by (step_cases H; done).
    pose proof (worker_step_futures_length _ _ _ H) as Hlen'.
    destruct (step_constants _ _ _ H) as [Hvids _].
    rewrite Hmain, Hvids.
    assert (forall n, Forall returned (take n (futures s)) ->
                      take n (futures s') = take n (futures s)) as Htake.
    { intros n Hall. cbn in H. unfold worker_step in H.
      repeat case_match; simplify_eq; cbn; try done;
        (rewrite take_insert_ge; [done |]);
        (eapply not_returned_beyond; [done | done |]); intros [b [=]]. }
    assert (Forall returned (futures s) -> futures s' = futures s) as Hsame.
    { intros Hall. specialize (Htake (length (futures s))).
      rewrite (take_ge (futures s)), (take_ge (futures s')) in Htake by lia. auto. }
    destruct (main s) as [n|n c|[c|e|]|[c|e|]]; try done.
    + by rewrite Hlen'.
    + destruct Hinv as (? & ? & Hall & ?). rewrite Hlen', Htake by done. done.
    + destruct Hinv as (? & Hall & ?). by rewrite Hsame.
    + destruct Hinv as (? & Hall & ?). by rewrite Hsame.
Qed.

Lemma cancel_after_finished_inv (n : nat) (fs : list future) (i : nat) (r : result bool) :
  cancel_after n fs !! i = Some (Finished r) -> fs !! i = Some (Finished r).
Proof.
  unfold cancel_after. intros H.
  rewrite <- (take_drop (S n) fs) at 1.
  apply lookup_app_Some in H as [H|[Hlen H]].
  - by apply lookup_app_l_Some.
  - rewrite lookup_app_r by done. rewrite list_lookup_fmap in H.
    destruct (drop (S n) fs !! _) as [[]|]; cbn in H; congruence.
Qed.

(** a future is finished by the worker that ran its task, with the
    outcome of [download_video] *)
Lemma step_finished_origin (a : action) (s s' : state) (i : nat) (r : result bool) :
  step a s = Some s' ->
  futures s' !! i = Some (Finished r) ->
  futures s !! i = Some (Finished r)
  \/ exists video_url,
       selected_videos s !! i = Some video_url
       /\ fst (download_video video_url (download_folder s) (world s)) = r.
Proof.
  intros H Hi. destruct a as [|k]; cbn in H.
  - unfold main_step in H. repeat case_match; simplify_eq; cbn in Hi; try by left.
    + left. unfold submit, adjust_thread_count in Hi.
      repeat case_match; cbn in Hi;
        (apply lookup_app_Some in Hi as [Hi|[_ Hi]]; [done |]);
        by destruct (i - _).
    + left. by apply cancel_after_finished_inv in Hi.
    + left. by apply cancel_after_finished_inv in Hi.
  - unfold worker_step in H. repeat case_match; simplify_eq; cbn in Hi; try by left.
    + apply list_lookup_insert_Some in Hi as [(_ & [=] & _)|[_ Hi]]. by left.
    + apply list_lookup_insert_Some in Hi as [(<- & [= <-] & _)|[_ Hi]]; [|by left].
      right. eexists. split; [done |].
      match goal with E : download_video _ _ _ = _ |- _ => by rewrite E end.
    + apply list_lookup_insert_Some in Hi as [(<- & [= <-] & _)|[_ Hi]]; [|by left].
      right. eexists. split; [done |].
      match goal with E : download_video _ _ _ = _ |- _ => by rewrite E end.
Qed.

(** a step leaves the world alone or runs one download on it *)
Lemma step_world (a : action) (s s' : state) :
  step a s = Some s' ->
  world s' = world s
  \/ exists video_url,
       world s' = snd (download_video video_url (download_folder s) (world s)).
Proof.
  intros H. destruct a as [|k]; cbn in H.
  - left. unfold main_step, submit, adjust_thread_count in H.
    repeat case_match; simplify_eq; done.
  - unfold worker_step in H. repeat case_match; simplify_eq; cbn; try (by left).
    all: right; eexists;
      match goal with E : download_video _ _ _ = _ |- _ => by rewrite E end.
Qed.

Lemma step_outcomes_invariant (W : World -> Prop) (a : action) (s s' : state) :
  (forall video_url w, W w -> W (snd (download_video video_url (download_folder s) w))) ->
  step a s = Some s' -> outcomes_invariant W s -> outcomes_invariant W s'.
Proof.
  intros HW H [Hw Hinv]. split.
  - destruct (step_world _ _ _ H) as [->|[url ->]]; [done | by apply HW].
  - intros i r Hi. destruct (step_constants _ _ _ H) as [-> ->].
    destruct (step_finished_origin _ _ _ _ _ H Hi) as [Hold|(url & Hurl & Hr)].
    + by apply Hinv.
    + by exists url, (world s).
Qed.

Lemma finished_futures_come_from_downloads (W : World -> Prop)
    (selected_videos : list string) (download_folder : string) (w0 : World)
    (schedule : list action) (s : state) :
  (forall video_url w, W w -> W (snd (download_video video_url download_folder w))) ->
  W w0 ->
  run schedule (download_videos_concurrently selected_videos download_folder w0) = Some s ->
  W (world s)
  /\ forall i r, futures s !! i = Some (Finished r) ->
       exists video_url w,
         W w
         /\ selected_videos !! i = Some video_url
         /\ fst (download_video video_url download_folder w) = r.
Proof.
  intros HW Hw0 Hrun.
  set (s0 := download_videos_concurrently selected_videos download_folder w0) in *.
  assert (Pool.selected_videos s = selected_videos
          /\ Pool.download_folder s = download_folder
          /\ outcomes_invariant W s) as (Hv & Hf & Hw & Hout).
  { eapply (run_invariant (fun s => Pool.selected_videos s = selected_videos
                                    /\ Pool.download_folder s = download_folder
                                    /\ outcomes_invariant W s)); [|done |].
    - intros a s1 s2 H (<- & <- & Hinv).
      destruct (step_constants _ _ _ H) as [-> ->]. split; [done |]. split; [done |].
      eapply step_outcomes_invariant; [|done | done]. done.
    - split; [done |]. split; [done |]. split; [done |]. intros i r Hi. done. }
  split; [done |]. intros i r Hi. destruct (Hout i r Hi) as (url & w & ? & Hurl & Hr).
  rewrite Hv in Hurl. rewrite Hf in Hr. by exists url, w.
Qed.

(** When [download_videos_concurrently] returns a count, every task has
    a future that holds the value its call of [download_video] returned,
    and the count is the number of [True] among them. *)
Lemma count_is_number_of_true_results (selected_videos : list string)
    (download_folder : string) (w : World) (schedule : list action) (s : state)
    (downloaded_count : nat) :
  run schedule (download_videos_concurrently selected_videos download_folder w) = Some s ->
  main s = Done (Returned downloaded_count) ->
  length (futures s) = length selected_videos
  /\ Forall returned (futures s)
  /\ downloaded_count = successes (futures s)
  /\ forall i r, futures s !! i = Some (Finished r) ->
       exists video_url w',
         selected_videos !! i = Some video_url
         /\ fst (download_video video_url download_folder w') = r.
Proof.
  intros Hrun Hmain.
  set (s0 := download_videos_concurrently selected_videos download_folder w) in *.
  assert (main_invariant s) as Hinv.
  { eapply (run_invariant main_invariant); [apply step_main_invariant | done |].
    cbn. split; [done | lia]. }
  destruct (finished_futures_come_from_downloads (fun _ => True) _ _ _ _ _
              (fun _ _ _ => I) I Hrun) as [_ Hout].
  assert (Pool.selected_videos s = selected_videos) as Hv.
  { eapply (run_invariant (fun s => Pool.selected_videos s = selected_videos)); [|done | done].
    intros a s1 s2 H <-. by apply step_constants in H as [? _]. }
  unfold main_invariant in Hinv. rewrite Hmain in Hinv.
  destruct Hinv as (Hlen & Hall & Hcount).
  rewrite Hv in Hlen. repeat split; try done.
  intros i r Hi. destruct (Hout i r Hi) as (url & w' & _ & Hurl & Hr). by exists url, w'.
Qed.

Lemma successes_failures (fs : list future) :
  Forall returned fs -> successes fs + failures fs = length fs.
Proof.
  unfold successes, failures. induction 1 as [|f fs [b ->] _ IH]; [done |].
  rewrite !filter_cons. destruct b; cbn [is_success is_failure];
    repeat case_decide; try done; cbn; lia.
Qed.




(** *** Work items and worker threads *)

Lemma cancel_after_lookup (n : nat) (fs : list future) (i : nat) :
  cancel_after n fs !! i = (if decide (i <= n) then id else cancel) <$> fs !! i.
Proof.
  unfold cancel_after. case_decide as Hi.
  - destruct (decide (i < length fs)) as [Hlt|Hge].
    + rewrite lookup_app_l by (rewrite length_take; lia).
      rewrite lookup_take_lt by lia. by destruct (fs !! i).
    + rewrite (lookup_ge_None_2 fs) by lia. apply lookup_ge_None_2.
      rewrite length_app, length_take, length_fmap, length_drop. lia.
  - destruct (decide (S n <= length fs)) as [Hlen|Hlen].
    + rewrite lookup_app_r by (rewrite length_take; lia).
      rewrite length_take, list_lookup_fmap, lookup_drop.
      replace (S n + (i - S n `min` length fs)) with i by lia. done.
    + rewrite (lookup_ge_None_2 fs) by lia. apply lookup_ge_None_2.
      rewrite length_app, length_take, length_fmap, length_drop. lia.
Qed.

Lemma cancel_after_waiting (n : nat) (fs : list future) (i : nat) :
  (exists f, fs !! i = Some f /\ waiting f) ->
  exists f, cancel_after n fs !! i = Some f /\ waiting f.
Proof.
  intros (f & Hf & Hw). rewrite cancel_after_lookup, Hf. cbn.
  case_decide; [by exists f |]. exists Cancelled. split; [|by right].
  by destruct Hw as [-> | ->].
Qed.

Lemma cancel_after_running (n : nat) (fs : list future) (i : nat) :
  fs !! i = Some Running -> cancel_after n fs !! i = Some Running.
Proof. intros Hf. rewrite cancel_after_lookup, Hf. cbn. by case_decide. Qed.

Lemma length_cancel_after (n : nat) (fs : list future) :
  length (cancel_after n fs) = length fs.
Proof.
  unfold cancel_after. rewrite length_app, length_take, length_fmap, length_drop. lia.
Qed.

Lemma main_step_workers_invariant (s s' : state) :
  main_invariant s ->
  main_step s = Some s' -> workers_invariant s -> workers_invariant s'.
Proof.
  intros Hmi H Hinv. pose proof Hinv as (Hnd & Hone & Hout & Hq & Hh & Hb & Hlen).
  unfold main_step in H. unfold main_invariant in Hmi.
  destruct (main s) as [n|n c|r|r] eqn:Hmain.
  - destruct Hmi as [Hn Hle].
    destruct (selected_videos s !! n) as [url|] eqn:Hurl; simplify_eq.
    + (* a submission *)
      assert (forall i, i ∈ work_queue s -> i < length (futures s)) as Hqlt.
      { intros i Hi. destruct (Hq i Hi) as (f & Hf & _). by apply lookup_lt_Some in Hf. }
      assert (forall k t i, threads (set_main (Submitting (S (length (futures s)))) (submit s))
                            !! k = Some t -> held t = Some i ->
                            exists k0, threads s !! k0 = Some t /\ (k0 = k)) as Hth.
      { intros k t i Hk Ht. exists k. split; [|done].
        unfold submit, adjust_thread_count in Hk. cbn in Hk.
        repeat case_match; cbn in Hk; try done.
        apply lookup_app_Some in Hk as [Hk|[_ Hk]]; [done |].
        destruct (k - _); cbn in Hk; simplify_eq. }
      assert (work_queue (set_main (Submitting (S (length (futures s)))) (submit s))
              = (work_queue s ++ [length (futures s)])%list) as Hq'.
      { unfold submit, adjust_thread_count. cbn. by repeat case_match. }
      assert (futures (set_main (Submitting (S (length (futures s)))) (submit s))
              = (futures s ++ [Pending])%list) as Hf'.
      { unfold submit, adjust_thread_count. cbn. by repeat case_match. }
      assert (selected_videos (set_main (Submitting (S (length (futures s)))) (submit s))
              = selected_videos s) as Hv'.
      { unfold submit, adjust_thread_count. cbn. by repeat case_match. }
      unfold workers_invariant. rewrite Hq', Hf', Hv'.
      split; [|split; [|split; [|split; [|split; [|split]]]]].
      * apply NoDup_app. split; [done |]. split; [|apply NoDup_singleton].
        intros i Hi Hi'. apply list_elem_of_singleton in Hi'. subst i.
        apply Hqlt in Hi. lia.
      * intros k k' t t' i Hk Hk' Ht Ht'.
        destruct (Hth _ _ _ Hk Ht) as (? & Hk0 & ->).
        destruct (Hth _ _ _ Hk' Ht') as (? & Hk0' & ->). by eapply Hone.
      * intros k t i Hk Ht. destruct (Hth _ _ _ Hk Ht) as (? & Hk0 & ->).
        intros [Hi|Hi]%elem_of_app; [by eapply Hout |].
        apply list_elem_of_singleton in Hi. subst i.
        destruct t as [|i|i]; cbn in Ht; simplify_eq.
        -- destruct (Hh _ _ Hk0) as (f & Hf & _). apply lookup_lt_Some in Hf. lia.
        -- specialize (Hb _ _ Hk0). apply lookup_lt_Some in Hb. lia.
      * intros i [Hi|Hi]%elem_of_app.
        -- destruct (Hq i Hi) as (f & Hf & Hw). exists f. split; [|done].
           by apply lookup_app_l_Some.
        -- apply list_elem_of_singleton in Hi. subst i. exists Pending.
           split; [|by left]. by apply list_lookup_middle.
      * intros k i Hk. destruct (Hth _ (Holding i) i Hk eq_refl) as (? & Hk0 & ->).
        destruct (Hh _ _ Hk0) as (f & Hf & Hw). exists f. split; [|done].
        by apply lookup_app_l_Some.
      * intros k i Hk. destruct (Hth _ (Busy i) i Hk eq_refl) as (? & Hk0 & ->).
        apply lookup_app_l_Some. by eapply Hb.
      * rewrite length_app. cbn. apply lookup_lt_Some in Hurl. lia.
    + exact Hinv.
  - destruct (futures s !! n) as [[| | |[b|e|]]|] eqn:Hn; simplify_eq; try exact Hinv.
    all: unfold workers_invariant; cbn;
      (split; [done |]; split; [done |]; split; [done |];
       split; [intros i Hi; by apply cancel_after_waiting, Hq |];
       split; [intros k i Hk; by eapply cancel_after_waiting, Hh |];
       split; [intros k i Hk; by eapply cancel_after_running, Hb |];
       by rewrite length_cancel_after).
  - destruct (work_queue s) eqn:E; [|done]. destruct (forallb _ _); simplify_eq.
    exact Hinv.
  - done.
Qed.

Ltac split_insert H :=
  apply list_lookup_insert_Some in H as [(? & ? & ?)|[? H]].

Lemma worker_step_workers_invariant (k : nat) (s s' : state) :
  worker_step k s = Some s' -> workers_invariant s -> workers_invariant s'.
Proof.
  intros H (Hnd & Hone & Hout & Hq & Hh & Hb & Hlen).
  unfold worker_step in H.
  destruct (threads s !! k) as [[|i|i]|] eqn:Hk; [| | |done].
  - (* a work item is taken off the queue *)
    destruct (work_queue s) as [|i q] eqn:Hqueue; simplify_eq.
    apply NoDup_cons in Hnd as [Hi Hnd].
    unfold workers_invariant. cbn.
    split; [done |]. split; [|split; [|split; [|split; [|split]]]].
    + intros k1 k2 t1 t2 j H1 H2 Ht1 Ht2.
      split_insert H1; split_insert H2; simplify_eq; cbn in *; simplify_eq; try done.
      * destruct (Hout _ _ _ H2 Ht2). left.
      * destruct (Hout _ _ _ H1 Ht1). left.
      * by eapply Hone.
    + intros k1 t j H1 Ht. split_insert H1; simplify_eq; cbn in *; simplify_eq; [done |].
      intros Hj. eapply Hout; [done | done |]. by right.
    + intros j Hj. apply Hq. by right.
    + intros k1 j H1. split_insert H1; simplify_eq.
      * apply Hq. left.
      * by eapply Hh.
    + intros k1 j H1. split_insert H1; simplify_eq. by eapply Hb.
    + done.
  - (* the work item in hand is started, or dropped when it is cancelled *)
    destruct (futures s !! i) as [[| | |]|] eqn:Hi; simplify_eq.
    + unfold workers_invariant. cbn.
      assert (forall k1 t1 j, <[k:=Busy i]> (threads s) !! k1 = Some t1 -> held t1 = Some j ->
                exists t0, threads s !! k1 = Some t0 /\ held t0 = Some j) as Hheld.
      { intros k1 t1 j H1 Ht. split_insert H1; simplify_eq; cbn in *; simplify_eq; by eexists. }
      split; [done |]. split; [|split; [|split; [|split; [|split]]]].
      * intros k1 k2 t1 t2 j H1 H2 Ht1 Ht2.
        destruct (Hheld _ _ _ H1 Ht1) as (? & ? & ?).
        destruct (Hheld _ _ _ H2 Ht2) as (? & ? & ?). by eapply Hone.
      * intros k1 t j H1 Ht. destruct (Hheld _ _ _ H1 Ht) as (? & ? & ?). by eapply Hout.
      * intros j Hj. rewrite list_lookup_insert_ne; [by apply Hq |].
        intros <-. by eapply (Hout k (Holding i) i).
      * intros k1 j H1. split_insert H1; simplify_eq.
        rewrite list_lookup_insert_ne; [by eapply Hh |].
        intros <-. by pose proof (Hone k k1 _ _ i Hk H1 eq_refl eq_refl).
      * intros k1 j H1. split_insert H1; simplify_eq.
        -- apply list_lookup_insert_eq. by apply lookup_lt_Some in Hi.
        -- rewrite list_lookup_insert_ne; [by eapply Hb |].
           intros <-. by pose proof (Hone k k1 _ _ i Hk H1 eq_refl eq_refl).
      * by rewrite length_insert.
    + unfold workers_invariant. cbn.
      split; [done |]. split; [|split; [|split; [|split; [|split]]]].
      * intros k1 k2 t1 t2 j H1 H2 Ht1 Ht2.
        split_insert H1; split_insert H2; simplify_eq; cbn in *; simplify_eq. by eapply Hone.
      * intros k1 t j H1 Ht. split_insert H1; simplify_eq; cbn in *; simplify_eq. by eapply Hout.
      * done.
      * intros k1 j H1. split_insert H1; simplify_eq. by eapply Hh.
      * intros k1 j H1. split_insert H1; simplify_eq. by eapply Hb.
      * done.
  - (* the call of [download_video] completes *)
    destruct (futures s !! i) as [[| | |]|] eqn:Hi; simplify_eq.
    destruct (selected_videos s !! i) as [url|] eqn:Hurl; [|done].
    destruct (download_video url (download_folder s) (world s)) as [r w'] eqn:Hdl.
    assert (s' = set_world w'
                   (set_idle_semaphore (S (idle_semaphore s))
                      (set_threads (<[k:=Idle]> (threads s))
                         (set_futures (<[i:=Finished r]> (futures s)) s)))) as ->.
    { destruct r; by simplify_eq. }
    unfold workers_invariant. cbn.
    split; [done |]. split; [|split; [|split; [|split; [|split]]]].
    + intros k1 k2 t1 t2 j H1 H2 Ht1 Ht2.
      split_insert H1; split_insert H2; simplify_eq; cbn in *; simplify_eq. by eapply Hone.
    + intros k1 t j H1 Ht. split_insert H1; simplify_eq; cbn in *; simplify_eq. by eapply Hout.
    + intros j Hj. rewrite list_lookup_insert_ne; [by apply Hq |].
      intros <-. by eapply (Hout k (Busy i) i).
    + intros k1 j H1. split_insert H1; simplify_eq.
      rewrite list_lookup_insert_ne; [by eapply Hh |].
      intros <-. by pose proof (Hone k k1 _ _ i Hk H1 eq_refl eq_refl).
    + intros k1 j H1. split_insert H1; simplify_eq.
      rewrite list_lookup_insert_ne; [by eapply Hb |].
      intros <-. by pose proof (Hone k k1 _ _ i Hk H1 eq_refl eq_refl).
    + by rewrite length_insert.
Qed.

(** Along every schedule each work item is in one place, and a worker is
    never stopped by the state of a future: a thread that holds a work item
    can start or drop it, and a thread inside [download_video] can complete
    the call. *)
Lemma workers_are_never_stuck (selected_videos : list string) (download_folder : string)
    (w : World) (schedule : list action) (s : state) (k : nat) (t : thread) :
  run schedule (download_videos_concurrently selected_videos download_folder w) = Some s ->
  threads s !! k = Some t ->
  t <> Idle \/ work_queue s <> [] ->
  workers_invariant s /\ is_Some (worker_step k s).
Proof.
  intros Hrun Hk Hmove.
  assert (main_invariant s /\ workers_invariant s) as [_ Hinv].
  { eapply (run_invariant (fun s => main_invariant s /\ workers_invariant s)); [|done |].
    - intros a s1 s2 H [Hm Hw]. split; [by eapply step_main_invariant |].
      destruct a; [by eapply main_step_workers_invariant | by eapply worker_step_workers_invariant].
    - split; [cbn; split; [done | lia] |].
      unfold workers_invariant. cbn.
      split; [apply NoDup_nil_2 |]. repeat split; try done; try lia.
      intros i Hi. by apply elem_of_nil in Hi. }
  split; [done |].
  destruct Hinv as (Hnd & Hone & Hout & Hq & Hh & Hb & Hlen).
  unfold worker_step. rewrite Hk. destruct t as [|i|i].
  - destruct Hmove as [?|Hne]; [done |]. by destruct (work_queue s).
  - destruct (Hh _ _ Hk) as (f & -> & [-> | ->]); by eexists.
  - rewrite (Hb _ _ Hk).
    destruct (lookup_lt_is_Some_2 (Pool.selected_videos s) i) as [url ->].
    { specialize (Hb _ _ Hk). apply lookup_lt_Some in Hb. lia. }
    pose proof (download_video_not_diverged url (Pool.download_folder s) (world s)) as Hd.
    destruct (download_video _ _ _) as [[b|e|] w']; [by eexists | by eexists | done].
Qed.

End PoolFacts.

(** ** Runs of the batch *)

Section BatchRuns.
Import Pool PoolInvariants Examples.

(** When the video of one of the tasks does not fit on the disk, no schedule
    lets [download_videos_concurrently] return a count. *)
Lemma no_count_when_a_video_does_not_fit (selected_videos : list string)
    (download_folder : string) (w0 : World) (i : nat) (video_url : string) (r : Response) :
  selected_videos !! i = Some video_url ->
  network w0 video_url = FetchOk r ->
  status_code r < 400 \/ 600 <= status_code r ->
  PyStr.contains "video" (default "" (content_type r)) = true ->
  (forall text, content_length r <> CL_invalid text) ->
  free_space w0 < body_size (chunks r) ->
  forall (schedule : list action) (s : state) (downloaded_count : nat),
    run schedule (download_videos_concurrently selected_videos download_folder w0) = Some s ->
    main s <> Done (Returned downloaded_count).
Proof.
  intros Hi Hnet Hok Hct Hcl Hshort schedule s c Hrun Hmain.
  destruct (count_is_number_of_true_results _ _ _ _ _ _ Hrun Hmain) as (Hlen & Hall & _ & _).
  destruct (lookup_lt_is_Some_2 (futures s) i) as [f Hf].
  { rewrite Hlen. by apply lookup_lt_Some in Hi. }
  destruct (proj1 (Forall_lookup _ _) Hall i f Hf) as [b ->].
  destruct (finished_futures_come_from_downloads
              (fun w => network w = network w0 /\ free_space w <= free_space w0)
              selected_videos download_folder w0 schedule s) as [_ Hout]; [| done | done |].
  { intros url w [Hn Hle]. destruct (download_video_frame url download_folder w) as [Hn' Hle'].
    split; [congruence | lia]. }
  destruct (Hout i _ Hf) as (url & w & [Hn Hle] & Hurl & Hr).
  assert (url = video_url) as -> by congruence.
  rewrite (download_video_short_disk video_url download_folder w r) in Hr;
    [done | by rewrite Hn | done | done | done | lia].
Qed.

End BatchRuns.

(** *** A schedule that completes *)

Section Liveness.
Import Pool PoolInvariants.

Lemma run_app (l1 l2 : list action) (s : state) :
  run (l1 ++ l2)%list s = run l1 s ≫= run l2.
Proof.
  revert s. induction l1 as [|a l1 IH]; intros s; cbn; [done |].
  destruct (step a s); [apply IH | done].
Qed.

Lemma worker_take (k i : nat) (q : list nat) (s : state) :
  threads s !! k = Some Idle -> work_queue s = i :: q ->
  worker_step k s
  = Some (set_threads (<[k := Holding i]> (threads s)) (set_work_queue q s)).
Proof. intros Hk Hq. unfold worker_step. by rewrite Hk, Hq. Qed.

Lemma worker_drop (k i : nat) (s : state) :
  threads s !! k = Some (Holding i) -> futures s !! i = Some Cancelled ->
  worker_step k s
  = Some (set_idle_semaphore (S (idle_semaphore s))
            (set_threads (<[k := Idle]> (threads s)) s)).
Proof. intros Hk Hi. unfold worker_step. by rewrite Hk, Hi. Qed.

Lemma worker_start (k i : nat) (s : state) :
  threads s !! k = Some (Holding i) -> futures s !! i = Some Pending ->
  worker_step k s
  = Some (set_threads (<[k := Busy i]> (threads s))
            (set_futures (<[i := Running]> (futures s)) s)).
Proof. intros Hk Hi. unfold worker_step. by rewrite Hk, Hi. Qed.

Lemma worker_finish (k i : nat) (s : state) (video_url : string) (r : result bool)
    (w' : World) :
  threads s !! k = Some (Busy i) -> futures s !! i = Some Running ->
  selected_videos s !! i = Some video_url ->
  download_video video_url (download_folder s) (world s) = (r, w') ->
  r <> Diverged ->
  worker_step k s
  = Some (set_world w'
            (set_idle_semaphore (S (idle_semaphore s))
               (set_threads (<[k := Idle]> (threads s))
                  (set_futures (<[i := Finished r]> (futures s)) s)))).
Proof.
  intros Hk Hi Hurl Hdl Hr. unfold worker_step. rewrite Hk, Hi, Hurl, Hdl.
  by destruct r.
Qed.

Variable vids : list string.
Variable dl_folder : string.

Lemma workers_idle_forallb (s : state) :
  workers_idle s -> forallb is_idle (threads s) = true.
Proof.
  intros (ts & -> & Hts). cbn. induction Hts as [|t ts -> _ IH]; done.
Qed.

Lemma submit_all (w : World) (k : nat) :
  k <= length vids ->
  exists s, run (replicate k Main) (download_videos_concurrently vids dl_folder w) = Some s
            /\ submitted vids dl_folder w k s.
Proof.
  induction k as [|k IH]; intros Hk.
  - eexists. split; [done |]. repeat split; try done. lia.
  - destruct IH as (s & Hrun & Hmain & Hv & Hf & Hfut & Hq & Hsem & Hth & Hne & Hw); [lia |].
    destruct (lookup_lt_is_Some_2 vids k) as [url Hurl]; [lia |].
    eexists. split.
    { rewrite replicate_S_end, run_app, Hrun. cbn. unfold main_step.
      rewrite Hmain, Hv, Hurl. reflexivity. }
    unfold submit, adjust_thread_count.
    change (idle_semaphore (set_work_queue _ (set_futures _ s))) with (idle_semaphore s).
    change (threads (set_work_queue _ (set_futures _ s))) with (threads s).
    rewrite Hsem.
    destruct (length (threads s) <? max_workers)%nat eqn:E; unfold submitted; cbn;
      rewrite Hfut, Hq, length_replicate.
    + repeat split; try done.
      * symmetry. apply replicate_S_end.
      * symmetry. apply seq_S.
      * apply Forall_app; split; [done | by apply Forall_singleton].
      * intros _. by destruct (threads s).
    + repeat split; try done.
      * symmetry. apply replicate_S_end.
      * symmetry. apply seq_S.
      * intros _ Hnil. rewrite Hnil in E. done.
Qed.

Lemma drain (q : list nat) (s : state) :
  work_queue s = q -> draining s ->
  exists schedule s' r, run schedule s = Some s' /\ main s' = Done r.
Proof.
  revert s. induction q as [|j q IH]; intros s Hq ([r Hmain] & Hcan & Hidle).
  - exists [Main]. eexists _, r. cbn. unfold main_step.
    rewrite Hmain, Hq, (workers_idle_forallb _ Hidle). done.
  - destruct Hidle as (ts & Hts & Hall).
    assert (futures s !! j = Some Cancelled) as Hj by (apply Hcan; rewrite Hq; left).
    set (s1 := set_threads (<[0 := Holding j]> (threads s)) (set_work_queue q s)).
    set (s2 := set_idle_semaphore (S (idle_semaphore s1))
                 (set_threads (<[0 := Idle]> (threads s1)) s1)).
    destruct (IH s2) as (schedule & s' & r' & Hrun & Hdone).
    { done. }
    { split; [by exists r |]. split.
      - intros i Hi. cbn. apply Hcan. rewrite Hq. by right.
      - exists ts. unfold s2, s1. cbn. rewrite Hts. done. }
    exists (Worker 0 :: Worker 0 :: schedule), s', r'. split; [|done].
    cbn [run step].
    rewrite (worker_take 0 j q s) by (by rewrite ?Hts). fold s1.
    rewrite (worker_drop 0 j s1) by (by unfold s1; cbn; rewrite ?Hts). fold s2.
    done.
Qed.

Lemma cancel_after_pending (i j : nat) (fs : list future) :
  i < j -> fs !! j = Some Pending -> cancel_after i fs !! j = Some Cancelled.
Proof.
  intros Hij Hj. unfold cancel_after.
  pose proof (lookup_lt_Some _ _ _ Hj) as Hlen.
  rewrite lookup_app_r by (rewrite length_take; lia).
  rewrite length_take, list_lookup_fmap, lookup_drop.
  replace (S i + (j - S i `min` length fs)) with j by lia. by rewrite Hj.
Qed.

Lemma finish_loop (m i : nat) (s : state) :
  length vids - i = m -> i <= length vids -> looping vids dl_folder i s ->
  exists schedule s' r, run schedule s = Some s' /\ main s' = Done r.
Proof.
  revert i s. induction m as [|m IH];
    intros i s Hm Hi ([c Hmain] & Hv & Hf & Hlen & Hpend & Hq & Hidle).
  - (* every result is taken *)
    exists [Main; Main]. eexists _, (Returned c). cbn. unfold main_step at 1.
    rewrite Hmain. rewrite (lookup_ge_None_2 (futures s) i) by lia. cbn.
    unfold main_step. cbn. rewrite Hq, Hm. cbn.
    rewrite (workers_idle_forallb _ Hidle). done.
  - (* the first worker takes task [i], runs it, and the main thread takes
       the result *)
    destruct Hidle as (ts & Hts & Hall).
    assert (futures s !! i = Some Pending) as Hfi by (apply Hpend; lia).
    destruct (lookup_lt_is_Some_2 vids i) as [url Hurl]; [lia |].
    rewrite Hm in Hq. cbn in Hq.
    destruct (download_video url dl_folder (world s)) as [r w'] eqn:Hdl.
    assert (r <> Diverged) as Hr.
    { pose proof (download_video_not_diverged url dl_folder (world s)) as H.
      by rewrite Hdl in H. }
    set (s1 := set_threads (<[0 := Holding i]> (threads s))
                 (set_work_queue (seq (S i) m) s)).
    set (s2 := set_threads (<[0 := Busy i]> (threads s1))
                 (set_futures (<[i := Running]> (futures s1)) s1)).
    set (s3 := set_world w'
                 (set_idle_semaphore (S (idle_semaphore s2))
                    (set_threads (<[0 := Idle]> (threads s2))
                       (set_futures (<[i := Finished r]> (futures s2)) s2)))).
    assert (run [Worker 0; Worker 0; Worker 0] s = Some s3) as Hrun3.
    { cbn [run step].
      rewrite (worker_take 0 i (seq (S i) m) s) by (by rewrite ?Hts). fold s1.
      rewrite (worker_start 0 i s1) by (by unfold s1; cbn; rewrite ?Hts). fold s2.
      rewrite (worker_finish 0 i s2 url r w'); [done | | | | | done].
      - unfold s2, s1. cbn. by rewrite Hts.
      - unfold s2, s1. cbn. apply list_lookup_insert_eq. by apply lookup_lt_Some in Hfi.
      - unfold s2, s1. cbn. by rewrite Hv.
      - unfold s2, s1. cbn. by rewrite Hf. }
    assert (futures s3 !! i = Some (Finished r)) as Hfin.
    { unfold s3, s2, s1. cbn. apply list_lookup_insert_eq.
      rewrite length_insert. by apply lookup_lt_Some in Hfi. }
    assert (forall j, S i <= j < length vids -> futures s3 !! j = Some Pending) as Hpend3.
    { intros j Hj. unfold s3, s2, s1. cbn.
      rewrite !list_lookup_insert_ne by lia. apply Hpend. lia. }
    assert (workers_idle s3) as Hidle3.
    { exists ts. unfold s3, s2, s1. cbn. rewrite Hts. done. }
    assert (main s3 = Iterating i c) as Hmain3 by done.
    assert (length (futures s3) = length vids) as Hlen3.
    { unfold s3, s2, s1. cbn. by rewrite !length_insert. }
    destruct r as [b|e|]; [| |done].
    + set (s4 := set_main (Iterating (S i) (if b then S c else c)) s3).
      destruct (IH (S i) s4) as (schedule & s' & r' & Hrun & Hdone); [lia | lia | |].
      { split; [by eexists |]. repeat split; try done.
        replace (length vids - S i) with m by lia. done. }
      exists ([Worker 0; Worker 0; Worker 0] ++ Main :: schedule)%list, s', r'.
      split; [|done]. rewrite run_app, Hrun3. cbn. unfold main_step at 1.
      rewrite Hmain3, Hfin. done.
    + set (s4 := set_main (Exiting (Raised e))
                   (set_futures (cancel_after i (futures s3)) s3)).
      destruct (drain (work_queue s4) s4) as (schedule & s' & r' & Hrun & Hdone); [done | |].
      { split; [by eexists |]. split; [|done].
        intros j Hj. cbn in Hj. apply elem_of_seq in Hj. cbn.
        apply cancel_after_pending; [lia |]. apply Hpend3. lia. }
      exists ([Worker 0; Worker 0; Worker 0] ++ Main :: schedule)%list, s', r'.
      split; [|done]. rewrite run_app, Hrun3. cbn. unfold main_step at 1.
      rewrite Hmain3, Hfin. done.
Qed.

(** Every call of [download_videos_concurrently] can run to its end: the
    schedule in which the first worker runs the tasks one after the other
    leads the main thread out of the [with] block. *)
Lemma batch_can_complete (w : World) :
  exists schedule s r,
    run schedule (download_videos_concurrently vids dl_folder w) = Some s
    /\ main s = Done r.
Proof.
  destruct (submit_all w (length vids) (le_n _))
    as (s & Hrun & Hmain & Hv & Hf & Hfut & Hq & Hsem & Hth & Hne & Hw).
  destruct (decide (length vids = 0)) as [Hn|Hn].
  - exists (replicate (length vids) Main ++ [Main; Main; Main])%list. eexists _, (Returned 0).
    rewrite run_app, Hrun. cbn. unfold main_step at 1.
    rewrite Hmain, Hv, (lookup_ge_None_2 vids) by done. cbn.
    unfold main_step at 1. cbn. rewrite Hfut, Hn. cbn.
    unfold main_step. cbn. rewrite Hq, Hn. cbn.
    assert (threads s = []) as ->; [|done].
    clear -Hrun Hn. destruct vids; [|done]. cbn in Hrun. by injection Hrun as <-.
  - set (s1 := set_main (Iterating 0 0) s).
    destruct (finish_loop (length vids) 0 s1) as (schedule & s' & r & Hrun' & Hdone);
      [lia | lia | |].
    { split; [by eexists |]. repeat split; try done.
      - unfold s1. cbn. by rewrite Hfut, length_replicate.
      - intros j Hj. unfold s1. cbn. rewrite Hfut. apply lookup_replicate_2. lia.
      - unfold s1. cbn. by rewrite Hq, Nat.sub_0_r.
      - unfold workers_idle, s1. cbn.
        destruct (threads s) as [|t ts] eqn:Ets; [destruct Hne; [lia | done] |].
        apply Forall_cons in Hth as [-> Hts]. by exists ts. }
    exists (replicate (length vids) Main ++ Main :: schedule)%list, s', r.
    split; [|done]. rewrite run_app, Hrun. cbn. unfold main_step at 1.
    rewrite Hmain, Hv, (lookup_ge_None_2 vids) by done. done.
Qed.

End Liveness.

(** ** The claims on the batch *)

Section Batch.
Import Pool Examples.

(** C10.  [download_video] hands its caller a boolean only: it returns
    [False] when the response is no video (the skip), when the fetch raises
    a [RequestException], and when the status is an error status.  The loop
    of [download_videos_concurrently] reads nothing but that boolean: the
    count it returns is the number of futures that hold [True], and the
    futures that hold [False], skipped or failed alike, make up the rest of
    the tasks. *)
Theorem skip_and_failure_both_return_false (selected_videos : list string)
    (download_folder : string) (w0 : World) (schedule : list action) (s : state)
    (downloaded_count : nat) :
  run schedule (download_videos_concurrently selected_videos download_folder w0) = Some s ->
  main s = Done (Returned downloaded_count) ->
  (forall (video_url : string) (w : World) (r : Response),
     network w video_url = FetchOk r ->
     PyStr.contains "video" (default "" (content_type r)) = false ->
     fst (download_video video_url download_folder w) = Returned false)
  /\ (forall (video_url : string) (w : World) (msg : string),
        network w video_url = FetchError msg ->
        fst (download_video video_url download_folder w) = Returned false)
  /\ Forall returned (futures s)
  /\ downloaded_count = successes (futures s)
  /\ downloaded_count + failures (futures s) = length selected_videos.
Proof.
  intros Hrun Hmain.
  destruct (count_is_number_of_true_results _ _ _ _ _ _ Hrun Hmain)
    as (Hlen & Hall & Hcount & _).
  split. { intros video_url w r Hnet Hct.
           by destruct (download_video_not_video video_url download_folder w r Hnet Hct). }
  split. { intros video_url w msg Hnet.
           by destruct (download_video_fetch_error video_url download_folder w msg Hnet). }
  split; [done |]. split; [done |].
  rewrite Hcount, <- Hlen. by apply successes_failures.
Qed.

(** C1, at the failing input: the disk has four bytes left and the body of
    the first task is [abc], [def].  The second write raises an [OSError];
    the [except] clause of [download_video] takes [RequestException] only,
    so the call raises, the file is left with [abc], the [for] loop of
    [download_videos_concurrently] raises in turn, and the two tasks that no
    worker had taken yet are cancelled and never run.  The same happens for
    every video that is larger than the free space of the disk. *)
Theorem write_error_escapes_download_video :
  (forall (video_url download_folder : string) (w : World) (r : Response),
     network w video_url = FetchOk r ->
     status_code r < 400 \/ 600 <= status_code r ->
     PyStr.contains "video" (default "" (content_type r)) = true ->
     (forall text, content_length r <> CL_invalid text) ->
     free_space w < body_size (chunks r) ->
     fst (download_video video_url download_folder w)
     = Raised (OSError "[Errno 28] No space left on device"))
  /\ (let w := fresh_world 4 in
      let out := download_video "http://x/get?f=video.mp4&id=9" "downloaded_videos" w in
      let s := state_after first_fails_early
                 (download_videos_concurrently three_tasks "downloaded_videos" w) in
      fst out = Raised (OSError "[Errno 28] No space left on device")
      /\ entries (snd out) !! "video.mp4" = Some "abc"
      /\ run first_fails_early
           (download_videos_concurrently three_tasks "downloaded_videos" w) = Some s
      /\ main s = Done (Raised (OSError "[Errno 28] No space left on device"))
      /\ futures s = [Finished (Raised (OSError "[Errno 28] No space left on device"));
                      Cancelled; Cancelled]).
Proof.
  split.
  - intros. by eapply download_video_short_disk.
  - vm_compute. repeat split.
Qed.

(** The same escape through [int]: a [Content-Length] that is no number
    makes [download_video] raise [ValueError], after the file was created. *)
Lemma malformed_content_length_escapes :
  let out := download_video "http://x/odd.mp4" "downloaded_videos" (fresh_world 100) in
  fst out = Raised (ValueError "invalid literal for int() with base 10: 'abc'")
  /\ entries (snd out) !! "odd.mp4" = Some "".
Proof. vm_compute. split; reflexivity. Qed.

(** C6, at the failing input of C1: the first task raises while the second
    is running.  [download_videos_concurrently] returns no count: it raises
    the [OSError]; the second task is completed, the third is cancelled, and
    nothing of the third shows on [stdout].  Under no schedule does the call
    return a count for this input. *)
Theorem no_count_when_a_download_raises :
  let start := download_videos_concurrently three_tasks "downloaded_videos" (fresh_world 4) in
  let s := state_after first_fails_midway start in
  run first_fails_midway start = Some s
  /\ main s = Done (Raised (OSError "[Errno 28] No space left on device"))
  /\ futures s = [Finished (Raised (OSError "[Errno 28] No space left on device"));
                  Finished (Returned false); Cancelled]
  /\ stdout (world s) =
       ["Downloading http://x/get?f=video.mp4&id=9...";
        "Base filename before sanitization: video.mp4";
        "Sanitized filename after removing invalid characters: video.mp4";
        "Downloading http://x/page...";
        "Skipping http://x/page (not a video)."]
  /\ (forall (schedule : list action) (s' : state) (downloaded_count : nat),
        run schedule start = Some s' -> main s' <> Done (Returned downloaded_count)).
Proof.
  intros start s.
  split; [vm_compute; reflexivity |]. split; [vm_compute; reflexivity |].
  split; [vm_compute; reflexivity |]. split; [vm_compute; reflexivity |].
  apply (no_count_when_a_video_does_not_fit three_tasks "downloaded_videos" (fresh_world 4)
           0 "http://x/get?f=video.mp4&id=9"
           (video_response "http://x/get?f=video.mp4&id=9" ["abc"; "def"])).
  - reflexivity.
  - reflexivity.
  - left. cbn. lia.
  - reflexivity.
  - intros text. discriminate.
  - cbn. lia.
Qed.

(** *** Instances *)

Lemma skip_and_failure_both_return_false_witness :
  let s := state_after one_by_one
             (download_videos_concurrently three_tasks "downloaded_videos" (fresh_world 100)) in
  main s = Done (Returned 1)
  /\ futures s = [Finished (Returned true); Finished (Returned false); Finished (Returned false)]
  /\ 1 = successes (futures s)
  /\ 1 + failures (futures s) = 3.
Proof.
  assert (run one_by_one
            (download_videos_concurrently three_tasks "downloaded_videos" (fresh_world 100))
          = Some (state_after one_by_one
                    (download_videos_concurrently three_tasks "downloaded_videos"
                       (fresh_world 100)))) as Hrun by (vm_compute; reflexivity).
  assert (main (state_after one_by_one
                  (download_videos_concurrently three_tasks "downloaded_videos"
                     (fresh_world 100))) = Done (Returned 1)) as Hmain
    by (vm_compute; reflexivity).
  destruct (skip_and_failure_both_return_false _ _ _ _ _ _ Hrun Hmain)
    as (_ & _ & _ & Hcount & Hsum).
  split; [exact Hmain |]. split; [vm_compute; reflexivity |]. split; [exact Hcount |].
  exact Hsum.
Defined.

Lemma write_error_escapes_download_video_witness :
  fst (download_video "http://x/get?f=video.mp4&id=9" "downloaded_videos" (fresh_world 5))
  = Raised (OSError "[Errno 28] No space left on device").
Proof.
  apply (proj1 write_error_escapes_download_video
           "http://x/get?f=video.mp4&id=9" "downloaded_videos" (fresh_world 5)
           (video_response "http://x/get?f=video.mp4&id=9" ["abc"; "def"])).
  - reflexivity.
  - left. cbn. lia.
  - reflexivity.
  - intros text. discriminate.
  - cbn. lia.
Defined.

Lemma no_count_when_a_download_raises_witness :
  main (state_after first_fails_early
          (download_videos_concurrently three_tasks "downloaded_videos" (fresh_world 4)))
  <> Done (Returned 0).
Proof.
  destruct no_count_when_a_download_raises as (_ & _ & _ & _ & H).
  apply (H first_fails_early). vm_compute. reflexivity.
Defined.

Lemma at_most_five_downloads_in_flight_witness :
  let s := state_after five_started
             (download_videos_concurrently twenty_videos "downloaded_videos" (fresh_world 100)) in
  length twenty_videos = 20
  /\ in_flight s = 5
  /\ in_flight s <= 5 /\ length (threads s) <= 5.
Proof.
  split; [reflexivity |]. split; [vm_compute; reflexivity |].
  apply (at_most_five_downloads_in_flight twenty_videos "downloaded_videos"
           (fresh_world 100) five_started).
  vm_compute. reflexivity.
Defined.

End Batch.

Section Instances.
Import Examples.

Lemma non_video_response_is_skipped_witness :
  let out := download_video "http://x/page" "downloaded_videos" (fresh_world 100) in
  fst out = Returned false
  /\ entries (snd out) = entries (fresh_world 100)
  /\ free_space (snd out) = 100
  /\ stdout (snd out) =
       ["Downloading http://x/page..."; "Skipping http://x/page (not a video)."].
Proof.
  destruct (non_video_response_is_skipped "http://x/page" "downloaded_videos"
              (fresh_world 100) (html_response "http://x/page" 200 "OK"))
    as (H1 & H2 & H3 & H4); [reflexivity | reflexivity |].
  split; [exact H1 |]. split; [exact H2 |]. split; [exact H3 |].
  apply H4. left. cbn. lia.
Defined.

Lemma collision_loop_terminates_witness :
  let w := world_with [("video.mp4", "one"); ("video_1.mp4", "two")] 100 in
  exists name,
    probe_names 4 (entry_exists w) "video" ".mp4" "video.mp4" 1 = Some name
    /\ probe_names (2 + size (entries w)) (entry_exists w) "video" ".mp4" "video.mp4" 1
       = Some name
    /\ entry_exists w name = false
    /\ is_Some (unused_name w "video.mp4")
    /\ forall video_url download_folder : string,
         fst (download_video video_url download_folder w) <> Diverged.
Proof.
  apply (collision_loop_terminates
           (world_with [("video.mp4", "one"); ("video_1.mp4", "two")] 100)
           "video" ".mp4" "video.mp4" 1 4).
  vm_compute. lia.
Defined.


End Instances.

(** ** What a call of [download_video] leaves behind *)

Section Stored.

Lemma write_chunks_fits (video_name : string) (cs : list string) (err : option string)
    (w : World) (old : string) :
  entries w !! video_name = Some old ->
  body_size cs <= free_space w ->
  let out := write_chunks video_name cs err w in
  fst out = match err with
            | None => Returned tt
            | Some msg => Raised (RequestException msg)
            end
  /\ entries (snd out) = <[video_name := old +:+ join_chunks cs]> (entries w)
  /\ free_space (snd out) = free_space w - body_size cs
  /\ stdout (snd out) = stdout w
  /\ network (snd out) = network w.
Proof.
  revert w old. induction cs as [|chunk cs IH]; intros w old Hold Hfits; cbn.
  - rewrite string_app_empty_r, insert_id by done. unfold body_size. cbn.
    rewrite Nat.sub_0_r. by destruct err.
  - unfold mbind, M_bind, bind, file_write.
    assert (body_size (chunk :: cs) = String.length chunk + body_size cs) as Hsize by done.
    rewrite Hsize in *.
    destruct (String.length chunk <=? free_space w)%nat eqn:E;
      [|apply Nat.leb_gt in E; lia].
    rewrite Hold. cbn.
    match goal with |- context [write_chunks _ _ _ ?w1] =>
      destruct (IH w1 (old +:+ chunk)) as (H1 & H2 & H3 & H4 & H5) end.
    { unfold entries. cbn. by rewrite lookup_insert_eq. }
    { cbn. lia. }
    cbn in *. split; [done |]. rewrite H2, H3. unfold entries at 1. cbn.
    rewrite insert_insert_eq, string_app_assoc. repeat split; try done. lia.
Qed.


(** What [save_response] does with a name that is not in the folder. *)
Lemma save_response_cases (r : Response) (video_name download_folder : string) (w : World)
    (d : gmap string string) :
  folder w = Some d -> names_directory video_name = false -> d !! video_name = None ->
  let out := save_response r video_name download_folder w in
  network (snd out) = network w /\
  ((exists text,
      content_length r = CL_invalid text
      /\ fst out = Raised (ValueError ("invalid literal for int() with base 10: '"
                                       +:+ text +:+ "'"))
      /\ entries (snd out) = <[video_name := ""]> d)
   \/ ((forall text, content_length r <> CL_invalid text)
       /\ free_space w < body_size (chunks r)
       /\ fst out = Raised (OSError "[Errno 28] No space left on device")
       /\ is_Some (entries (snd out) !! video_name))
   \/ ((forall text, content_length r <> CL_invalid text)
       /\ body_size (chunks r) <= free_space w
       /\ entries (snd out) = <[video_name := join_chunks (chunks r)]> d
       /\ free_space (snd out) = free_space w - body_size (chunks r)
       /\ match stream_error r with
          | Some msg => fst out = Raised (RequestException msg) /\ stdout (snd out) = stdout w
          | None =>
              fst out = Returned true
              /\ stdout (snd out)
                 = (stdout w ++ ["Saved " +:+ video_name +:+ " to " +:+ download_folder +:+ "."])%list
          end)).
Proof.
  intros Hd Hname Hnew. unfold save_response, mbind, M_bind, bind, open_wb.
  rewrite Hd, Hname, Hnew. cbn.
  set (w1 := set_free_space _ _).
  assert (entries w1 !! video_name = Some "") as H1.
  { unfold w1, entries. cbn. by rewrite lookup_insert_eq. }
  assert (entries w1 = <[video_name := ""]> d) as He1 by done.
  assert (free_space w1 = free_space w) as Hf1 by (unfold w1; cbn; lia).
  assert (stdout w1 = stdout w /\ network w1 = network w) as [Ho1 Hn1] by done.
  clearbody w1.
  unfold total_size_of. destruct (content_length r) as [|n|text] eqn:Ecl; cbn.
  3:{ split; [done |]. left. exists text. done. }
  all: destruct (decide (body_size (chunks r) <= free_space w)) as [Hfits|Hshort].
  all: try (pose proof (write_chunks_short_disk video_name (chunks r) (stream_error r) w1
                          ltac:(lia)) as Hw;
            pose proof (write_chunks_frame video_name (chunks r) (stream_error r) w1) as [Hn _];
            pose proof (write_chunks_keeps_file video_name (chunks r) (stream_error r) w1
                          ltac:(by eexists)) as Hkeep;
            destruct (write_chunks _ _ _ w1) as [[[]| |] w2]; cbn in *; try done;
            split; [congruence |]; right; left;
            split; [by intros text |]; split; [lia |]; split; [|done]; by injection Hw as ->).
  all: destruct (write_chunks_fits video_name (chunks r) (stream_error r) w1 "" H1
                   ltac:(lia)) as (Hr & He & Hf & Ho & Hn);
       rewrite string_app_empty_l, He1, insert_insert_eq in He;
       destruct (write_chunks _ _ _ w1) as [res w2]; cbn in *; subst res;
       destruct (stream_error r) as [msg|]; cbn; fold_entries;
       (split; [congruence |]); right; right;
       (split; [by intros text |]); (split; [lia |]); (split; [done |]);
       (split; [lia |]); (split; [done |]); congruence.
Qed.

(** The calls of [download_video] on a response that is a video with a
    status that is no error: the name is resolved, then the body is saved
    under it. *)
Lemma download_video_video (video_url download_folder : string) (w : World) (r : Response) :
  network w video_url = FetchOk r ->
  status_code r < 400 \/ 600 <= status_code r ->
  PyStr.contains "video" (default "" (content_type r)) = true ->
  exists name w2 d,
    unused_name (with_folder w) (clean_filename (filename_hint video_url)) = Some name
    /\ folder w2 = Some d /\ d = entries w
    /\ names_directory name = false /\ d !! name = None
    /\ free_space w2 = free_space w /\ network w2 = network w
    /\ stdout w2 =
         (stdout w ++
          ["Downloading " +:+ video_url +:+ "...";
           "Base filename before sanitization: " +:+ filename_hint video_url;
           "Sanitized filename after removing invalid characters: "
           +:+ clean_filename (filename_hint video_url)])%list
    /\ download_video video_url download_folder w
       = try_except (save_response r name download_folder)
                    (except_RequestException video_url) w2.
Proof.
  intros Hnet Hok Hct. rewrite download_video_eq.
  assert (network (with_folder w) = network w /\ free_space (with_folder w) = free_space w
          /\ stdout (with_folder w) = stdout w) as (Hn & Hf & Ho)
    by (unfold with_folder; by case_bool_decide).
  pose proof (with_folder_entries w) as Hent.
  pose proof (with_folder_is_Some w) as Hsome.
  rewrite <- Hn in Hnet.
  generalize dependent (with_folder w). intros w1 Hnet Hn Hf Ho Hent [d Hd].
  destruct (unused_name_total w1 (clean_filename (filename_hint video_url)))
    as (name & Hname & Hfree).
  exists name,
    (add_stdout ("Sanitized filename after removing invalid characters: "
                 +:+ clean_filename (filename_hint video_url))
       (add_stdout ("Base filename before sanitization: " +:+ filename_hint video_url)
          (add_stdout ("Downloading " +:+ video_url +:+ "...") w1))), d.
  split; [done |].
  unfold try_except at 1. unfold download_attempt, mbind, M_bind, bind, requests_get. cbn.
  rewrite Hnet. rewrite raise_for_status_ok by done. rewrite Hct. cbn.
  rewrite resolve_filename_run.
  change (unused_name (add_stdout _ w1) ?n) with (unused_name w1 n). rewrite Hname. cbn.
  split; [done |].
  split. { rewrite <- Hent. unfold entries. by rewrite Hd. }
  unfold entry_exists in Hfree. rewrite Hd in Hfree.
  apply orb_false_iff in Hfree as [Hdir Hin]. split; [done |].
  split. { apply bool_decide_eq_false in Hin. by apply eq_None_not_Some. }
  split; [done |]. split; [done |].
  split; [|done]. cbn. rewrite Ho. by rewrite <- !app_assoc.
Qed.

Lemma raise_for_status_error (r : Response) (w : World) :
  400 <= status_code r < 600 ->
  exists msg, raise_for_status r w = (Raised (RequestException msg), w).
Proof.
  intros [H1 H2]. unfold raise_for_status.
  destruct (400 <=? status_code r)%nat eqn:E1; [|apply Nat.leb_gt in E1; lia].
  destruct (status_code r <? 500)%nat eqn:E2; [by eexists |].
  apply Nat.ltb_ge in E2.
  destruct (500 <=? status_code r)%nat eqn:E3; [|apply Nat.leb_gt in E3; lia].
  destruct (status_code r <? 600)%nat eqn:E4; [|apply Nat.ltb_ge in E4; lia].
  by eexists.
Qed.

(** An error status: [raise_for_status] raises, the handler reports it. *)
Lemma download_video_error_status (video_url download_folder : string) (w : World)
    (r : Response) :
  network w video_url = FetchOk r ->
  400 <= status_code r < 600 ->
  let out := download_video video_url download_folder w in
  fst out = Returned false /\ entries (snd out) = entries w.
Proof.
  intros Hnet Hcode. cbn zeta. rewrite download_video_eq. unfold try_except.
  assert (network (with_folder w) video_url = FetchOk r) as Hnet'.
  { unfold with_folder. by case_bool_decide. }
  pose proof (with_folder_entries w) as Hent.
  generalize dependent (with_folder w). intros w1 Hnet' Hent.
  unfold download_attempt, mbind, M_bind, bind, requests_get. cbn. rewrite Hnet'.
  destruct (raise_for_status_error r
              (add_stdout ("Downloading " +:+ video_url +:+ "...") w1) Hcode) as [msg ->].
  cbn. unfold mbind, M_bind, bind. cbn. fold_entries. done.
Qed.

(** The ways a call of [download_video] can go. *)
Lemma download_video_cases (video_url download_folder : string) (w : World) :
  let out := download_video video_url download_folder w in
  (fst out = Returned false /\ entries (snd out) = entries w)
  \/ exists r name w2 d,
       network w video_url = FetchOk r
       /\ (status_code r < 400 \/ 600 <= status_code r)
       /\ PyStr.contains "video" (default "" (content_type r)) = true
       /\ unused_name (with_folder w) (clean_filename (filename_hint video_url)) = Some name
       /\ folder w2 = Some d /\ d = entries w
       /\ names_directory name = false /\ d !! name = None
       /\ free_space w2 = free_space w /\ network w2 = network w
       /\ out = try_except (save_response r name download_folder)
                           (except_RequestException video_url) w2.
Proof.
  cbn zeta. destruct (network w video_url) as [msg|r] eqn:Hnet.
  { left. by destruct (download_video_fetch_error video_url download_folder w msg Hnet)
      as (? & ? & _). }
  destruct (PyStr.contains "video" (default "" (content_type r))) eqn:Hct.
  2:{ left. by destruct (download_video_not_video video_url download_folder w r Hnet Hct)
        as (? & ? & _). }
  destruct (decide (400 <= status_code r < 600)) as [Hcode|Hcode].
  { left. by apply (download_video_error_status _ _ _ r). }
  assert (status_code r < 400 \/ 600 <= status_code r) as Hok by lia.
  right.
  destruct (download_video_video video_url download_folder w r Hnet Hok Hct)
    as (name & w2 & d & Hname & Hd & Hent & Hdir & Hnew & Hf & Hn & _ & Heq).
  exists r, name, w2, d. done.
Qed.




Lemma folder_of_entries (w : World) (d : gmap string string) (name content : string) :
  entries w = <[name := content]> d -> folder w = Some (<[name := content]> d).
Proof.
  unfold entries. destruct (folder w) as [d'|]; cbn; [by intros -> |].
  intros H. exfalso. apply (insert_non_empty (M:=gmap string) d name content). by rewrite <- H.
Qed.

(** A video whose transfer ends without an error and whose body fits on the
    disk is stored under the name that the collision check gives. *)
Lemma download_video_stored (video_url download_folder : string) (w : World) (r : Response) :
  network w video_url = FetchOk r ->
  status_code r < 400 \/ 600 <= status_code r ->
  PyStr.contains "video" (default "" (content_type r)) = true ->
  (forall text, content_length r <> CL_invalid text) ->
  stream_error r = None ->
  body_size (chunks r) <= free_space w ->
  let out := download_video video_url download_folder w in
  fst out = Returned true
  /\ exists name,
       unused_name (with_folder w) (clean_filename (filename_hint video_url)) = Some name
       /\ entries w !! name = None
       /\ folder (snd out) = Some (<[name := join_chunks (chunks r)]> (entries w)).
Proof.
  intros Hnet Hok Hct Hcl Hstream Hfits. cbn zeta.
  destruct (download_video_video video_url download_folder w r Hnet Hok Hct)
    as (name & w2 & d & Hname & Hd & -> & Hdir & Hnew & Hf & Hn & _ & ->).
  pose proof (save_response_cases r name download_folder w2 _ Hd Hdir Hnew) as Hcases.
  cbn zeta in Hcases. rewrite Hstream in Hcases.
  destruct Hcases as [_ [(text & Hbad & _)|[(_ & Hshort & _)|(_ & _ & He & _ & Hr & _)]]];
    [by destruct (Hcl text) | lia |].
  unfold try_except.
  destruct (save_response r name download_folder w2) as [res w3]. cbn in *. subst res.
  split; [done |]. exists name. split; [done |]. split; [done |]. by apply folder_of_entries.
Qed.


(** What [download_video] raises is an [OSError] or a [ValueError]. *)
Lemma download_video_raise_cases (video_url download_folder : string)
    (w : World) (e : exn) :
  let out := download_video video_url download_folder w in
  fst out = Raised e ->
  ((exists m, e = OSError m) \/ (exists m, e = ValueError m))
  /\ is_RequestException e = false.
Proof.
  cbn zeta. intros Hraise.
  destruct (download_video_cases video_url download_folder w)
    as [[Hfalse _]|(r & name & w2 & d & Hnet & Hok & Hct & Hname & Hd & -> & Hdir & Hnew
                    & Hf & Hn & Heq)].
  { rewrite Hfalse in Hraise. done. }
  cbn zeta in Heq. rewrite Heq in *. clear Heq.
  pose proof (save_response_cases r name download_folder w2 _ Hd Hdir Hnew) as Hcases.
  cbn zeta in Hcases. unfold try_except in *.
  destruct (save_response r name download_folder w2) as [res w3]. cbn in *.
  destruct Hcases as [_ [(text & _ & -> & He)|[(_ & _ & -> & He)|(_ & _ & _ & _ & Hs)]]].
  - cbn in *. injection Hraise as <-. split; [right; by eexists | done].
  - cbn in *. injection Hraise as <-. split; [left; by eexists | done].
  - destruct (stream_error r) as [msg|]; destruct Hs as [-> _]; cbn in Hraise; [|done].
    unfold mbind, M_bind, bind in Hraise. cbn in Hraise. done.
Qed.

Lemma write_chunks_folder (video_name : string) (cs : list string) (err : option string)
    (w : World) :
  is_Some (folder w) -> is_Some (folder (snd (write_chunks video_name cs err w))).
Proof.
  revert w. induction cs as [|chunk cs IH]; intros w Hw; cbn.
  - by destruct err.
  - unfold mbind, M_bind, bind, file_write.
    destruct (String.length chunk <=? free_space w)%nat; [|done].
    apply IH. cbn. by eexists.
Qed.

Lemma save_response_folder (r : Response) (video_name download_folder : string) (w : World) :
  is_Some (folder w) -> is_Some (folder (snd (save_response r video_name download_folder w))).
Proof.
  intros [d Hd]. unfold save_response, mbind, M_bind, bind, open_wb. rewrite Hd.
  destruct (names_directory video_name); [cbn; rewrite Hd; by eexists |].
  unfold total_size_of. destruct (content_length r); cbn; try (by eexists);
    match goal with
    | |- context [write_chunks ?n ?c ?e ?w1] =>
        pose proof (write_chunks_folder n c e w1 ltac:(by eexists)) as Hw;
        destruct (write_chunks n c e w1) as [[[]| |] ?]; cbn in *; done
    end.
Qed.

(** The folder exists after a call of [download_video]. *)
Lemma download_video_folder (video_url download_folder : string) (w : World) :
  is_Some (folder (snd (download_video video_url download_folder w))).
Proof.
  rewrite download_video_eq. pose proof (with_folder_is_Some w) as Hfolder.
  generalize dependent (with_folder w). intros w1 Hfolder.
  unfold try_except, download_attempt, mbind, M_bind, bind, requests_get. cbn.
  destruct (network w1 video_url) as [msg|r]; cbn.
  { unfold mbind, M_bind, bind. cbn. done. }
  destruct (raise_for_status_cases r
              (add_stdout ("Downloading " +:+ video_url +:+ "...") w1)) as [->|[msg ->]].
  2:{ cbn. unfold mbind, M_bind, bind. cbn. done. }
  destruct (negb _); cbn; [done |].
  rewrite resolve_filename_run.
  destruct (unused_name _ _) as [name|]; cbn; [|done].
  set (w2 := add_stdout _ _).
  pose proof (save_response_folder r name download_folder w2 Hfolder) as Hs.
  destruct (save_response r name download_folder w2) as [[b|e|] w3]; cbn in *; try done.
  unfold except_RequestException. destruct (is_RequestException e); cbn; [|done].
  unfold mbind, M_bind, bind. cbn. done.
Qed.

End Stored.

(** ** Progress and termination of the thread pool *)

Section Progress.
Import Pool PoolInvariants PoolProgress.

Lemma cancel_after_pending_inv (n : nat) (fs : list future) (i : nat) :
  cancel_after n fs !! i = Some Pending -> fs !! i = Some Pending.
Proof.
  rewrite cancel_after_lookup. destruct (fs !! i) as [f|]; [|done]. cbn.
  case_decide; [done |]. by destruct f.
Qed.

Lemma cancel_after_running_inv (n : nat) (fs : list future) (i : nat) :
  cancel_after n fs !! i = Some Running -> fs !! i = Some Running.
Proof.
  rewrite cancel_after_lookup. destruct (fs !! i) as [f|]; [|done]. cbn.
  case_decide; [done |]. by destruct f.
Qed.

Lemma forallb_is_idle (ts : list thread) :
  forallb is_idle ts = true -> Forall (fun t => t = Idle) ts.
Proof.
  induction ts as [|t ts IH]; cbn; [done |].
  intros [Ht Hts]%andb_true_iff. constructor; [by destruct t | by apply IH].
Qed.

Lemma main_step_progress_invariant (s s' : state) :
  main_step s = Some s' -> progress_invariant s -> progress_invariant s'.
Proof.
  intros H (Hp & Hr & Hth & Hsem & Hdone). unfold main_step in H.
  destruct (main s) as [n|n c|r|r] eqn:Hmain; [| | |done].
  - destruct (selected_videos s !! n) as [url|]; simplify_eq.
    2:{ unfold progress_invariant. cbn. repeat split; try done. }
    assert (threads (submit s) = threads s \/ threads (submit s) = (threads s ++ [Idle])%list)
      as Hthreads.
    { unfold submit, adjust_thread_count. cbn. repeat case_match; cbn; auto. }
    assert (forall k t, threads s !! k = Some t -> threads (submit s) !! k = Some t) as Hkeep.
    { intros k t Hk. destruct Hthreads as [->| ->]; [done | by apply lookup_app_l_Some]. }
    assert (futures (submit s) = (futures s ++ [Pending])%list
            /\ work_queue (submit s) = (work_queue s ++ [length (futures s)])%list) as [Hf Hq].
    { unfold submit, adjust_thread_count. cbn. repeat case_match; done. }
    assert (threads (submit s) <> []) as Hne.
    { unfold submit, adjust_thread_count. cbn.
      destruct (idle_semaphore s) as [|m] eqn:Em; cbn.
      - destruct (length (threads s) <=? 4)%nat eqn:E; cbn; [by destruct (threads s) |].
        apply Nat.leb_gt in E. destruct (threads s); [cbn in E; lia | done].
      - by destruct Hsem. }
    unfold progress_invariant. cbn. rewrite Hf, Hq.
    split; [|split; [|split; [|split]]].
    + intros i Hi. apply lookup_app_Some in Hi as [Hi|[Hge Hi]].
      * destruct (Hp i Hi) as [Hin|[k Hk]]; [left; apply elem_of_app; by left | right; exists k; by apply Hkeep].
      * destruct (i - length (futures s)) as [|m] eqn:E; [|by destruct m].
        left. assert (i = length (futures s)) as -> by lia.
        apply elem_of_app. right. by apply list_elem_of_singleton.
    + intros i Hi. apply lookup_app_Some in Hi as [Hi|[Hge Hi]].
      * destruct (Hr i Hi) as [k Hk]. exists k. by apply Hkeep.
      * destruct (i - length (futures s)) as [|m]; [done | by destruct m].
    + by right.
    + by right.
    + done.
  - destruct (futures s !! n) as [[| | |[b|e|]]|] eqn:Hn; simplify_eq;
      unfold progress_invariant; cbn; repeat split; try done.
    all: try (intros i Hi%cancel_after_pending_inv; by apply Hp).
    all: try (intros i Hi%cancel_after_running_inv; by apply Hr).
    all: destruct Hth as [Hth|Hth]; [|by right]; rewrite Hth in Hn; done.
  - destruct (work_queue s) as [|] eqn:Hq; [|done].
    destruct (forallb is_idle (threads s)) eqn:Hidle; simplify_eq.
    unfold progress_invariant. cbn. rewrite Hq. repeat split; try done.
    by apply forallb_is_idle.
Qed.

Ltac split_insert H :=
  apply list_lookup_insert_Some in H as [(? & ? & ?)|[? H]].

Lemma worker_step_progress_invariant (k : nat) (s s' : state) :
  worker_step k s = Some s' -> progress_invariant s -> progress_invariant s'.
Proof.
  intros H (Hp & Hr & Hth & Hsem & Hdone).
  assert (main s' = main s) as Hmain.
  { unfold worker_step in H. repeat case_match; simplify_eq; done. }
  assert (length (threads s') = length (threads s)) as Hlen.
  { unfold worker_step in H. repeat case_match; simplify_eq; cbn; by rewrite length_insert. }
  assert (threads s <> [] -> threads s' <> []) as Hne.
  { intros Hne E. rewrite E in Hlen. by destruct (threads s). }
  assert (threads s <> []) as Hthreads.
  { unfold worker_step in H. by destruct (threads s). }
  assert (forall r, main s' = Done r ->
            work_queue s' = [] /\ Forall (fun t => t = Idle) (threads s')) as Hdone'.
  { intros r Hr'. rewrite Hmain in Hr'. destruct (Hdone r Hr') as [Hq Hidle].
    unfold worker_step in H. destruct (threads s !! k) as [t|] eqn:Hk; [|done].
    rewrite (proj1 (Forall_lookup _ _) Hidle k t Hk), Hq in H. done. }
  split; [|split; [|split; [right; by apply Hne |split; [right; by apply Hne | done]]]].
  - intros i Hi. unfold worker_step in H.
    destruct (threads s !! k) as [[|j|j]|] eqn:Hk; [| | |done].
    + destruct (work_queue s) as [|j q] eqn:Hq; simplify_eq. cbn in *.
      destruct (Hp i Hi) as [Hin|[k' Hk']].
      * apply elem_of_cons in Hin as [->|Hin]; [|by left].
        right. exists k. apply list_lookup_insert_eq. by apply lookup_lt_Some in Hk.
      * right. exists k'. rewrite list_lookup_insert_ne; [done | congruence].
    + destruct (futures s !! j) as [[| | |]|] eqn:Hj; simplify_eq; cbn in *.
      * split_insert Hi; [done |].
        destruct (Hp i Hi) as [Hin|[k' Hk']]; [by left |].
        right. exists k'. rewrite list_lookup_insert_ne; [done | congruence].
      * destruct (Hp i Hi) as [Hin|[k' Hk']]; [by left |].
        right. exists k'. rewrite list_lookup_insert_ne; [done | congruence].
    + destruct (futures s !! j) as [[| | |]|] eqn:Hj; simplify_eq.
      destruct (selected_videos s !! j) as [url|]; [|done].
      destruct (download_video url (download_folder s) (world s)) as [r w'].
      assert (futures s' = <[j := Finished r]> (futures s)
              /\ threads s' = <[k := Idle]> (threads s)
              /\ work_queue s' = work_queue s) as (Hf' & Ht' & Hq').
      { destruct r; by simplify_eq. }
      rewrite Hf' in Hi. rewrite Ht', Hq'. split_insert Hi; [done |].
      destruct (Hp i Hi) as [Hin|[k' Hk']]; [by left |].
      right. exists k'. rewrite list_lookup_insert_ne; [done | congruence].
  - intros i Hi. unfold worker_step in H.
    destruct (threads s !! k) as [[|j|j]|] eqn:Hk; [| | |done].
    + destruct (work_queue s) as [|j q] eqn:Hq; simplify_eq. cbn in *.
      destruct (Hr i Hi) as [k' Hk'].
      exists k'. rewrite list_lookup_insert_ne; [done | congruence].
    + destruct (futures s !! j) as [[| | |]|] eqn:Hj; simplify_eq; cbn in *.
      * split_insert Hi.
        -- subst. exists k. apply list_lookup_insert_eq. by apply lookup_lt_Some in Hk.
        -- destruct (Hr i Hi) as [k' Hk'].
           exists k'. rewrite list_lookup_insert_ne; [done | congruence].
      * destruct (Hr i Hi) as [k' Hk'].
        exists k'. rewrite list_lookup_insert_ne; [done | congruence].
    + destruct (futures s !! j) as [[| | |]|] eqn:Hj; simplify_eq.
      destruct (selected_videos s !! j) as [url|]; [|done].
      destruct (download_video url (download_folder s) (world s)) as [r w'].
      assert (futures s' = <[j := Finished r]> (futures s)
              /\ threads s' = <[k := Idle]> (threads s)) as (Hf' & Ht').
      { destruct r; by simplify_eq. }
      rewrite Hf' in Hi. rewrite Ht'. split_insert Hi; [done |].
      destruct (Hr i Hi) as [k' Hk'].
      exists k'. rewrite list_lookup_insert_ne; [done | congruence].
Qed.

(** a thread that has something to do can do it *)
Lemma worker_can_step (s : state) (k : nat) (t : thread) :
  workers_invariant s ->
  threads s !! k = Some t ->
  t <> Idle \/ work_queue s <> [] ->
  is_Some (worker_step k s).
Proof.
  intros (Hnd & Hone & Hout & Hq & Hh & Hb & Hlen) Hk Hmove.
  unfold worker_step. rewrite Hk. destruct t as [|i|i].
  - destruct Hmove as [?|Hne]; [done |]. by destruct (work_queue s).
  - destruct (Hh _ _ Hk) as (f & -> & [-> | ->]); by eexists.
  - rewrite (Hb _ _ Hk).
    destruct (lookup_lt_is_Some_2 (Pool.selected_videos s) i) as [url ->].
    { specialize (Hb _ _ Hk). apply lookup_lt_Some in Hb. lia. }
    pose proof (download_video_not_diverged url (Pool.download_folder s) (world s)) as Hd.
    destruct (download_video _ _ _) as [[b|e|] w']; [by eexists | by eexists | done].
Qed.

Lemma reachable_invariants (selected_videos : list string) (download_folder : string)
    (w : World) (schedule : list action) (s : state) :
  run schedule (download_videos_concurrently selected_videos download_folder w) = Some s ->
  main_invariant s /\ workers_invariant s /\ progress_invariant s
  /\ Pool.selected_videos s = selected_videos.
Proof.
  intros Hrun.
  eapply (run_invariant (fun s => main_invariant s /\ workers_invariant s
                                  /\ progress_invariant s
                                  /\ Pool.selected_videos s = selected_videos)); [|done |].
  - intros a s1 s2 H (Hm & Hw & Hp & Hv).
    split; [by eapply step_main_invariant |].
    split. { destruct a; [by eapply main_step_workers_invariant
                         | by eapply worker_step_workers_invariant]. }
    split. { destruct a; [by eapply main_step_progress_invariant
                         | by eapply worker_step_progress_invariant]. }
    apply step_constants in H as [-> _]. done.
  - split; [cbn; split; [done | lia] |]. split.
    + unfold workers_invariant. cbn.
      split; [apply NoDup_nil_2 |]. repeat split; try done; try lia.
      intros i Hi. by apply elem_of_nil in Hi.
    + split; [|done]. unfold progress_invariant. cbn. repeat split; try done; by left.
Qed.

Lemma not_all_idle (ts : list thread) :
  forallb is_idle ts = false -> exists k t, ts !! k = Some t /\ t <> Idle.
Proof.
  induction ts as [|t ts IH]; cbn; [done |].
  destruct t; cbn.
  - intros H. destruct (IH H) as (k & t & Hk & Ht). by exists (S k), t.
  - intros _. by exists 0, (Holding i).
  - intros _. by exists 0, (Busy i).
Qed.

Lemma busy_in_flight (s : state) (k i : nat) :
  threads s !! k = Some (Busy i) -> 0 < in_flight s.
Proof.
  intros Hk. unfold in_flight.
  assert (Busy i ∈ filter is_busy (threads s)) as Hin.
  { apply list_elem_of_filter. split; [done | by eapply list_elem_of_lookup_2]. }
  destruct (filter is_busy (threads s)); [by apply elem_of_nil in Hin | cbn; lia].
Qed.

(** X6.  A call of [download_videos_concurrently] waits for nothing but its
    downloads: in every state that a schedule can lead to in which no worker
    is inside [download_video], either the call is over (it has returned its
    count or raised), or the main thread or one of the worker threads can
    make a step.  The bookkeeping of the pool never blocks on its own; the
    call can only hang inside a download (the request has no timeout). *)
Theorem the_batch_waits_only_for_its_downloads (selected_videos : list string)
    (download_folder : string) (w : World) (schedule : list action) (s : state) :
  run schedule (download_videos_concurrently selected_videos download_folder w) = Some s ->
  in_flight s = 0 ->
  (exists r, main s = Done r) \/ (exists a, is_Some (step a s)).
Proof.
  intros Hrun Hnone.
  destruct (reachable_invariants _ _ _ _ _ Hrun) as (Hm & Hw & (Hp & Hr & Hth & Hsem & Hdone) & Hv).
  destruct (finished_futures_come_from_downloads (fun _ => True) _ _ _ _ _
              (fun _ _ _ => I) I Hrun) as [_ Hout].
  assert (forall k i, threads s !! k <> Some (Busy i)) as Hidle.
  { intros k i Hk. apply busy_in_flight in Hk. lia. }
  assert (forall k t, threads s !! k = Some t -> t <> Idle \/ work_queue s <> [] ->
                      exists a, is_Some (step a s)) as Hworker.
  { intros k t Hk Hmove. exists (Worker k). by eapply worker_can_step. }
  assert (work_queue s <> [] -> exists a, is_Some (step a s)) as Hqueue.
  { intros Hq. destruct (threads s) as [|t ts] eqn:Ets.
    - destruct Hth as [Hf|Hne]; [|done]. exfalso.
      destruct Hw as (_ & _ & _ & Hin & _).
      destruct (work_queue s) as [|i q]; [done |].
      destruct (Hin i ltac:(left)) as (f & Hi & _). by rewrite Hf in Hi.
    - apply (Hworker 0 t); [done | by right]. }
  destruct (main s) as [n|n c|r|r] eqn:Hmain.
  - right. exists Main. cbn. unfold main_step. rewrite Hmain.
    by destruct (Pool.selected_videos s !! n).
  - destruct (futures s !! n) as [[| | |[b|e|]]|] eqn:Hn.
    + right. destruct (Hp n Hn) as [Hin|[k Hk]].
      * apply Hqueue. intros E. rewrite E in Hin. by apply elem_of_nil in Hin.
      * apply (Hworker k (Holding n)); [done | by left].
    + exfalso. destruct (Hr n Hn) as [k Hk]. by apply (Hidle k n).
    + right. exists Main. cbn. unfold main_step. by rewrite Hmain, Hn.
    + right. exists Main. cbn. unfold main_step. by rewrite Hmain, Hn.
    + right. exists Main. cbn. unfold main_step. by rewrite Hmain, Hn.
    + exfalso. destruct (Hout n _ Hn) as (url & w' & _ & _ & Hd).
      by apply download_video_not_diverged in Hd.
    + right. exists Main. cbn. unfold main_step. by rewrite Hmain, Hn.
  - right. destruct (work_queue s) as [|i q] eqn:Hq; [|by apply Hqueue].
    destruct (forallb is_idle (threads s)) eqn:Hidle'.
    + exists Main. cbn. unfold main_step. by rewrite Hmain, Hq, Hidle'.
    + destruct (not_all_idle _ Hidle') as (k & t & Hk & Ht). apply (Hworker k t); [done | by left].
  - left. by exists r.
Qed.

(** X7.  When a call of [download_videos_concurrently] is over, nothing is
    left running: the queue is empty, every worker thread is idle, no
    download is in flight, and every future is finished or cancelled.  No
    thread can make a step any more. *)
Theorem nothing_runs_after_the_call (selected_videos : list string) (download_folder : string)
    (w : World) (schedule : list action) (s : state) (r : result nat) :
  run schedule (download_videos_concurrently selected_videos download_folder w) = Some s ->
  main s = Done r ->
  work_queue s = []
  /\ Forall (fun t => t = Idle) (threads s)
  /\ in_flight s = 0
  /\ Forall (fun f => f = Cancelled \/ exists b, f = Finished b) (futures s)
  /\ forall a, step a s = None.
Proof.
  intros Hrun Hmain.
  destruct (reachable_invariants _ _ _ _ _ Hrun) as (Hm & Hw & (Hp & Hr & Hth & Hsem & Hdone) & Hv).
  destruct (Hdone r Hmain) as [Hq Hidle].
  split; [done |]. split; [done |]. split; [|split].
  - unfold in_flight. clear -Hidle. induction Hidle as [|t ts -> _ IH]; [done |].
    rewrite filter_cons. destruct (decide (is_busy Idle)) as [[]|]. exact IH.
  - apply Forall_lookup. intros i f Hi. destruct f as [| | |b].
    + destruct (Hp i Hi) as [Hin|[k Hk]].
      * rewrite Hq in Hin. by apply elem_of_nil in Hin.
      * by pose proof (proj1 (Forall_lookup _ _) Hidle k _ Hk).
    + destruct (Hr i Hi) as [k Hk].
      by pose proof (proj1 (Forall_lookup _ _) Hidle k _ Hk).
    + by left.
    + right. by exists b.
  - intros [|k]; cbn.
    + unfold main_step. by rewrite Hmain.
    + unfold worker_step. destruct (threads s !! k) as [t|] eqn:Hk; [|done].
      rewrite (proj1 (Forall_lookup _ _) Hidle k t Hk), Hq. done.
Qed.

(** X9.  With no URL to download, [download_videos_concurrently] returns 0
    and does nothing else: no worker thread is started, no request is made,
    nothing is printed and the disk is not touched (the download folder is
    not even created). *)
Theorem an_empty_batch_returns_zero (download_folder : string) (w : World)
    (schedule : list action) (s : state) :
  run schedule (download_videos_concurrently [] download_folder w) = Some s ->
  world s = w
  /\ threads s = [] /\ futures s = []
  /\ (forall r, main s = Done r -> r = Returned 0)
  /\ exists s', run [Main; Main; Main] (download_videos_concurrently [] download_folder w)
                = Some s' /\ main s' = Done (Returned 0) /\ world s' = w.
Proof.
  intros Hrun.
  assert (world s = w /\ threads s = [] /\ futures s = [] /\ work_queue s = []
          /\ selected_videos s = []
          /\ (main s = Submitting 0 \/ main s = Iterating 0 0
              \/ main s = Exiting (Returned 0) \/ main s = Done (Returned 0)))
    as (Hw & Ht & Hf & Hq & Hv & Hmain).
  { eapply (run_invariant (fun s => world s = w /\ threads s = [] /\ futures s = []
                                    /\ work_queue s = [] /\ selected_videos s = []
                                    /\ (main s = Submitting 0 \/ main s = Iterating 0 0
                                        \/ main s = Exiting (Returned 0)
                                        \/ main s = Done (Returned 0)))); [|done |].
    - intros a s1 s2 H (Hw & Ht & Hf & Hq & Hv & Hmain). destruct a as [|k]; cbn in H.
      + unfold main_step in H. rewrite Hv, Hf, Hq, Ht in H.
        destruct Hmain as [Hm|[Hm|[Hm|Hm]]]; rewrite Hm in H; cbn in H; simplify_eq; cbn;
          repeat split; auto.
      + unfold worker_step in H. rewrite Ht in H. done.
    - cbn. repeat split; auto. }
  split; [done |]. split; [done |]. split; [done |]. split.
  - intros r Hr. destruct Hmain as [Hm|[Hm|[Hm|Hm]]]; congruence.
  - eexists. split; [reflexivity |]. done.
Qed.

End Progress.

Section Attempts.
Import Pool PoolInvariants PoolProgress.














End Attempts.

(** ** The links, the prompt *)

Section ScriptProofs.
Import Script ScriptFacts.

Ltac env_eq :=
  unfold add_output, set_stdin, set_files, set_env_world, add_stdout, set_free_space; cbn;
  rewrite <- ?app_assoc; try done.

Lemma io_print_run (line : string) (env : Env) :
  io_print line env = (Value tt, set_env_world (add_stdout line (world env)) env).
Proof. reflexivity. Qed.

Lemma search_video_extension_empty : search_video_extension "" = false.
Proof. reflexivity. Qed.

Lemma is_video_link_href (tag : Tag) :
  is_video_link tag ->
  exists href, attrs tag !! "href" = Some href /\ search_video_extension href = true
               /\ href <> "".
Proof.
  unfold is_video_link. intros [_ H]%andb_True.
  destruct (attrs tag !! "href") as [href|]; [|done].
  exists href. split; [done |]. split; [by apply Is_true_true |].
  intros ->. done.
Qed.

(** The loop on the tags that [find_all] returns. *)
Lemma links_loop_run (max_videos : Z) (a_tags : list Tag) (valid_videos : list string)
    (count : Z) :
  Forall (fun tag => is_video_link tag) a_tags ->
  let todo := take (Z.to_nat (max_videos - count)) (hrefs a_tags) in
  links_loop max_videos a_tags valid_videos count =
    if existsb root_relative todo
    then Error (NameError "name 'url' is not defined")
    else Value (valid_videos ++ (with_scheme <$> todo))%list.
Proof.
  intros Htags. revert valid_videos count.
  induction Htags as [|a_tag a_tags Htag _ IH]; intros valid_videos count; cbn zeta.
  { cbn. rewrite take_nil. cbn. by rewrite app_nil_r. }
  cbn [links_loop]. destruct (max_videos <=? count)%Z eqn:Hmax.
  { apply Z.leb_le in Hmax. replace (Z.to_nat (max_videos - count)) with 0 by lia.
    cbn. by rewrite app_nil_r. }
  apply Z.leb_gt in Hmax.
  replace (Z.to_nat (max_videos - count)) with (S (Z.to_nat (max_videos - (count + 1)))) by lia.
  destruct (is_video_link_href a_tag Htag) as (href & Hhref & _ & Hne).
  unfold hrefs. cbn [omap list_omap]. fold (hrefs a_tags). rewrite Hhref. cbn [take existsb fmap list_fmap].
  destruct (decide (href = "")) as [|_]; [done |].
  unfold root_relative at 1, with_scheme at 1.
  destruct (PyStr.startswith "//" href) eqn:H2.
  - rewrite andb_false_r. cbn [orb]. rewrite IH. cbn zeta.
    destruct (existsb _ _); [done |]. by rewrite <- app_assoc.
  - destruct (PyStr.startswith "/" href) eqn:H1; cbn [andb negb orb]; [done |].
    rewrite IH. cbn zeta. destruct (existsb _ _); [done |]. by rewrite <- app_assoc.
Qed.

Lemma Forall_find_all (soup : list Tag) :
  Forall (fun tag => is_video_link tag) (find_all_video_links soup).
Proof. apply Forall_forall. intros tag Htag. by apply list_elem_of_filter in Htag as [? _]. Qed.

Section Extraction.
Variable BeautifulSoup : string -> list Tag.

(** What [extract_video_links_from_html] does, case by case. *)
Lemma extract_video_links_run (filename : string) (max_videos : Z) (env : Env) :
  extract_video_links_from_html BeautifulSoup filename max_videos env =
    match files env !! filename with
    | None =>
        (Value [],
         add_output ["Error reading " +:+ filename
                     +:+ ": [Errno 2] No such file or directory: '" +:+ filename +:+ "'"] env)
    | Some file =>
        let todo := considered (BeautifulSoup file) max_videos in
        if existsb root_relative todo
        then (Value [],
              add_output ["Error reading " +:+ filename +:+ ": name 'url' is not defined"] env)
        else (Value (with_scheme <$> todo), env)
    end.
Proof.
  unfold extract_video_links_from_html, io_try, mbind, IO_bind, io_bind, open_r.
  destruct (files env !! filename) as [file|]; [|done].
  unfold io_outcome. rewrite links_loop_run by apply Forall_find_all.
  cbn zeta. rewrite Z.sub_0_r. fold (considered (BeautifulSoup file) max_videos).
  by destruct (existsb _ _).
Qed.


Lemma search_video_extension_app (p s : string) :
  search_video_extension s = true -> search_video_extension (p +:+ s) = true.
Proof.
  intros H. induction p as [|c p IH]; [done |].
  rewrite string_app_cons. cbn [search_video_extension]. rewrite IH. apply orb_true_r.
Qed.

Lemma elem_of_hrefs (tags : list Tag) (href : string) :
  Forall (fun tag => is_video_link tag) tags -> href ∈ hrefs tags ->
  search_video_extension href = true.
Proof.
  intros Htags Hin. unfold hrefs in Hin. apply list_elem_of_omap in Hin as (tag & Htag & Hhref).
  rewrite Forall_forall in Htags.
  destruct (is_video_link_href tag (Htags tag Htag)) as (href' & Hhref' & Hs & _). congruence.
Qed.

(** X11.  When none of the first [max_videos] links to a video of the page
    starts with a single slash, [extract_video_links_from_html] returns
    these links, in the order of the document, a link that starts with two
    slashes with [http:] put before it and every other link as it is
    written; nothing is printed. *)
Theorem links_come_back_in_document_order (filename file : string) (max_videos : Z)
    (env : Env) :
  files env !! filename = Some file ->
  existsb root_relative (considered (BeautifulSoup file) max_videos) = false ->
  extract_video_links_from_html BeautifulSoup filename max_videos env
  = (Value (with_scheme <$> considered (BeautifulSoup file) max_videos), env).
Proof. intros Hfile Hnone. rewrite extract_video_links_run, Hfile. cbn zeta. by rewrite Hnone. Qed.

(** X12.  One link that starts with a single slash among the first
    [max_videos] links to a video makes [extract_video_links_from_html]
    return no link at all: the branch for such links reads the name [url],
    which the script defines nowhere, and the [NameError] is caught by the
    [except Exception] clause, which prints it and returns the empty list;
    the links collected before are lost. *)
Theorem a_root_relative_link_loses_every_link (filename file : string) (max_videos : Z)
    (env : Env) :
  files env !! filename = Some file ->
  existsb root_relative (considered (BeautifulSoup file) max_videos) = true ->
  extract_video_links_from_html BeautifulSoup filename max_videos env
  = (Value [],
     add_output ["Error reading " +:+ filename +:+ ": name 'url' is not defined"] env).
Proof. intros Hfile Hone. rewrite extract_video_links_run, Hfile. cbn zeta. by rewrite Hone. Qed.

(** X13.  [extract_video_links_from_html] never raises, also when the file
    is missing, and it changes nothing but [stdout].  It returns at most
    [max_videos] links, none when [max_videos] is zero or negative; every
    link it returns matches the pattern of the video extensions and does
    not start with a slash. *)
Theorem extraction_never_raises (filename : string) (max_videos : Z) (env : Env) :
  exists video_links printed,
    extract_video_links_from_html BeautifulSoup filename max_videos env
    = (Value video_links, add_output printed env)
    /\ length video_links <= Z.to_nat max_videos
    /\ Forall (fun link => search_video_extension link = true
                           /\ PyStr.startswith "/" link = false) video_links.
Proof.
  assert (add_output [] env = env) as Hsame.
  { unfold add_output. rewrite app_nil_r. by destruct env as [[] ? ? ? ? ?]. }
  rewrite extract_video_links_run. destruct (files env !! filename) as [file|].
  2:{ eexists [], _. split; [done |]. split; [cbn; lia | done]. }
  cbn zeta. destruct (existsb _ _) eqn:Hex.
  { eexists [], _. split; [done |]. split; [cbn; lia | done]. }
  exists (with_scheme <$> considered (BeautifulSoup file) max_videos), [].
  rewrite Hsame. split; [done |]. split.
  { rewrite length_fmap. unfold considered. rewrite length_take. lia. }
  apply Forall_fmap, Forall_forall. intros href Hin. cbn.
  assert (root_relative href = false) as Hrel.
  { destruct (root_relative href) eqn:E; [|done].
    assert (existsb root_relative (considered (BeautifulSoup file) max_videos) = true) as Hc.
    { apply existsb_exists. exists href. split; [by apply list_elem_of_In | done]. }
    congruence. }
  assert (search_video_extension href = true) as Hs.
  { unfold considered in Hin. apply elem_of_take in Hin as (i & Hi & _).
    eapply elem_of_hrefs; [apply Forall_find_all |]. by eapply list_elem_of_lookup_2. }
  unfold with_scheme, root_relative in *.
  destruct (PyStr.startswith "//" href) eqn:H2.
  - split; [by apply search_video_extension_app | done].
  - split; [done |]. rewrite andb_true_r in Hrel. done.
Qed.

End Extraction.

(** *** The prompt *)

Lemma add_output_app (a b : list string) (env : Env) :
  add_output b (add_output a env) = add_output (a ++ b) env.
Proof. env_eq. Qed.

Lemma set_stdin_add_output (ls : list string) (printed : list string) (env : Env) :
  add_output printed (set_stdin ls env) = set_stdin ls (add_output printed env).
Proof. done. Qed.

Lemma input_run (text : string) (env : Env) :
  input text env =
    match stdin env with
    | line :: rest => (Value line, set_stdin rest (add_output [text] env))
    | [] => (Error (EOFError "EOF when reading a line"), add_output [text] env)
    end.
Proof.
  unfold input, mbind, IO_bind, io_bind. rewrite io_print_run. unfold read_line. cbn.
  by destruct (stdin env).
Qed.

Lemma valid_answer_false (line : string) :
  valid_answer line = false -> strip line <> "1" /\ strip line <> "2".
Proof.
  unfold valid_answer. intros [H1 H2]%orb_false_iff.
  by apply bool_decide_eq_false in H1, H2.
Qed.

Lemma ask_user_step_invalid (depth : nat) (video_url line : string) (rest : list string)
    (env : Env) :
  stdin env = line :: rest -> valid_answer line = false ->
  ask_user_to_download_video (S depth) video_url env
  = ask_user_to_download_video depth video_url
      (set_stdin rest (add_output [prompt video_url; invalid_input] env)).
Proof.
  intros Hin [H1 H2]%valid_answer_false.
  cbn [ask_user_to_download_video]. unfold mbind, IO_bind, io_bind.
  fold (prompt video_url). rewrite input_run, Hin.
  destruct (decide (strip line = "1")) as [|_]; [done |].
  destruct (decide (strip line = "2")) as [|_]; [done |].
  rewrite io_print_run. f_equal. env_eq.
Qed.

Lemma ask_user_run (depth : nat) (video_url : string) (env : Env)
    (refused : list string) (line : string) (rest : list string) :
  stdin env = (refused ++ line :: rest)%list ->
  Forall (fun l => valid_answer l = false) refused ->
  valid_answer line = true ->
  length refused < depth ->
  ask_user_to_download_video depth video_url env
  = (Value (if decide (strip line = "1") then Some video_url else None),
     set_stdin rest
       (add_output
          (refusals video_url refused ++ [prompt video_url]
           ++ (if decide (strip line = "1") then [] else ["Skipping video: " +:+ video_url]))
          env)).
Proof.
  intros Hin Hrefused Hvalid. revert depth env Hin.
  induction Hrefused as [|l refused Hl _ IH]; intros depth env Hin Hdepth.
  - destruct depth as [|depth]; [cbn in Hdepth; lia |]. cbn in Hin.
    cbn [ask_user_to_download_video]. unfold mbind, IO_bind, io_bind.
    fold (prompt video_url). rewrite input_run, Hin.
    unfold valid_answer in Hvalid.
    destruct (decide (strip line = "1")) as [H1|H1]; [done |].
    destruct (decide (strip line = "2")) as [H2|H2].
    + rewrite io_print_run. cbn. f_equal. env_eq.
    + apply orb_true_iff in Hvalid as [H|H]; by apply bool_decide_eq_true in H.
  - destruct depth as [|depth]; [cbn in Hdepth; lia |]. cbn in Hin, Hdepth.
    rewrite (ask_user_step_invalid depth video_url l (refused ++ line :: rest)) by done.
    rewrite (IH depth) by (done || lia).
    f_equal.
    change (refusals video_url (l :: refused))
      with ([prompt video_url; invalid_input] ++ refusals video_url refused)%list.
    env_eq.
Qed.

(** X14.  [ask_user_to_download_video] reads answers until one is [1] or
    [2] once the white space around it is stripped: it returns the URL for
    [1] and [None] for [2], having asked again after each answer it
    refused.  It reads no line beyond that answer. *)
Theorem the_first_valid_answer_decides (depth : nat) (video_url : string) (env : Env)
    (refused : list string) (line : string) (rest : list string) :
  stdin env = (refused ++ line :: rest)%list ->
  Forall (fun l => valid_answer l = false) refused ->
  valid_answer line = true ->
  length refused < depth ->
  ask_user_to_download_video depth video_url env
  = (Value (if decide (strip line = "1") then Some video_url else None),
     set_stdin rest
       (add_output
          (refusals video_url refused ++ [prompt video_url]
           ++ (if decide (strip line = "1") then [] else ["Skipping video: " +:+ video_url]))
          env)).
Proof. apply ask_user_run. Qed.

(** X15.  When no answer is accepted, the call does not come back with an
    answer: it raises [EOFError] when the input ends first, and
    [RecursionError] when the answers refused are as many as the interpreter
    allows nested calls, since every refused answer costs one more of
    them. *)
Theorem no_valid_answer_ends_in_an_error (depth : nat) (video_url : string) (env : Env) :
  Forall (fun l => valid_answer l = false) (take depth (stdin env)) ->
  let out := ask_user_to_download_video depth video_url env in
  fst out = Error (if decide (length (stdin env) < depth)
                   then EOFError "EOF when reading a line"
                   else RecursionError "maximum recursion depth exceeded")
  /\ stdin (snd out) = drop depth (stdin env).
Proof.
  revert env. induction depth as [|depth IH]; intros env Hall; cbn zeta.
  - cbn. destruct (decide (length (stdin env) < 0)); [lia | done].
  - destruct (stdin env) as [|line rest] eqn:Hin.
    + cbn [ask_user_to_download_video]. unfold mbind, IO_bind, io_bind.
      rewrite input_run, Hin. cbn. destruct (decide (0 < S depth)); [done | lia].
    + cbn in Hall. apply Forall_cons in Hall as [Hline Hrest].
      rewrite (ask_user_step_invalid depth video_url line rest) by done.
      destruct (IH (set_stdin rest (add_output [prompt video_url; invalid_input] env)) Hrest)
        as [Hfst Hsnd].
      rewrite Hfst, Hsnd. cbn.
      split; [|done]. f_equal.
      destruct (decide (length rest < depth)), (decide (S (length rest) < S depth)); done || lia.
Qed.

End ScriptProofs.

(** ** The page, the list of videos, the main block *)

Section PageAndMain.
Import Script ScriptFacts.

Ltac env_eq :=
  unfold add_output, set_stdin, set_files, set_env_world, add_stdout, set_free_space; cbn;
  rewrite <- ?app_assoc; try done.

(** *** [save_page_source] *)

Lemma lift_raise_for_status_ok (r : Response) (env : Env) :
  status_code r < 400 \/ 600 <= status_code r ->
  lift (raise_for_status r) env = (Value tt, set_env_world (world env) env).
Proof. intros Hok. unfold lift. by rewrite raise_for_status_ok. Qed.

Lemma lift_raise_for_status_error (r : Response) (env : Env) :
  400 <= status_code r < 600 ->
  exists msg,
    lift (raise_for_status r) env
    = (Error (Engine (RequestException msg)), set_env_world (world env) env).
Proof.
  intros Hcode. unfold lift.
  destruct (raise_for_status_error r (world env) Hcode) as [msg ->]. by exists msg.
Qed.

Lemma save_page_source_failed (url filename : string) (env : Env) :
  (exists msg, pages env url = PageError msg)
  \/ (exists r text, pages env url = PageOk r text /\ 400 <= status_code r < 600) ->
  exists why,
    save_page_source url filename env
    = (Value tt, add_output ["Error fetching the website: " +:+ why] env).
Proof.
  unfold save_page_source, io_try, mbind, IO_bind, io_bind, requests_get_page.
  intros [[msg Hpage]|(r & text & Hpage & Hcode)]; rewrite Hpage.
  - exists msg. rewrite io_print_run. f_equal.
  - destruct (lift_raise_for_status_error r env Hcode) as [msg Hraise].
    cbn [fst]. rewrite Hraise. exists msg. rewrite io_print_run. f_equal.
Qed.

(** X16.  When the page cannot be fetched (the request raises, or the
    status is an error status), [save_page_source] prints the error and
    returns: it does not raise, and it leaves the file alone, so a page
    saved by an earlier run stays on the disk. *)
Theorem a_failed_fetch_keeps_the_old_page (url filename : string) (env : Env) :
  (exists msg, pages env url = PageError msg)
  \/ (exists r text, pages env url = PageOk r text /\ 400 <= status_code r < 600) ->
  exists why,
    save_page_source url filename env
    = (Value tt, add_output ["Error fetching the website: " +:+ why] env).
Proof. apply save_page_source_failed. Qed.

(** What [save_page_source] does with a page that it could fetch. *)
Lemma save_page_source_fetched (url filename : string) (env : Env) (r : Response)
    (text : string) :
  pages env url = PageOk r text ->
  status_code r < 400 \/ 600 <= status_code r ->
  let old := default "" (files env !! filename) in
  save_page_source url filename env =
    if decide (filename ∈ write_protected env) then
      (Error (Engine (OSError ("[Errno 13] Permission denied: '" +:+ filename +:+ "'"))),
       set_env_world (world env) env)
    else if (String.length text <=? free_space (world env) + String.length old)%nat then
      (Value tt,
       set_files (<[filename := text]> (files env))
         (set_env_world
            (add_stdout ("Page source saved to " +:+ filename +:+ ".")
               (set_free_space
                  (free_space (world env) + String.length old - String.length text)
                  (world env))) env))
    else
      (Error (Engine (OSError "[Errno 28] No space left on device")),
       set_files (<[filename := ""]> (files env))
         (set_env_world
            (set_free_space (free_space (world env) + String.length old) (world env)) env)).
Proof.
  intros Hpage Hok. cbn zeta.
  unfold save_page_source, io_try, mbind, IO_bind, io_bind, requests_get_page.
  rewrite Hpage. cbn [fst snd]. rewrite lift_raise_for_status_ok by done.
  unfold open_w. cbn [write_protected set_env_world].
  destruct (decide (filename ∈ write_protected env)) as [|_]; [done |].
  unfold text_write. cbn [world set_env_world set_files free_space set_free_space files].
  destruct (_ <=? _)%nat; [|done].
  rewrite io_print_run. f_equal. unfold set_files, set_env_world. cbn.
  rewrite lookup_insert_eq, insert_insert_eq. cbn. done.
Qed.

(** X17.  A page that is fetched with a status that is no error is written
    to the file when the file can be opened and the text fits on the disk:
    the file then holds the text of the response and nothing of what it held
    before.  Only the writing can make [save_page_source] raise: what it
    raises is an [OSError], never the [RequestException] of a failed
    request. *)
Theorem the_fetched_page_replaces_the_file (url filename : string) (env : Env) :
  let out := save_page_source url filename env in
  (fst out = Value tt \/ exists msg, fst out = Error (Engine (OSError msg)))
  /\ (forall r text,
        pages env url = PageOk r text ->
        status_code r < 400 \/ 600 <= status_code r ->
        filename ∉ write_protected env ->
        String.length text
        <= free_space (world env) + String.length (default "" (files env !! filename)) ->
        fst out = Value tt
        /\ files (snd out) = <[filename := text]> (files env)
        /\ last (stdout (world (snd out)))
           = Some ("Page source saved to " +:+ filename +:+ ".")).
Proof.
  cbn zeta. split.
  - destruct (pages env url) as [msg|r text] eqn:Hpage.
    { destruct (save_page_source_failed url filename env) as [why ->]; [|by left].
      left. by exists msg. }
    destruct (decide (400 <= status_code r < 600)) as [Hcode|Hcode].
    { destruct (save_page_source_failed url filename env) as [why ->]; [|by left].
      right. by exists r, text. }
    rewrite (save_page_source_fetched url filename env r text Hpage) by lia. cbn zeta.
    destruct (decide _); [right; by eexists |].
    destruct (_ <=? _)%nat; [by left | right; by eexists].
  - intros r text Hpage Hok Hopen Hfits.
    rewrite (save_page_source_fetched url filename env r text Hpage Hok). cbn zeta.
    destruct (decide _) as [|_]; [done |].
    apply Nat.leb_le in Hfits. rewrite Hfits. cbn.
    split; [done |]. split; [done |]. by rewrite last_snoc.
Qed.


(** *** [save_videos_to_html] *)

Lemma text_write_outcome (filename text : string) (env : Env) :
  fst (text_write filename text env) <> Unfinished.
Proof. unfold text_write. by destruct (_ <=? _)%nat. Qed.

Lemma write_videos_outcome (output_file : string) (video_links : list string) (env : Env) :
  fst (write_videos output_file video_links env) <> Unfinished.
Proof.
  revert env. induction video_links as [|link links IH]; intros env; [done |].
  cbn [write_videos]. unfold mbind, IO_bind, io_bind.
  pose proof (text_write_outcome output_file (video_element link) env) as Hw.
  destruct (text_write _ _ env) as [[[]|e|] env1]; [apply IH | done | done].
Qed.

Lemma text_write_frame (filename text : string) (env : Env) :
  let env' := snd (text_write filename text env) in
  stdin env' = stdin env /\ folder (world env') = folder (world env)
  /\ stdout (world env') = stdout (world env).
Proof. unfold text_write. by destruct (_ <=? _)%nat. Qed.

Lemma write_videos_frame (output_file : string) (video_links : list string) (env : Env) :
  let env' := snd (write_videos output_file video_links env) in
  stdin env' = stdin env /\ folder (world env') = folder (world env)
  /\ stdout (world env') = stdout (world env).
Proof.
  revert env. induction video_links as [|link links IH]; intros env; [done |].
  cbn [write_videos]. unfold mbind, IO_bind, io_bind.
  pose proof (text_write_frame output_file (video_element link) env) as Hw.
  destruct (text_write _ _ env) as [[[]|e|] env1]; cbn in *; [|done | done].
  destruct (IH env1) as (H1 & H2 & H3). destruct Hw as (? & ? & ?).
  split; [congruence |]. split; congruence.
Qed.

(** the text of the video elements of a list of links *)
Lemma write_videos_fits (output_file : string) (video_links : list string) (env : Env)
    (old : string) :
  files env !! output_file = Some old ->
  String.length (foldr String.append "" (video_element <$> video_links))
  <= free_space (world env) ->
  let out := write_videos output_file video_links env in
  fst out = Value tt
  /\ files (snd out)
     = <[output_file := old +:+ foldr String.append "" (video_element <$> video_links)]>
         (files env)
  /\ free_space (world (snd out))
     = free_space (world env)
       - String.length (foldr String.append "" (video_element <$> video_links))
  /\ write_protected (snd out) = write_protected env.
Proof.
  revert env old. induction video_links as [|link links IH]; intros env old Hold Hfits; cbn zeta.
  - cbn. rewrite string_app_empty_r, insert_id by done. split; [done |]. split; [done |].
    split; [lia | done].
  - cbn [write_videos]. unfold mbind, IO_bind, io_bind, text_write.
    rewrite fmap_cons in *. cbn [foldr] in *. rewrite string_length_app in *.
    destruct (_ <=? _)%nat eqn:E; [|apply Nat.leb_gt in E; lia].
    rewrite Hold. cbn [default from_option id].
    match goal with |- context [write_videos _ _ ?env1] =>
      destruct (IH env1 (old +:+ video_element link)) as (H1 & H2 & H3 & H4) end.
    { cbn. by rewrite lookup_insert_eq. }
    { cbn. lia. }
    cbn in *. split; [done |]. rewrite H2, H3, insert_insert_eq, string_app_assoc.
    repeat split; try done. lia.
Qed.

Lemma videos_page_length (video_links : list string) :
  String.length (videos_page video_links)
  = String.length page_head
    + String.length (foldr String.append "" (video_element <$> video_links))
    + String.length page_foot.
Proof. unfold videos_page. rewrite !string_length_app. lia. Qed.

(** What [save_videos_to_html] does when the file can be written. *)
Lemma save_videos_to_html_fits (video_links : list string) (output_file : string) (env : Env) :
  output_file ∉ write_protected env ->
  String.length (videos_page video_links)
  <= free_space (world env) + String.length (default "" (files env !! output_file)) ->
  exists env',
    save_videos_to_html video_links output_file env = (Value tt, env')
    /\ files env' = <[output_file := videos_page video_links]> (files env)
    /\ stdout (world env')
       = (stdout (world env) ++ ["Videos saved to " +:+ output_file +:+ "."])%list.
Proof.
  intros Hopen Hfits. rewrite videos_page_length in Hfits.
  unfold save_videos_to_html, io_try, mbind, IO_bind, io_bind, open_w.
  destruct (decide (output_file ∈ write_protected env)) as [|_]; [done |].
  set (env1 := set_env_world _ _).
  assert (files env1 !! output_file = Some "") as H1 by (unfold env1; cbn; by rewrite lookup_insert_eq).
  assert (free_space (world env1)
          = free_space (world env) + String.length (default "" (files env !! output_file))) as Hf1
    by done.
  assert (files env1 = <[output_file := ""]> (files env)) as Hfiles1 by done.
  assert (stdout (world env1) = stdout (world env)) as Ho1 by done.
  clearbody env1.
  unfold text_write at 1. rewrite H1.
  destruct (_ <=? _)%nat eqn:E; [|apply Nat.leb_gt in E; lia].
  set (env2 := set_env_world _ _).
  assert (files env2 !! output_file = Some page_head) as H2
    by (unfold env2; cbn; by rewrite lookup_insert_eq).
  assert (free_space (world env2) = free_space (world env1) - String.length page_head) as Hf2
    by done.
  assert (files env2 = <[output_file := page_head]> (files env1)) as Hfiles2 by done.
  assert (stdout (world env2) = stdout (world env1)) as Ho2 by done.
  clearbody env2.
  destruct (write_videos_fits output_file video_links env2 page_head H2 ltac:(lia))
    as (Hv & Hfiles3 & Hf3 & _).
  pose proof (write_videos_frame output_file video_links env2) as (_ & _ & Ho3).
  destruct (write_videos output_file video_links env2) as [res env3].
  cbn [fst snd] in *. subst res.
  unfold text_write. rewrite Hfiles3, lookup_insert_eq.
  destruct (String.length page_foot <=? free_space (world env3))%nat eqn:E3;
    [|apply Nat.leb_gt in E3; lia].
  rewrite io_print_run. eexists. split; [reflexivity |]. cbn.
  rewrite Hfiles2, Hfiles1, !insert_insert_eq. unfold videos_page.
  rewrite string_app_assoc. split; [done |]. congruence.
Qed.

Lemma open_w_frame (filename : string) (env : Env) :
  let env' := snd (open_w filename env) in
  stdin env' = stdin env /\ folder (world env') = folder (world env)
  /\ stdout (world env') = stdout (world env).
Proof. unfold open_w. by destruct (decide _). Qed.

(** The body of [save_videos_to_html] returns or raises, and touches
    neither the input nor the download folder. *)
Lemma save_videos_to_html_run (video_links : list string) (output_file : string) (env : Env) :
  let out := save_videos_to_html video_links output_file env in
  fst out = Value tt
  /\ stdin (snd out) = stdin env
  /\ folder (world (snd out)) = folder (world env)
  /\ ((stdout (world (snd out))
       = (stdout (world env) ++ ["Videos saved to " +:+ output_file +:+ "."])%list)
      \/ exists why,
           stdout (world (snd out))
           = (stdout (world env) ++ ["Error saving videos to HTML: " +:+ why])%list).
Proof.
  cbn zeta. unfold save_videos_to_html, io_try, mbind, IO_bind, io_bind.
  pose proof (open_w_frame output_file env) as Ho.
  destruct (open_w output_file env) as [[[]|e|] env1] eqn:Hopen; cbn in Ho.
  3:{ unfold open_w in Hopen. by destruct (decide _). }
  2:{ rewrite io_print_run. cbn. destruct Ho as (-> & -> & ->).
      repeat split; try done. right. by eexists. }
  pose proof (text_write_frame output_file page_head env1) as Hh.
  pose proof (text_write_outcome output_file page_head env1) as Hh'.
  destruct (text_write output_file page_head env1) as [[[]|e|] env2]; cbn in Hh, Hh'; [| |done].
  2:{ rewrite io_print_run. cbn. destruct Ho as (<- & <- & <-). destruct Hh as (-> & -> & ->).
      repeat split; try done. right. by eexists. }
  pose proof (write_videos_frame output_file video_links env2) as Hv.
  pose proof (write_videos_outcome output_file video_links env2) as Hv'.
  destruct (write_videos output_file video_links env2) as [[[]|e|] env3]; cbn in Hv, Hv';
    [| |done].
  2:{ rewrite io_print_run. cbn. destruct Ho as (<- & <- & <-). destruct Hh as (<- & <- & <-).
      destruct Hv as (-> & -> & ->). repeat split; try done. right. by eexists. }
  pose proof (text_write_frame output_file page_foot env3) as Hf.
  pose proof (text_write_outcome output_file page_foot env3) as Hf'.
  destruct (text_write output_file page_foot env3) as [[[]|e|] env4]; cbn in Hf, Hf'; [| |done].
  2:{ rewrite io_print_run. cbn. destruct Ho as (<- & <- & <-). destruct Hh as (<- & <- & <-).
      destruct Hv as (<- & <- & <-). destruct Hf as (-> & -> & ->).
      repeat split; try done. right. by eexists. }
  rewrite io_print_run. cbn. destruct Ho as (<- & <- & <-). destruct Hh as (<- & <- & <-).
  destruct Hv as (<- & <- & <-). destruct Hf as (-> & -> & ->).
  repeat split; try done. by left.
Qed.

Lemma write_videos_short (output_file : string) (video_links : list string) (env : Env) :
  free_space (world env)
  < String.length (foldr String.append "" (video_element <$> video_links)) ->
  let out := write_videos output_file video_links env in
  fst out = Error (Engine (OSError "[Errno 28] No space left on device"))
  /\ stdout (world (snd out)) = stdout (world env).
Proof.
  revert env. induction video_links as [|link links IH]; intros env Hshort; cbn zeta.
  { cbn in Hshort. lia. }
  cbn [write_videos]. unfold mbind, IO_bind, io_bind, text_write.
  rewrite fmap_cons in Hshort. cbn [foldr] in Hshort. rewrite string_length_app in Hshort.
  destruct (String.length (video_element link) <=? free_space (world env))%nat eqn:E;
    [|done].
  apply Nat.leb_le in E.
  match goal with |- context [write_videos _ _ ?env1] =>
    destruct (IH env1) as [H1 H2]; [cbn; lia |] end.
  cbn zeta in H1, H2. by rewrite H1, H2.
Qed.

(** What [save_videos_to_html] does when the file cannot be opened. *)
Lemma save_videos_to_html_protected (video_links : list string) (output_file : string)
    (env : Env) :
  output_file ∈ write_protected env ->
  exists env',
    save_videos_to_html video_links output_file env = (Value tt, env')
    /\ files env' = files env
    /\ stdout (world env')
       = (stdout (world env)
          ++ ["Error saving videos to HTML: [Errno 13] Permission denied: '"
              +:+ output_file +:+ "'"])%list.
Proof.
  intros Hopen. unfold save_videos_to_html, io_try, mbind, IO_bind, io_bind, open_w.
  destruct (decide (output_file ∈ write_protected env)) as [_|]; [|done].
  rewrite io_print_run. by eexists.
Qed.

(** What [save_videos_to_html] does when the disk has no room for the
    page. *)
Lemma save_videos_to_html_short (video_links : list string) (output_file : string)
    (env : Env) :
  output_file ∉ write_protected env ->
  free_space (world env) + String.length (default "" (files env !! output_file))
  < String.length (videos_page video_links) ->
  exists env',
    save_videos_to_html video_links output_file env = (Value tt, env')
    /\ stdout (world env')
       = (stdout (world env)
          ++ ["Error saving videos to HTML: [Errno 28] No space left on device"])%list.
Proof.
  intros Hopen Hshort. rewrite videos_page_length in Hshort.
  unfold save_videos_to_html, io_try, mbind, IO_bind, io_bind, open_w.
  destruct (decide (output_file ∈ write_protected env)) as [|_]; [done |].
  set (env1 := set_env_world _ _).
  assert (files env1 !! output_file = Some "") as H1
    by (unfold env1; cbn; by rewrite lookup_insert_eq).
  assert (free_space (world env1)
          = free_space (world env) + String.length (default "" (files env !! output_file)))
    as Hf1 by done.
  assert (stdout (world env1) = stdout (world env)) as Ho1 by done.
  clearbody env1.
  unfold text_write at 1. rewrite H1.
  destruct (String.length page_head <=? free_space (world env1))%nat eqn:E.
  2:{ rewrite io_print_run. eexists. split; [done |]. cbn. by rewrite Ho1. }
  apply Nat.leb_le in E.
  set (env2 := set_env_world _ _).
  assert (files env2 !! output_file = Some page_head) as H2
    by (unfold env2; cbn; by rewrite lookup_insert_eq).
  assert (free_space (world env2) = free_space (world env1) - String.length page_head)
    as Hf2 by done.
  assert (stdout (world env2) = stdout (world env1)) as Ho2 by done.
  clearbody env2.
  destruct (decide (String.length (foldr String.append "" (video_element <$> video_links))
                    <= free_space (world env2))) as [Hfits|Hno].
  - destruct (write_videos_fits output_file video_links env2 page_head H2 Hfits)
      as (Hv & Hfiles3 & Hf3 & _).
    pose proof (write_videos_frame output_file video_links env2) as (_ & _ & Ho3).
    destruct (write_videos output_file video_links env2) as [res env3].
    cbn [fst snd] in *. subst res.
    unfold text_write. rewrite Hfiles3, lookup_insert_eq.
    destruct (String.length page_foot <=? free_space (world env3))%nat eqn:E3;
      [apply Nat.leb_le in E3; lia |].
    rewrite io_print_run. eexists. split; [done |]. cbn. by rewrite Ho3, Ho2, Ho1.
  - destruct (write_videos_short output_file video_links env2 ltac:(lia)) as [Hv Ho3].
    destruct (write_videos output_file video_links env2) as [res env3].
    cbn [fst snd] in *. subst res.
    rewrite io_print_run. eexists. split; [done |]. cbn. by rewrite Ho3, Ho2, Ho1.
Qed.

(** X18.  [save_videos_to_html] never raises: whatever goes wrong while the
    file is written is caught and printed, and the line that is printed
    tells which of the three ends the call took.  When the file cannot be
    opened for writing, the error of [open] is printed and no file is
    touched.  When the file can be opened and the page fits on the disk (the
    room that the old content of the file gives back included), the file
    holds the page (the head, one video element per link in the order of the
    list, the foot) and the success is printed.  When the page does not fit,
    the error of the write is printed, not the success. *)
Theorem save_videos_to_html_never_raises (video_links : list string) (output_file : string)
    (env : Env) :
  let out := save_videos_to_html video_links output_file env in
  let room :=
    free_space (world env) + String.length (default "" (files env !! output_file)) in
  fst out = Value tt
  /\ (output_file ∈ write_protected env ->
      files (snd out) = files env
      /\ stdout (world (snd out))
         = (stdout (world env)
            ++ ["Error saving videos to HTML: [Errno 13] Permission denied: '"
                +:+ output_file +:+ "'"])%list)
  /\ (output_file ∉ write_protected env ->
      String.length (videos_page video_links) <= room ->
      files (snd out) = <[output_file := videos_page video_links]> (files env)
      /\ stdout (world (snd out))
         = (stdout (world env) ++ ["Videos saved to " +:+ output_file +:+ "."])%list)
  /\ (output_file ∉ write_protected env ->
      room < String.length (videos_page video_links) ->
      stdout (world (snd out))
      = (stdout (world env)
         ++ ["Error saving videos to HTML: [Errno 28] No space left on device"])%list).
Proof.
  cbn zeta.
  destruct (save_videos_to_html_run video_links output_file env) as (Hr & _ & _ & Hout).
  split; [done |]. split; [|split].
  - intros Hopen.
    by destruct (save_videos_to_html_protected video_links output_file env Hopen)
      as (env' & -> & ? & ?).
  - intros Hopen Hfits.
    by destruct (save_videos_to_html_fits video_links output_file env Hopen Hfits)
      as (env' & -> & ? & ?).
  - intros Hopen Hshort.
    by destruct (save_videos_to_html_short video_links output_file env Hopen Hshort)
      as (env' & -> & ?).
Qed.


(** *** The main block *)

Lemma save_page_source_run (url filename : string) (env : Env) :
  let out := save_page_source url filename env in
  (fst out = Value tt \/ exists msg, fst out = Error (Engine (OSError msg)))
  /\ stdin (snd out) = stdin env
  /\ folder (world (snd out)) = folder (world env).
Proof.
  cbn zeta. destruct (pages env url) as [msg|r text] eqn:Hpage.
  { destruct (save_page_source_failed url filename env) as [why ->]; [left; by exists msg |].
    split; [by left | done]. }
  destruct (decide (400 <= status_code r < 600)) as [Hcode|Hcode].
  { destruct (save_page_source_failed url filename env) as [why ->];
      [right; by exists r, text |].
    split; [by left | done]. }
  rewrite (save_page_source_fetched url filename env r text Hpage) by lia. cbn zeta.
  destruct (decide _); [split; [right; by eexists | done] |].
  destruct (_ <=? _)%nat; (split; [first [by left | right; by eexists] | done]).
Qed.

Section MainBlock.
Variable BeautifulSoup : string -> list Tag.

Lemma extract_no_video (filename : string) (max_videos : Z) (env : Env) :
  (max_videos <= 0)%Z ->
  exists printed,
    extract_video_links_from_html BeautifulSoup filename max_videos env
    = (Value [], add_output printed env).
Proof.
  intros Hmax. rewrite extract_video_links_run.
  destruct (files env !! filename) as [file|]; [|by eexists].
  cbn zeta. unfold considered. replace (Z.to_nat max_videos) with 0 by lia.
  rewrite take_0. cbn. exists []. f_equal. unfold add_output. rewrite app_nil_r.
  by destruct env as [[] ? ? ? ? ?].
Qed.

(** The main block with [max_videos] at zero or below: the pool is never
    reached. *)
Lemma main_block_no_video (website_url : string) (max_videos : Z)
    (schedule : list Pool.action) (env : Env) :
  (max_videos <= 0)%Z ->
  let out := main_block BeautifulSoup website_url max_videos schedule env in
  main_block BeautifulSoup website_url max_videos schedule env
  = main_block BeautifulSoup website_url max_videos [] env
  /\ stdin (snd out) = stdin env
  /\ folder (world (snd out)) = folder (world env)
  /\ ((fst out = Value tt /\ last (stdout (world (snd out))) = Some "Script finished.")
      \/ exists msg, fst out = Error (Engine (OSError msg))).
Proof.
  intros Hmax. cbn zeta. unfold main_block, mbind, IO_bind, io_bind.
  destruct (save_page_source_run website_url "index.html" env) as (Hres & Hin1 & Hf1).
  destruct (save_page_source website_url "index.html" env) as [res1 env1]. cbn [fst snd] in *.
  destruct Hres as [->|[msg ->]].
  2:{ split; [done |]. split; [done |]. split; [done |]. right. by exists msg. }
  destruct (extract_no_video "index.html" max_videos env1 Hmax) as [printed ->].
  destruct (save_videos_to_html_run [] "videos.html" (add_output printed env1))
    as (Hres3 & Hin3 & Hf3 & _).
  destruct (save_videos_to_html [] "videos.html" (add_output printed env1)) as [res3 env3].
  cbn [fst snd] in *. subst res3.
  cbn [ask_for_each]. unfold mret, IO_ret, io_ret. rewrite io_print_run. cbn [fst snd].
  unfold add_output in Hin3, Hf3. cbn in Hin3, Hf3.
  split; [done |]. split; [cbn; congruence |]. split; [cbn; congruence |].
  left. split; [done |]. cbn. by rewrite last_snoc.
Qed.

(** X19.  The script as it is written downloads nothing.  Its main block
    sets [max_videos] to 0, so the list of links is empty whatever the page
    holds: no question is asked (no line of the input is read), the thread
    pool is never started (the schedule of its threads plays no part), and
    the download folder is left as it was.  The run ends with the line
    [Script finished.], unless writing [index.html] raised an [OSError]. *)
Theorem the_script_as_written_downloads_nothing (schedule : list Pool.action) (env : Env) :
  let out := main BeautifulSoup schedule env in
  main BeautifulSoup schedule env = main BeautifulSoup [] env
  /\ stdin (snd out) = stdin env
  /\ folder (world (snd out)) = folder (world env)
  /\ ((fst out = Value tt /\ last (stdout (world (snd out))) = Some "Script finished.")
      \/ exists msg, fst out = Error (Engine (OSError msg))).
Proof. apply main_block_no_video. unfold max_videos. lia. Qed.

(** X20.  When the page cannot be fetched, the script goes on with the
    file [index.html] that an earlier run left on the disk: after the error
    message of [save_page_source], the links extracted are those of the old
    page. *)
Theorem a_failed_fetch_falls_back_on_the_old_page (website_url : string) (max_videos : Z)
    (env : Env) (msg old : string) :
  pages env website_url = PageError msg ->
  files env !! "index.html" = Some old ->
  existsb root_relative (considered (BeautifulSoup old) max_videos) = false ->
  (save_page_source website_url "index.html" ;;
   extract_video_links_from_html BeautifulSoup "index.html" max_videos) env
  = (Value (with_scheme <$> considered (BeautifulSoup old) max_videos),
     add_output ["Error fetching the website: " +:+ msg] env).
Proof.
  intros Hpage Hold Hnone. unfold mbind, IO_bind, io_bind.
  unfold save_page_source, io_try, mbind, IO_bind, io_bind, requests_get_page.
  rewrite Hpage, io_print_run.
  rewrite extract_video_links_run. cbn [files set_env_world]. rewrite Hold. cbn zeta.
  by rewrite Hnone.
Qed.

End MainBlock.

End PageAndMain.

(** ** The loop of the main block *)

Section Selection.
Import Script ScriptFacts.

Lemma ask_user_returns_its_url (depth : nat) (video_url : string) (env env' : Env)
    (r : string) :
  ask_user_to_download_video depth video_url env = (Value (Some r), env') -> r = video_url.
Proof.
  revert env. induction depth as [|depth IH]; intros env; [done |].
  cbn [ask_user_to_download_video]. unfold mbind, IO_bind, io_bind.
  rewrite input_run. destruct (stdin env) as [|line rest]; [done |].
  destruct (decide _); [by intros [= ->] |].
  destruct (decide _); [rewrite io_print_run; done |].
  rewrite io_print_run. apply IH.
Qed.

Lemma ask_for_each_sublist (video_links selected_videos result : list string)
    (env env' : Env) :
  ask_for_each video_links selected_videos env = (Value result, env') ->
  exists chosen, result = (selected_videos ++ chosen)%list /\ sublist chosen video_links.
Proof.
  revert selected_videos env.
  induction video_links as [|video_url video_links IH]; intros selected_videos env.
  - intros [= <- <-]. exists []. by rewrite app_nil_r.
  - cbn [ask_for_each]. unfold mbind, IO_bind, io_bind, get_env.
    destruct (ask_user_to_download_video (recursion_limit env) video_url env)
      as [[[r|]|e|] env1] eqn:Hask; [| |done |done].
    + apply ask_user_returns_its_url in Hask as ->.
      destruct (decide (video_url = "")) as [|_].
      * intros H. destruct (IH _ _ H) as (chosen & -> & Hsub).
        exists chosen. split; [done |]. by apply sublist_cons.
      * intros H. destruct (IH _ _ H) as (chosen & -> & Hsub).
        exists (video_url :: chosen). rewrite <- app_assoc. split; [done |].
        by apply sublist_skip.
    + intros H. destruct (IH _ _ H) as (chosen & -> & Hsub).
      exists chosen. split; [done |]. by apply sublist_cons.
Qed.

Lemma ask_for_each_run (video_links answers : list string) :
  length answers = length video_links ->
  Forall (fun l => valid_answer l = true) answers ->
  forall (selected_videos rest : list string) (env : Env),
    stdin env = (answers ++ rest)%list ->
    0 < recursion_limit env ->
    exists env',
      ask_for_each video_links selected_videos env
      = (Value (selected_videos ++ accepted video_links answers)%list, env')
      /\ stdin env' = rest.
Proof.
  revert answers. induction video_links as [|video_url video_links IH];
    intros [|answer answers] Hlen Hvalid selected_videos rest env Hin Hlimit;
    cbn in Hlen; try lia.
  - exists env. cbn. rewrite app_nil_r. done.
  - apply Forall_cons in Hvalid as [Hanswer Hvalid].
    cbn [ask_for_each]. unfold mbind, IO_bind, io_bind, get_env.
    rewrite (ask_user_run (recursion_limit env) video_url env [] answer (answers ++ rest))
      by (done || cbn; lia).
    match goal with |- context [ask_for_each _ ?sel ?env1] =>
      destruct (IH answers ltac:(lia) Hvalid sel rest env1) as (env' & -> & Hrest);
        [done | done |]
    end.
    exists env'. split; [|done]. f_equal. f_equal.
    unfold accepted. cbn [zip zip_with omap list_omap fst snd].
    destruct (decide (strip answer = "1")) as [|_]; [|done].
    destruct (decide (video_url = "")) as [|_]; [done |]. by rewrite <- app_assoc.
Qed.

(** X22.  The loop of the main block selects only links that were
    extracted, in their order.  When the input holds one accepted answer per
    link, the links selected are exactly those answered with [1], and one
    line of the input is read per link. *)
Theorem the_links_answered_yes_are_selected (video_links : list string) (env : Env) :
  let out := ask_for_each video_links [] env in
  (forall selected_videos, fst out = Value selected_videos ->
     sublist selected_videos video_links)
  /\ (forall answers rest,
        stdin env = (answers ++ rest)%list ->
        length answers = length video_links ->
        Forall (fun l => valid_answer l = true) answers ->
        0 < recursion_limit env ->
        fst out = Value (accepted video_links answers) /\ stdin (snd out) = rest).
Proof.
  cbn zeta. split.
  - intros selected_videos Hout.
    destruct (ask_for_each video_links [] env) as [res env'] eqn:Hrun. cbn in Hout. subst res.
    by destruct (ask_for_each_sublist _ _ _ _ _ Hrun) as (chosen & -> & Hsub).
  - intros answers rest Hin Hlen Hvalid Hlimit.
    by destruct (ask_for_each_run video_links answers Hlen Hvalid [] rest env Hin Hlimit)
      as (env' & -> & <-).
Qed.

End Selection.

Section RaisedByADownload.
Import Pool PoolInvariants.




End RaisedByADownload.

(** ** Instances of the properties *)

(** ** Calls that run side by side *)

Section CallsAlone.
Import Calls.

Lemma take_all (s : string) : PyStr.take (String.length s) s = s.
Proof. induction s as [|c s IH]; cbn; [done | by rewrite IH]. Qed.

Lemma drop_all (s : string) (n : nat) : String.length s <= n -> PyStr.drop n s = "".
Proof.
  revert n. induction s as [|c s IH]; intros [|n] H; cbn in *; try done; try lia.
  apply IH. lia.
Qed.

(** Two file objects on one file: the first has written [abc], the second
    has emptied the file and written [xy]; the first then writes [def] at
    its own position. *)
Lemma write_at_examples :
  write_at "xy" 3 "def" = "xy" +:+ String nul "def"
  /\ write_at "abcdef" 0 "xy" = "xycdef"
  /\ write_at "" 0 "abc" = "abc".
Proof. repeat split; reflexivity. Qed.

(** Writing at the end of a file appends. *)
Lemma write_at_end (content chunk : string) :
  write_at content (String.length content) chunk = content +:+ chunk.
Proof.
  unfold write_at. rewrite Nat.sub_diag. cbn [zeros]. rewrite string_app_empty_r.
  rewrite take_all, drop_all by lia. by rewrite string_app_empty_r.
Qed.

Lemma file_write_at_end (video_name chunk content : string) (w : World) :
  entries w !! video_name = Some content ->
  file_write_at video_name (String.length content) chunk w = file_write video_name chunk w.
Proof.
  intros H. unfold file_write_at, file_write. rewrite H. cbn [default from_option id].
  rewrite write_at_end, string_length_app.
  replace (String.length content + String.length chunk - String.length content)
    with (String.length chunk) by lia.
  done.
Qed.

Lemma call_run_over (n : nat) (video_url download_folder : string) (r : result bool)
    (w : World) :
  call_run n video_url download_folder (Over r) w = (Over r, w).
Proof. induction n as [|n IH]; cbn; [done | by rewrite IH]. Qed.

Lemma call_run_add (n m : nat) (video_url download_folder : string) (c : call) (w : World) :
  call_run (n + m) video_url download_folder c w
  = call_run m video_url download_folder
      (call_run n video_url download_folder c w).1
      (call_run n video_url download_folder c w).2.
Proof.
  revert c w. induction n as [|n IH]; intros c w; cbn; [done |].
  destruct (call_step video_url download_folder c w) as [c' w']. apply IH.
Qed.

(** The loop over the chunks, interleave without interruption, is [write_chunks]. *)
Lemma write_loop_alone (video_url download_folder : string) (r : Response)
    (video_name content : string) (cs : list string) (w : World) :
  entries w !! video_name = Some content ->
  call_run (S (length cs)) video_url download_folder
    (AtWrite r video_name (String.length content) cs) w
  = ended (try_except
             (write_chunks video_name cs (stream_error r) ;;
              print ("Saved " +:+ video_name +:+ " to " +:+ download_folder +:+ ".") ;;
              ret true)
             (except_RequestException video_url) w).
Proof.
  unfold ended, try_except, mbind, M_bind, bind.
  revert content w. induction cs as [|chunk cs IH]; intros content w Hc.
  - cbn. destruct (stream_error r) as [msg|]; cbn; done.
  - cbn [length call_run]. cbn [call_step write_step write_chunks].
    unfold mbind, M_bind, bind. rewrite (file_write_at_end _ _ content) by done.
    destruct (file_write video_name chunk w) as [[[]|e|] w1] eqn:Hw.
    + cbn [inside_try ret].
      assert (entries w1 !! video_name = Some (content +:+ chunk)) as Hc1.
      { unfold file_write in Hw. rewrite Hc in Hw. destruct (_ <=? _)%nat; [|done].
        injection Hw as <-. unfold entries at 1. cbn. by rewrite lookup_insert_eq. }
      rewrite <- string_length_app. apply (IH _ _ Hc1).
    + cbn [inside_try]. unfold file_write in Hw. destruct (_ <=? _)%nat; [done |].
      injection Hw as <- <-. cbn. by rewrite call_run_over.
    + unfold file_write in Hw. by destruct (_ <=? _)%nat.
Qed.

Lemma open_file_accepted (video_name : string) (w : World) :
  accepted_name video_name = true -> open_file video_name w = open_wb video_name w.
Proof.
  unfold accepted_name, open_file. intros [Hn Hl]%andb_true_iff.
  apply negb_true_iff in Hn. rewrite Hn.
  apply Nat.leb_le in Hl. destruct (name_max <? _)%nat eqn:E; [|done].
  apply Nat.ltb_lt in E. lia.
Qed.

(** From [open] on, a call that is not interrupted is [save_response]. *)
Lemma save_alone (video_url download_folder : string) (r : Response) (video_name : string)
    (w : World) :
  accepted_name video_name = true ->
  call_run (2 + length (chunks r)) video_url download_folder (AtOpen r video_name) w
  = ended (try_except (save_response r video_name download_folder)
             (except_RequestException video_url) w).
Proof.
  intros Hacc. cbn [Nat.add call_run]. cbn [call_step]. unfold open_step.
  pose proof (write_loop_alone video_url download_folder r video_name "" (chunks r)) as Hloop.
  cbn [call_run String.length] in Hloop.
  unfold save_response, ended, try_except, mbind, M_bind, bind in *.
  rewrite open_file_accepted by done.
  destruct (open_wb video_name w) as [[[]|e|] w1] eqn:Hopen.
  - assert (entries w1 !! video_name = Some "") as H1.
    { unfold open_wb in Hopen. destruct (folder w) as [d|]; [|done].
      destruct (names_directory video_name); [done |]. injection Hopen as <-.
      unfold entries. cbn. by rewrite lookup_insert_eq. }
    destruct (total_size_of r w1) as [[n|e|] w1'] eqn:Hsize.
    + assert (w1' = w1) as ->.
      { unfold total_size_of, ret, raise in Hsize. destruct (content_length r); by simplify_eq. }
      cbn [inside_try ret]. apply (Hloop w1 H1).
    + cbn [inside_try].
      assert (is_RequestException e = false /\ w1' = w1) as [He ->].
      { unfold total_size_of, ret, raise in Hsize. destruct (content_length r); by simplify_eq. }
      unfold except_RequestException. rewrite He. cbn. by rewrite call_run_over.
    + unfold total_size_of, ret, raise in Hsize. destruct (content_length r); by simplify_eq.
  - cbn [inside_try].
    assert (is_RequestException e = false) as He.
    { unfold open_wb in Hopen. destruct (folder w) as [d|]; [|by simplify_eq].
      destruct (names_directory video_name); by simplify_eq. }
    unfold except_RequestException. rewrite He. cbn. by rewrite call_run_over.
  - unfold open_wb in Hopen. destruct (folder w) as [d|]; [|done].
    by destruct (names_directory video_name).
Qed.

Lemma loop_alone (video_url download_folder : string) (r : Response)
    (base_name ext : string) (fuel : nat) (video_name : string) (counter : nat)
    (name : string) (w : World) :
  probe_names fuel (entry_exists w) base_name ext video_name counter = Some name ->
  exists n,
    call_run n video_url download_folder (AtLoopTest r base_name ext video_name counter) w
    = (AtOpen r name, w).
Proof.
  revert video_name counter. induction fuel as [|fuel IH]; intros video_name counter H;
    cbn in H; [done |].
  destruct (entry_exists w video_name) eqn:E.
  - destruct (IH _ _ H) as [n Hn]. exists (S n). cbn [call_run call_step].
    unfold loop_test, mbind, M_bind, bind. cbn. by rewrite E.
  - injection H as <-. exists 1. cbn. unfold loop_test, mbind, M_bind, bind. cbn.
    by rewrite E.
Qed.

(** The collision check, interleave without interruption, is [unused_name]. *)
Lemma check_alone (video_url download_folder : string) (r : Response)
    (video_name name : string) (w : World) :
  unused_name w video_name = Some name ->
  exists n,
    call_run n video_url download_folder (AtFirstTest r video_name) w = (AtOpen r name, w).
Proof.
  unfold unused_name. intros H. destruct (entry_exists w video_name) eqn:E.
  - destruct (OsPath.splitext video_name) as [base_name ext] eqn:Hsplit.
    destruct (loop_alone video_url download_folder r _ _ _ _ _ _ _ H) as [n Hn].
    exists (S n). cbn [call_run call_step]. unfold first_test, mbind, M_bind, bind. cbn.
    by rewrite E, Hsplit.
  - injection H as <-. exists 1. cbn. unfold first_test, mbind, M_bind, bind. cbn.
    by rewrite E.
Qed.

(** The first two lines of [download_video] *)
Lemma folder_alone (video_url download_folder : string) (w : World) :
  download_folder <> "" ->
  exists n, call_run n video_url download_folder AtFolderTest w = (AtRequest, with_folder w).
Proof.
  intros Hne. unfold with_folder. case_bool_decide as Hf.
  - exists 1. cbn. unfold folder_test, mbind, M_bind, bind. cbn.
    by rewrite (bool_decide_eq_false_2 _ Hne), (bool_decide_eq_true_2 _ Hf).
  - exists 2. cbn [call_run call_step].
    unfold folder_test, makedirs, outside_try, mbind, M_bind, bind, get_world, ret.
    rewrite (bool_decide_eq_false_2 _ Hne), (bool_decide_eq_false_2 _ Hf). cbn.
    unfold makedirs, outside_try, mbind, M_bind, bind.
    rewrite (bool_decide_eq_false_2 _ Hne).
    destruct (folder w) as [d|] eqn:Hd; [exfalso; apply Hf; by eexists | done].
Qed.

(** A call of [download_video] that no other call interrupts ends as the
    function [download_video] says, when the folder has a name and the
    resolved file name is one that [open] takes. *)
Lemma download_video_alone (video_url download_folder : string) (w : World) :
  download_folder <> "" ->
  (forall name,
     unused_name (with_folder w) (clean_filename (filename_hint video_url)) = Some name ->
     accepted_name name = true) ->
  exists n,
    call_run n video_url download_folder AtFolderTest w
    = ended (download_video video_url download_folder w).
Proof.
  intros Hne Hacc. rewrite download_video_eq.
  destruct (folder_alone video_url download_folder w Hne) as [n1 H1].
  generalize dependent (with_folder w). intros w1 Hacc H1.
  cut (exists n, call_run n video_url download_folder AtRequest w1
                 = ended (try_except (download_attempt video_url download_folder)
                            (except_RequestException video_url) w1)).
  { intros [n Hn]. exists (n1 + n). by rewrite call_run_add, H1. }
  unfold ended, try_except, download_attempt, mbind, M_bind, bind, requests_get. cbn.
  destruct (network w1 video_url) as [msg|r] eqn:Hnet.
  { exists 1. cbn. unfold request, mbind, M_bind, bind, requests_get. cbn. by rewrite Hnet. }
  destruct (raise_for_status_cases r
              (add_stdout ("Downloading " +:+ video_url +:+ "...") w1)) as [Hst|[msg Hst]].
  2:{ exists 1. cbn. unfold request, mbind, M_bind, bind, requests_get. cbn.
      by rewrite Hnet, Hst. }
  rewrite Hst.
  destruct (PyStr.contains "video" (default "" (content_type r))) eqn:Hct; cbn.
  2:{ exists 1. cbn. unfold request, mbind, M_bind, bind, requests_get. cbn.
      by rewrite Hnet, Hst, Hct. }
  rewrite resolve_filename_run.
  change (unused_name (add_stdout _ w1) ?n) with (unused_name w1 n).
  destruct (unused_name_total w1 (clean_filename (filename_hint video_url)))
    as (name & Hname & _).
  rewrite Hname. cbn.
  set (w2 := add_stdout _ (add_stdout _ (add_stdout _ w1))).
  destruct (check_alone video_url download_folder r _ name w2 Hname) as [n3 H3].
  pose proof (save_alone video_url download_folder r name w2 (Hacc name Hname)) as H4.
  exists (1 + (n3 + (2 + length (chunks r)))).
  rewrite call_run_add.
  assert (call_run 1 video_url download_folder AtRequest w1
          = (AtFirstTest r (clean_filename (filename_hint video_url)), w2)) as ->.
  { cbn. unfold request, mbind, M_bind, bind, requests_get. cbn.
    rewrite Hnet, Hst, Hct. cbn. by rewrite sanitize_filename_run. }
  cbn [fst snd]. rewrite call_run_add, H3. cbn [fst snd]. rewrite H4.
  unfold ended, try_except. done.
Qed.

End CallsAlone.

Section CallsTogether.
Import Calls.

Lemma interleave_app (video_urls : list string) (download_folder : string)
    (schedule1 schedule2 : list nat) (s : together) :
  interleave video_urls download_folder (schedule1 ++ schedule2) s
  = interleave video_urls download_folder schedule2 (interleave video_urls download_folder schedule1 s).
Proof. unfold interleave. by rewrite foldl_app. Qed.

Lemma interleave_cons (video_urls : list string) (download_folder : string) (i : nat)
    (schedule : list nat) (s : together) :
  interleave video_urls download_folder (i :: schedule) s
  = interleave video_urls download_folder schedule (take_turn video_urls download_folder i s).
Proof. done. Qed.

(** The steps that one call takes in a row are steps of the call alone. *)
Lemma interleave_replicate (video_urls : list string) (download_folder : string) (i n : nat)
    (s : together) (c : call) (video_url : string) :
  calls s !! i = Some c -> video_urls !! i = Some video_url ->
  interleave video_urls download_folder (replicate n i) s
  = {| calls := <[i := (call_run n video_url download_folder c (shared s)).1]> (calls s);
       shared := (call_run n video_url download_folder c (shared s)).2 |}.
Proof.
  revert s c. induction n as [|n IH]; intros [cs w] c Hc Hu; cbn in Hc.
  - cbn. by rewrite list_insert_id.
  - cbn [replicate call_run]. rewrite interleave_cons. unfold take_turn. cbn [calls shared].
    rewrite Hc, Hu.
    destruct (call_step video_url download_folder c w) as [c' w'] eqn:Hstep.
    rewrite (IH _ c'); [|cbn; apply list_lookup_insert_eq; by eapply lookup_lt_Some | done].
    cbn. by rewrite list_insert_insert_eq.
Qed.

Lemma inside_try_spares (video_url : string) (out : result call * World) (f content : string) :
  entries out.2 !! f = Some content ->
  (forall c, out.1 = Returned c -> spares f c) ->
  entries (inside_try video_url out).2 !! f = Some content
  /\ spares f (inside_try video_url out).1.
Proof.
  destruct out as [[c|e|] w]; cbn; intros He Hc; [by auto | | done].
  pose proof (except_RequestException_entries video_url e w) as Hsame.
  destruct (except_RequestException video_url e w) as [r w']. cbn in *.
  by rewrite Hsame.
Qed.

Lemma request_entries (video_url : string) (w : World) :
  entries (request video_url w).2 = entries w /\
  forall c, (request video_url w).1 = Returned c ->
    c = Over (Returned false) \/ exists r video_name, c = AtFirstTest r video_name.
Proof.
  unfold request, mbind, M_bind, bind, requests_get. cbn.
  destruct (network w video_url) as [msg|r]; [done |].
  destruct (raise_for_status_cases r
              (add_stdout ("Downloading " +:+ video_url +:+ "...") w)) as [->|[msg ->]];
    [|done].
  destruct (PyStr.contains "video" _); cbn.
  - rewrite sanitize_filename_run. split; [done |]. intros c [= <-]. right. by eexists _, _.
  - split; [done |]. intros c [= <-]. by left.
Qed.

Lemma exists_not_spared (w : World) (f content : string) :
  entries w !! f = Some content -> entry_exists w f = true.
Proof.
  unfold entries, entry_exists. destruct (folder w) as [d|]; cbn; [|done].
  intros H. rewrite (bool_decide_eq_true_2 (is_Some (d !! f))) by (by eexists).
  by rewrite orb_true_r.
Qed.

Lemma file_write_at_lookup_ne (video_name : string) (position : nat) (chunk : string)
    (w : World) (f : string) :
  f <> video_name ->
  entries (file_write_at video_name position chunk w).2 !! f = entries w !! f.
Proof.
  intros Hne. unfold file_write_at. destruct (_ <=? _)%nat; [|done].
  unfold entries at 1. cbn. by rewrite lookup_insert_ne.
Qed.

Lemma open_file_lookup_ne (video_name : string) (w : World) (f : string) :
  f <> video_name -> entries (open_file video_name w).2 !! f = entries w !! f.
Proof.
  intros Hne. unfold open_file. destruct (PyStr.mem nul video_name); [done |].
  destruct (name_max <? _)%nat; [done |]. by apply open_wb_lookup_ne.
Qed.

(** A take_turn of a call leaves a file alone that was there when the call
    chose its name. *)
Lemma call_step_spares (video_url download_folder : string) (c : call) (w : World)
    (f content : string) :
  entries w !! f = Some content -> spares f c ->
  entries (call_step video_url download_folder c w).2 !! f = Some content
  /\ spares f (call_step video_url download_folder c w).1.
Proof.
  intros Hf Hc. pose proof (exists_not_spared w f content Hf) as Hex.
  destruct c as [| | |r video_name|r base_name ext video_name counter|r video_name
                 |r video_name position rest|res]; cbn [call_step].
  - unfold folder_test, mbind, M_bind, bind. cbn. split; [done |]. by destruct (_ && _).
  - unfold makedirs, mbind, M_bind, bind. destruct (bool_decide _); [by split |].
    destruct (folder w) as [d|] eqn:Hd; [by split |].
    unfold entries in Hf. by rewrite Hd in Hf.
  - destruct (request_entries video_url w) as [He Hres].
    apply inside_try_spares; [by rewrite He |].
    intros c Hr. by destruct (Hres c Hr) as [->|(r & n & ->)].
  - apply inside_try_spares; unfold first_test, mbind, M_bind, bind; cbn.
    + destruct (entry_exists w video_name); [|done]. by destruct (OsPath.splitext video_name).
    + destruct (entry_exists w video_name) eqn:E.
      * destruct (OsPath.splitext video_name). by intros c [= <-].
      * intros c [= <-]. cbn. congruence.
  - apply inside_try_spares; unfold loop_test, mbind, M_bind, bind; cbn.
    + by destruct (entry_exists w video_name).
    + destruct (entry_exists w video_name) eqn:E; intros c [= <-]; cbn; [done | congruence].
  - cbn in Hc.
    pose proof (open_file_lookup_ne video_name w f ltac:(done)) as Ho.
    apply inside_try_spares; unfold open_step, mbind, M_bind, bind;
      destruct (open_file video_name w) as [[[]|e|] w1]; cbn in *; try (by rewrite Ho);
      try done.
    + unfold total_size_of, ret, raise. destruct (content_length r); cbn; by rewrite Ho.
    + unfold total_size_of, ret, raise. destruct (content_length r); intros c [= <-]; done.
  - cbn in Hc. destruct rest as [|chunk rest]; cbn [write_step].
    + apply inside_try_spares; destruct (stream_error r); cbn; try done.
      by intros c [= <-].
    + pose proof (file_write_at_lookup_ne video_name position chunk w f ltac:(done)) as Hw.
      apply inside_try_spares; unfold mbind, M_bind, bind;
        destruct (file_write_at video_name position chunk w) as [[[]|e|] w1]; cbn in *;
        try (by rewrite Hw); try done.
      by intros c [= <-].
  - done.
Qed.

Lemma take_turn_spares (video_urls : list string) (download_folder : string) (i : nat)
    (s : together) (f content : string) :
  entries (shared s) !! f = Some content -> Forall (spares f) (calls s) ->
  entries (shared (take_turn video_urls download_folder i s)) !! f = Some content
  /\ Forall (spares f) (calls (take_turn video_urls download_folder i s)).
Proof.
  intros Hf Hall. unfold take_turn.
  destruct (calls s !! i) as [c|] eqn:Hc; [|done].
  destruct (video_urls !! i) as [video_url|]; [|done].
  assert (spares f c) as Hsp by (by eapply Forall_lookup_1).
  destruct (call_step_spares video_url download_folder c (shared s) f content Hf Hsp)
    as [He Hc'].
  destruct (call_step video_url download_folder c (shared s)) as [c' w']. cbn in *.
  split; [done |]. by apply Forall_insert.
Qed.

(** Whatever the interleaving, the calls leave every file alone that the
    folder held before they started. *)
Lemma interleave_keeps_entries (video_urls : list string) (download_folder : string)
    (schedule : list nat) (w : World) (f content : string) :
  entries w !! f = Some content ->
  entries (shared (interleave video_urls download_folder schedule (at_start video_urls w))) !! f
  = Some content.
Proof.
  intros Hf.
  cut (forall s, entries (shared s) !! f = Some content -> Forall (spares f) (calls s) ->
         entries (shared (interleave video_urls download_folder schedule s)) !! f = Some content).
  { intros H. apply H; [done |]. cbn. by apply Forall_replicate. }
  induction schedule as [|i schedule IH]; intros s Hs Hall; [done |].
  destruct (take_turn_spares video_urls download_folder i s f content Hs Hall) as [H1 H2].
  rewrite interleave_cons. by apply IH.
Qed.

End CallsTogether.

Section Race.
Import Calls.

Lemma with_folder_same (w : World) :
  network (with_folder w) = network w /\ free_space (with_folder w) = free_space w
  /\ stdout (with_folder w) = stdout w.
Proof. unfold with_folder. by case_bool_decide. Qed.

Lemma with_folder_id (w : World) : is_Some (folder w) -> with_folder w = w.
Proof. intros H. unfold with_folder. by rewrite (bool_decide_eq_true_2 _ H). Qed.

Lemma unused_name_free (w : World) (video_name : string) :
  entry_exists w video_name = false -> unused_name w video_name = Some video_name.
Proof. intros H. unfold unused_name. by rewrite H. Qed.

(** A call that runs alone up to the collision check, for a video whose
    name is unused: it stands before [open], with that name. *)
Lemma call_reaches_open (video_url download_folder : string) (w : World) (r : Response)
    (video_name : string) :
  download_folder <> "" ->
  network w video_url = FetchOk r ->
  status_code r < 400 \/ 600 <= status_code r ->
  PyStr.contains "video" (default "" (content_type r)) = true ->
  clean_filename (filename_hint video_url) = video_name ->
  entry_exists (with_folder w) video_name = false ->
  exists n w',
    call_run n video_url download_folder AtFolderTest w = (AtOpen r video_name, w')
    /\ folder w' = Some (entries w) /\ network w' = network w
    /\ free_space w' = free_space w.
Proof.
  intros Hne Hnet Hok Hct <- Hfree.
  destruct (folder_alone video_url download_folder w Hne) as [n1 H1].
  destruct (with_folder_same w) as (Hn & Hf & _).
  pose proof (with_folder_entries w) as Hent.
  pose proof (with_folder_is_Some w) as [d Hd].
  rewrite <- Hn in Hnet. rewrite <- Hn, <- Hf, <- Hent. clear Hn Hf Hent.
  generalize dependent (with_folder w). intros w1 Hnet Hfree H1 Hd.
  set (w2 := add_stdout ("Sanitized filename after removing invalid characters: "
                         +:+ clean_filename (filename_hint video_url))
               (add_stdout ("Base filename before sanitization: " +:+ filename_hint video_url)
                  (add_stdout ("Downloading " +:+ video_url +:+ "...") w1))).
  exists (n1 + 2), w2. rewrite call_run_add, H1. cbn [fst snd call_run call_step].
  unfold request, mbind, M_bind, bind, requests_get. cbn.
  rewrite Hnet, raise_for_status_ok by done. rewrite Hct. cbn.
  rewrite sanitize_filename_run. fold w2.
  change (inside_try video_url (ret ?c ?w0)) with (c, w0). cbn [call_step].
  unfold first_test, mbind, M_bind, bind, get_world.
  change (entry_exists w2 ?n) with (entry_exists w1 n).
  rewrite Hfree. cbn. split; [done |].
  split; [|done]. unfold entries. by rewrite Hd.
Qed.

(** The race of the collision check.  Two calls are given URLs that lead to
    the same file name, which is unused.  The first call tests the name and
    finds it unused; before it opens its file, the second call runs from its
    first line to its last: it stores its video under that name and returns
    [True].  The [open] of the first call then empties the file of the
    second. *)
Lemma check_then_open_race (video_url_a video_url_b download_folder : string) (w : World)
    (r_a r_b : Response) (video_name : string) :
  download_folder <> "" ->
  network w video_url_a = FetchOk r_a ->
  status_code r_a < 400 \/ 600 <= status_code r_a ->
  PyStr.contains "video" (default "" (content_type r_a)) = true ->
  network w video_url_b = FetchOk r_b ->
  status_code r_b < 400 \/ 600 <= status_code r_b ->
  PyStr.contains "video" (default "" (content_type r_b)) = true ->
  clean_filename (filename_hint video_url_a) = video_name ->
  clean_filename (filename_hint video_url_b) = video_name ->
  entry_exists (with_folder w) video_name = false ->
  accepted_name video_name = true ->
  (forall text, content_length r_b <> CL_invalid text) ->
  stream_error r_b = None ->
  body_size (chunks r_b) <= free_space w ->
  exists n m,
    let video_urls := [video_url_a; video_url_b] in
    let s := interleave video_urls download_folder (replicate n 0 ++ replicate m 1)
               (at_start video_urls w) in
    calls s = [AtOpen r_a video_name; Over (Returned true)]
    /\ entries w !! video_name = None
    /\ folder (shared s) = Some (<[video_name := join_chunks (chunks r_b)]> (entries w))
    /\ folder (shared (take_turn video_urls download_folder 0 s))
       = Some (<[video_name := ""]> (entries w)).
Proof.
  intros Hne Hnet_a Hok_a Hct_a Hnet_b Hok_b Hct_b Hname_a Hname_b Hfree Hacc Hcl Hstream
    Hfits.
  destruct (call_reaches_open video_url_a download_folder w r_a video_name
              Hne Hnet_a Hok_a Hct_a Hname_a Hfree) as (n & w2 & Ha & Hd2 & Hn2 & Hf2).
  assert (with_folder w2 = w2) as Hw2 by (apply with_folder_id; rewrite Hd2; by eexists).
  assert (entry_exists w2 video_name = false) as Hfree2.
  { rewrite <- Hfree. unfold entry_exists. rewrite Hd2.
    destruct (with_folder_is_Some w) as [d Hd]. rewrite Hd.
    pose proof (with_folder_entries w) as He. unfold entries at 1 in He. rewrite Hd in He.
    cbn in He. by rewrite He. }
  assert (entries w2 = entries w) as Hent2 by (unfold entries at 1; by rewrite Hd2).
  destruct (download_video_alone video_url_b download_folder w2 Hne) as [m Hb].
  { intros name. rewrite Hw2, Hname_b, unused_name_free by done. by intros [= <-]. }
  destruct (download_video_stored video_url_b download_folder w2 r_b)
    as (Htrue & name & Hname & Hnew & Hstored); try done.
  { by rewrite Hn2. } { by rewrite Hf2. }
  rewrite Hw2, Hname_b, unused_name_free in Hname by done. injection Hname as <-.
  rewrite Hent2 in Hnew, Hstored.
  exists n, m. cbn zeta. rewrite interleave_app.
  rewrite (interleave_replicate _ _ 0 n _ AtFolderTest video_url_a) by done.
  cbn [at_start shared calls length replicate]. rewrite Ha. cbn [fst snd].
  rewrite (interleave_replicate _ _ 1 m _ AtFolderTest video_url_b) by done.
  cbn [shared calls]. rewrite Hb. unfold ended. cbn [fst snd]. rewrite Htrue.
  split; [done |]. split; [done |]. split; [done |].
  destruct (download_video video_url_b download_folder w2) as [res w3].
  cbn [fst snd] in *. clear Hb.
  unfold take_turn. cbn. unfold open_step, mbind, M_bind, bind.
  rewrite open_file_accepted by done.
  unfold open_wb. rewrite Hstored.
  assert (names_directory video_name = false) as ->.
  { unfold entry_exists in Hfree2. rewrite Hd2 in Hfree2.
    by apply orb_false_iff in Hfree2 as [? _]. }
  unfold total_size_of, ret, raise.
  destruct (content_length r_a); cbn; by rewrite insert_insert_eq.
Qed.

Lemma take_turn_at (video_urls : list string) (download_folder : string) (i : nat)
    (s : together) (c : call) (video_url : string) :
  calls s !! i = Some c -> video_urls !! i = Some video_url ->
  take_turn video_urls download_folder i s
  = {| calls := <[i := (call_step video_url download_folder c (shared s)).1]> (calls s);
       shared := (call_step video_url download_folder c (shared s)).2 |}.
Proof.
  intros Hc Hu. unfold take_turn. rewrite Hc, Hu.
  by destruct (call_step video_url download_folder c (shared s)).
Qed.

Lemma folder_test_missing (video_url download_folder : string) (w : World) :
  download_folder <> "" -> folder w = None ->
  call_step video_url download_folder AtFolderTest w = (AtMakedirs, w).
Proof.
  intros Hne Hnone. cbn. unfold folder_test, mbind, M_bind, bind. cbn.
  rewrite (bool_decide_eq_false_2 _ Hne), Hnone.
  by rewrite (bool_decide_eq_false_2 (is_Some None)) by (by intros [? ?]).
Qed.

Lemma makedirs_missing (video_url download_folder : string) (w : World) :
  download_folder <> "" -> folder w = None ->
  call_step video_url download_folder AtMakedirs w = (AtRequest, set_folder (Some ∅) w).
Proof.
  intros Hne Hnone. cbn. unfold makedirs, mbind, M_bind, bind.
  by rewrite (bool_decide_eq_false_2 _ Hne), Hnone.
Qed.

Lemma makedirs_present (video_url download_folder : string) (w : World) :
  download_folder <> "" -> is_Some (folder w) ->
  call_step video_url download_folder AtMakedirs w
  = (Over (Raised (OSError ("[Errno 17] File exists: '" +:+ download_folder +:+ "'"))), w).
Proof.
  intros Hne [d Hd]. cbn. unfold makedirs, mbind, M_bind, bind.
  by rewrite (bool_decide_eq_false_2 _ Hne), Hd.
Qed.

(** The race on the download folder: when two calls find the folder missing
    before either has created it, the second [os.makedirs] raises
    [FileExistsError], and the call that made it ends with that exception
    before it has sent its request. *)
Lemma makedirs_race (video_urls : list string) (download_folder : string) (w : World)
    (i j : nat) :
  download_folder <> "" -> folder w = None ->
  i <> j -> i < length video_urls -> j < length video_urls ->
  let s := interleave video_urls download_folder [i; j; i; j] (at_start video_urls w) in
  calls s !! i = Some AtRequest
  /\ calls s !! j
     = Some (Over (Raised (OSError ("[Errno 17] File exists: '" +:+ download_folder +:+ "'"))))
  /\ folder (shared s) = Some ∅
  /\ stdout (shared s) = stdout w.
Proof.
  intros Hne Hnone Hij Hi Hj. cbn zeta.
  destruct (lookup_lt_is_Some_2 video_urls i Hi) as [url_i Hui].
  destruct (lookup_lt_is_Some_2 video_urls j Hj) as [url_j Huj].
  unfold at_start. set (cs0 := replicate (length video_urls) AtFolderTest).
  assert (length cs0 = length video_urls) as Hl0 by apply length_replicate.
  assert (cs0 !! i = Some AtFolderTest) as H0i by (by apply lookup_replicate_2).
  assert (cs0 !! j = Some AtFolderTest) as H0j by (by apply lookup_replicate_2).
  clearbody cs0.
  rewrite interleave_cons, (take_turn_at _ _ i _ AtFolderTest url_i) by done.
  cbn [calls shared]. rewrite folder_test_missing by done. cbn [fst snd].
  rewrite interleave_cons, (take_turn_at _ _ j _ AtFolderTest url_j)
    by (cbn; by rewrite ?list_lookup_insert_ne).
  cbn [calls shared]. rewrite folder_test_missing by done. cbn [fst snd].
  rewrite interleave_cons, (take_turn_at _ _ i _ AtMakedirs url_i);
    [|cbn; rewrite list_lookup_insert_ne by done; apply list_lookup_insert_eq; lia | done].
  cbn [calls shared]. rewrite makedirs_missing by done. cbn [fst snd].
  rewrite interleave_cons, (take_turn_at _ _ j _ AtMakedirs url_j);
    [|cbn; rewrite list_lookup_insert_ne by done; apply list_lookup_insert_eq;
      rewrite length_insert; lia | done].
  cbn [calls shared]. rewrite makedirs_present by (done || by eexists). cbn.
  rewrite list_lookup_insert_ne by done.
  rewrite !list_lookup_insert_eq by (rewrite ?length_insert; lia). done.
Qed.

End Race.

Section CallsInvariants.
Import Calls.

Lemma interleave_invariant (P : together -> Prop) (video_urls : list string)
    (download_folder : string) :
  (forall i s, P s -> P (take_turn video_urls download_folder i s)) ->
  forall schedule s, P s -> P (interleave video_urls download_folder schedule s).
Proof.
  intros Hstep schedule. induction schedule as [|i schedule IH]; intros s Hs; [done |].
  rewrite interleave_cons. by apply IH, Hstep.
Qed.

(** what a step of a call lets through is no [RequestException] *)
Lemma inside_try_raised (video_url : string) (out : result call * World) (e : exn) :
  (inside_try video_url out).1 = Over (Raised e) ->
  out.1 = Returned (Over (Raised e)) \/ (out.1 = Raised e /\ is_RequestException e = false).
Proof.
  destruct out as [[c|e'|] w]; cbn; [intros ->; by left | | done].
  unfold except_RequestException. destruct (is_RequestException e') eqn:E; cbn.
  - unfold mbind, M_bind, bind. cbn. done.
  - intros [= <-]. by right.
Qed.

Lemma not_RequestException (e : exn) :
  (exists m, e = RequestException m) \/ (exists m, e = OSError m) \/ (exists m, e = ValueError m) ->
  is_RequestException e = false ->
  (exists m, e = OSError m) \/ (exists m, e = ValueError m).
Proof. intros [[m ->]|[H|H]] He; [done | by left | by right]. Qed.

(** A call that ends with an exception ends with an [OSError] or a
    [ValueError]. *)
Lemma call_step_raised (video_url download_folder : string) (c : call) (w : World) (e : exn) :
  (call_step video_url download_folder c w).1 = Over (Raised e) ->
  c = Over (Raised e) \/ (exists m, e = OSError m) \/ (exists m, e = ValueError m).
Proof.
  destruct c as [| | |r video_name|r base_name ext video_name counter|r video_name
                 |r video_name position rest|res]; cbn [call_step].
  - unfold folder_test, mbind, M_bind, bind. cbn. by destruct (_ && _).
  - unfold makedirs, mbind, M_bind, bind. destruct (bool_decide _); cbn.
    { intros [= <-]. right. left. by eexists. }
    destruct (folder w); cbn; [|done]. intros [= <-]. right. left. by eexists.
  - intros [H|[H He]]%inside_try_raised; right.
    + destruct (request_entries video_url w) as [_ Hres].
      by destruct (Hres _ H) as [?|(r & n & ?)].
    + apply not_RequestException; [|done]. left.
      unfold request, mbind, M_bind, bind, requests_get in H. cbn in H.
      destruct (network w video_url) as [msg|r]; [cbn in H; injection H as <-; by eexists |].
      destruct (raise_for_status_cases r
                  (add_stdout ("Downloading " +:+ video_url +:+ "...") w)) as [Hs|[msg Hs]];
        rewrite Hs in H; [|cbn in H; injection H as <-; by eexists].
      destruct (PyStr.contains "video" _); cbn in H; [|done].
      by rewrite sanitize_filename_run in H.
  - intros [H|[H He]]%inside_try_raised; exfalso;
      unfold first_test, mbind, M_bind, bind in H; cbn in H;
      destruct (entry_exists w video_name); try done;
      by destruct (OsPath.splitext video_name).
  - intros [H|[H He]]%inside_try_raised; exfalso;
      unfold loop_test, mbind, M_bind, bind in H; cbn in H;
      by destruct (entry_exists w video_name).
  - intros [H|[H He]]%inside_try_raised; right;
      unfold open_step, open_file, open_wb, total_size_of, mbind, M_bind, bind, raise, ret in H;
      repeat case_match; simplify_eq; cbn in *; simplify_eq;
      first [by left; eexists | by right; eexists].
  - intros [H|[H He]]%inside_try_raised; right;
      unfold write_step, file_write_at, mbind, M_bind, bind, raise, ret, print in H;
      repeat case_match; simplify_eq; cbn in *; simplify_eq;
      first [by left; eexists | by right; eexists].
  - cbn. intros ->. by left.
Qed.

Lemma take_turn_raised (video_urls : list string) (download_folder : string) (i : nat)
    (s : together) :
  Forall raised_as_expected (calls s) ->
  Forall raised_as_expected (calls (take_turn video_urls download_folder i s)).
Proof.
  intros Hall. unfold take_turn.
  destruct (calls s !! i) as [c|] eqn:Hc; [|done].
  destruct (video_urls !! i) as [video_url|]; [|done].
  pose proof (call_step_raised video_url download_folder c (shared s)) as Hstep.
  destruct (call_step video_url download_folder c (shared s)) as [c' w']. cbn in *.
  apply Forall_insert; [done |]. intros e ->.
  destruct (Hstep e eq_refl) as [->|H]; [|done].
  by apply (proj1 (Forall_lookup _ _) Hall i _ Hc).
Qed.

(** Whatever the interleaving, a call that has raised has raised an
    [OSError] or a [ValueError]. *)
Lemma interleave_raised (video_urls : list string) (download_folder : string)
    (schedule : list nat) (w : World) (i : nat) (e : exn) :
  calls (interleave video_urls download_folder schedule (at_start video_urls w)) !! i
  = Some (Over (Raised e)) ->
  ((exists m, e = OSError m) \/ (exists m, e = ValueError m))
  /\ is_RequestException e = false.
Proof.
  intros Hi.
  assert (Forall raised_as_expected
            (calls (interleave video_urls download_folder schedule (at_start video_urls w))))
    as Hall.
  { apply (interleave_invariant (fun s => Forall raised_as_expected (calls s))).
    - intros. by apply take_turn_raised.
    - cbn. apply Forall_replicate. by intros e'. }
  pose proof (proj1 (Forall_lookup _ _) Hall i _ Hi e eq_refl) as He.
  split; [done |]. by destruct He as [[m ->]|[m ->]].
Qed.

Lemma inside_try_folder (video_url : string) (out : result call * World) :
  is_Some (folder out.2) -> is_Some (folder (inside_try video_url out).2).
Proof.
  destruct out as [[c|e|] w]; cbn; try done.
  unfold except_RequestException. by destruct (is_RequestException e).
Qed.

Lemma open_step_folder (r : Response) (video_name : string) (w : World) :
  is_Some (folder w) -> is_Some (folder (open_step r video_name w).2).
Proof.
  intros [d Hd]. unfold open_step, mbind, M_bind, bind.
  assert (is_Some (folder (open_file video_name w).2)) as Ho.
  { unfold open_file. destruct (PyStr.mem nul video_name); [cbn; by rewrite Hd |].
    destruct (name_max <? _)%nat; [cbn; by rewrite Hd |]. unfold open_wb. rewrite Hd.
    destruct (names_directory video_name); cbn; [by rewrite Hd | done]. }
  destruct (open_file video_name w) as [[[]|e|] w1]; cbn in *; try done.
  unfold total_size_of, ret, raise. by destruct (content_length r).
Qed.

Lemma write_step_folder (download_folder : string) (r : Response) (video_name : string)
    (position : nat) (rest : list string) (w : World) :
  is_Some (folder w) ->
  is_Some (folder (write_step download_folder r video_name position rest w).2).
Proof.
  intros Hf. destruct rest as [|chunk rest]; cbn.
  - by destruct (stream_error r).
  - unfold mbind, M_bind, bind, file_write_at. by destruct (_ <=? _)%nat.
Qed.

(** A step of a call never removes the folder, and a call that has entered
    its [try] block has found or made the folder. *)
Lemma call_step_folder (video_url download_folder : string) (c : call) (w : World) :
  (is_Some (folder w) -> is_Some (folder (call_step video_url download_folder c w).2))
  /\ (past_the_folder (call_step video_url download_folder c w).1 ->
      past_the_folder c \/ is_Some (folder (call_step video_url download_folder c w).2)).
Proof.
  destruct c as [| | |r video_name|r base_name ext video_name counter|r video_name
                 |r video_name position rest|res]; cbn [call_step].
  - unfold folder_test, mbind, M_bind, bind. cbn. split; [done |].
    destruct (bool_decide (is_Some (folder w))) eqn:E; [|by rewrite andb_false_r].
    apply bool_decide_eq_true in E. intros _. by right.
  - unfold makedirs, mbind, M_bind, bind. destruct (bool_decide _); cbn; [by split |].
    destruct (folder w) as [d|] eqn:Hd; cbn; [by rewrite Hd |]. split; [done |].
    intros _. right. by eexists.
  - split; [|intros _; by left]. intros Hf.
    cut (folder (inside_try video_url (request video_url w)).2 = folder w); [by intros -> |].
    unfold request, mbind, M_bind, bind, requests_get. cbn.
    destruct (network w video_url) as [msg|r]; [done |].
    destruct (raise_for_status_cases r
                (add_stdout ("Downloading " +:+ video_url +:+ "...") w)) as [->|[msg ->]];
      [|done].
    destruct (PyStr.contains "video" _); cbn; [|done]. by rewrite sanitize_filename_run.
  - split; [|intros _; by left]. unfold first_test, mbind, M_bind, bind. cbn.
    destruct (entry_exists w video_name); [|done]. by destruct (OsPath.splitext video_name).
  - split; [|intros _; by left]. unfold loop_test, mbind, M_bind, bind. cbn.
    by destruct (entry_exists w video_name).
  - split; [|intros _; by left]. intros Hf. by apply inside_try_folder, open_step_folder.
  - split; [|intros _; by left]. intros Hf. by apply inside_try_folder, write_step_folder.
  - split; [done |]. intros H. by left.
Qed.

(** Whatever the interleaving: once the folder exists it stays, and a call
    that is inside its [try] block, or has returned, has the folder. *)
Lemma interleave_folder (video_urls : list string) (download_folder : string)
    (schedule : list nat) (w : World) (i : nat) (c : call) :
  let s := interleave video_urls download_folder schedule (at_start video_urls w) in
  (is_Some (folder w) -> is_Some (folder (shared s)))
  /\ (calls s !! i = Some c -> past_the_folder c -> is_Some (folder (shared s))).
Proof.
  cbn zeta.
  set (P := fun s : together =>
              (is_Some (folder w) -> is_Some (folder (shared s)))
              /\ forall i c, calls s !! i = Some c -> past_the_folder c ->
                             is_Some (folder (shared s))).
  assert (P (interleave video_urls download_folder schedule (at_start video_urls w)))
    as [H1 H2].
  { apply interleave_invariant.
    - intros j s [Hw Hall]. unfold P, take_turn.
      destruct (calls s !! j) as [cj|] eqn:Hj; [|done].
      destruct (video_urls !! j) as [video_url|]; [|done].
      destruct (call_step_folder video_url download_folder cj (shared s)) as [Hkeep Hnew].
      destruct (call_step video_url download_folder cj (shared s)) as [c' w']. cbn in *.
      split; [by auto |]. intros k ck Hk Hpast.
      destruct (decide (k = j)) as [->|Hne].
      + rewrite list_lookup_insert_eq in Hk by (by eapply lookup_lt_Some).
        injection Hk as <-. destruct (Hnew Hpast) as [Hold|Hnow]; [|done].
        apply Hkeep. by eapply Hall.
      + rewrite list_lookup_insert_ne in Hk by done. apply Hkeep. by eapply Hall.
    - split; [done |]. intros k ck Hk Hpast. cbn in Hk.
      apply lookup_replicate in Hk as [-> _]. done. }
  split; [done |]. apply H2.
Qed.

End CallsInvariants.

Section CollisionCheck.
Import Calls RaceExamples.

Lemma resolve_filename_spec (video_url : string) (w : World) :
  let video_name := clean_filename (filename_hint video_url) in
  exists name,
    fst (resolve_filename video_url w) = Returned name
    /\ entry_exists w name = false
    /\ (entry_exists w video_name = false -> name = video_name)
    /\ (entry_exists w video_name = true ->
        exists k, 1 <= k
          /\ name = candidate (OsPath.splitext video_name).1 (OsPath.splitext video_name).2 k
          /\ forall j, 1 <= j < k ->
               entry_exists w (candidate (OsPath.splitext video_name).1
                                            (OsPath.splitext video_name).2 j) = true).
Proof.
  cbn zeta.
  destruct (unused_name_spec w (clean_filename (filename_hint video_url)))
    as (name & Hname & Hrest).
  exists name. rewrite resolve_filename_run. cbn zeta. by rewrite Hname.
Qed.

Lemma resolve_filename_video (video_url : string) (w : World) (d : gmap string string) :
  clean_filename (filename_hint video_url) = "video.mp4" ->
  folder w = Some d -> is_Some (d !! "video.mp4") ->
  (d !! "video_1.mp4" = None -> fst (resolve_filename video_url w) = Returned "video_1.mp4")
  /\ (is_Some (d !! "video_1.mp4") -> d !! "video_2.mp4" = None ->
      fst (resolve_filename video_url w) = Returned "video_2.mp4").
Proof.
  intros Hname Hd H0. rewrite resolve_filename_run, Hname. cbn zeta. split.
  - intros H1. by rewrite (unused_name_video_1 w d).
  - intros H1 H2. by rewrite (unused_name_video_2 w d).
Qed.

(** C3.  The collision check of one call does what the claim says: it
    returns the sanitized name when the folder has no entry of that name,
    else [stem_k ext] for the least [k >= 1] whose name is unused; with
    [video.mp4] in the folder the name is [video_1.mp4], and [video_2.mp4]
    once [video_1.mp4] exists as well; a call that runs on its own leaves
    every file of the folder as it was, and calls that run side by side
    leave every file as it was that the folder held before they started.
    But the name is tested and the file is opened in two steps, and nothing
    in [download_video] ties them together: for two URLs that lead to the
    same unused name, the first call finds the name unused, the second call
    runs from its first line to its last, stores its video under that name
    and returns [True], and the [open] of the first call then empties that
    file.  With the bodies [abc], [def] and [xyz]: both calls return [True],
    the folder holds the one file [video.mp4] with [abcdef], and [xyz] is
    lost.  Run one after the other, the same two calls leave [video.mp4]
    and [video_1.mp4].  The pool does run the two calls at the same time:
    each is started by a worker thread of its own. *)
Theorem check_then_open_overwrites_a_file :
  (forall (video_url : string) (w : World),
     let video_name := clean_filename (filename_hint video_url) in
     exists name,
       fst (resolve_filename video_url w) = Returned name
       /\ entry_exists w name = false
       /\ (entry_exists w video_name = false -> name = video_name)
       /\ (entry_exists w video_name = true ->
           exists k, 1 <= k
             /\ name = candidate (OsPath.splitext video_name).1 (OsPath.splitext video_name).2 k
             /\ forall j, 1 <= j < k ->
                  entry_exists w (candidate (OsPath.splitext video_name).1
                                               (OsPath.splitext video_name).2 j) = true))
  /\ (forall (video_url : string) (w : World) (d : gmap string string),
        clean_filename (filename_hint video_url) = "video.mp4" ->
        folder w = Some d -> is_Some (d !! "video.mp4") ->
        (d !! "video_1.mp4" = None ->
         fst (resolve_filename video_url w) = Returned "video_1.mp4")
        /\ (is_Some (d !! "video_1.mp4") -> d !! "video_2.mp4" = None ->
            fst (resolve_filename video_url w) = Returned "video_2.mp4"))
  /\ (forall (video_url download_folder : string) (w : World) (f content : string),
        entries w !! f = Some content ->
        entries (snd (download_video video_url download_folder w)) !! f = Some content)
  /\ (forall (video_urls : list string) (download_folder : string) (schedule : list nat)
             (w : World) (f content : string),
        entries w !! f = Some content ->
        entries (shared (interleave video_urls download_folder schedule
                           (at_start video_urls w))) !! f = Some content)
  /\ (forall (video_url_a video_url_b download_folder : string) (w : World)
             (r_a r_b : Response) (video_name : string),
        download_folder <> "" ->
        network w video_url_a = FetchOk r_a ->
        status_code r_a < 400 \/ 600 <= status_code r_a ->
        PyStr.contains "video" (default "" (content_type r_a)) = true ->
        network w video_url_b = FetchOk r_b ->
        status_code r_b < 400 \/ 600 <= status_code r_b ->
        PyStr.contains "video" (default "" (content_type r_b)) = true ->
        clean_filename (filename_hint video_url_a) = video_name ->
        clean_filename (filename_hint video_url_b) = video_name ->
        entry_exists (with_folder w) video_name = false ->
        accepted_name video_name = true ->
        (forall text, content_length r_b <> CL_invalid text) ->
        stream_error r_b = None ->
        body_size (chunks r_b) <= free_space w ->
        exists n m,
          let video_urls := [video_url_a; video_url_b] in
          let s := interleave video_urls download_folder (replicate n 0 ++ replicate m 1)
                     (at_start video_urls w) in
          calls s = [AtOpen r_a video_name; Over (Returned true)]
          /\ entries w !! video_name = None
          /\ folder (shared s) = Some (<[video_name := join_chunks (chunks r_b)]> (entries w))
          /\ folder (shared (take_turn video_urls download_folder 0 s))
             = Some (<[video_name := ""]> (entries w)))
  /\ (let start := at_start two_videos (empty_disk 100) in
      let s := interleave two_videos "downloaded_videos" second_overtakes start in
      let s' := interleave two_videos "downloaded_videos" first_finishes s in
      let t := interleave two_videos "downloaded_videos" in_turn start in
      calls s = [AtOpen (Examples.video_response "http://a/video.mp4" ["abc"; "def"])
                   "video.mp4";
                 Over (Returned true)]
      /\ map_to_list (entries (shared s)) = [("video.mp4", "xyz")]
      /\ calls s' = [Over (Returned true); Over (Returned true)]
      /\ map_to_list (entries (shared s')) = [("video.mp4", "abcdef")]
      /\ filter (PyStr.startswith "Saved ") (stdout (shared s'))
         = ["Saved video.mp4 to downloaded_videos."; "Saved video.mp4 to downloaded_videos."]
      /\ calls t = [Over (Returned true); Over (Returned true)]
      /\ entries (shared t) !! "video.mp4" = Some "abcdef"
      /\ entries (shared t) !! "video_1.mp4" = Some "xyz"
      /\ Pool.in_flight
           (Examples.state_after both_started
              (Pool.download_videos_concurrently two_videos "downloaded_videos"
                 (empty_disk 100))) = 2).
Proof.
  split; [apply resolve_filename_spec |].
  split; [apply resolve_filename_video |].
  split; [intros; by apply download_video_keeps_entries |].
  split; [intros; by apply interleave_keeps_entries |].
  split; [apply check_then_open_race |].
  vm_compute. repeat split.
Qed.

End CollisionCheck.


Section CallsFacts.
Import Calls.



(** X4.  What a call of [download_video] raises is an [OSError] or a
    [ValueError], never a [RequestException]: the [except] clause takes
    every [RequestException] and nothing else.  This holds of the function
    and of every call that runs side by side with others, whatever the
    interleaving, the failures of [os.makedirs] and of [open] included. *)
Theorem only_os_and_value_errors_escape :
  (forall (video_url download_folder : string) (w : World) (e : exn),
     fst (download_video video_url download_folder w) = Raised e ->
     ((exists m, e = OSError m) \/ (exists m, e = ValueError m))
     /\ is_RequestException e = false)
  /\ (forall (video_urls : list string) (download_folder : string) (schedule : list nat)
             (w : World) (i : nat) (e : exn),
        calls (interleave video_urls download_folder schedule (at_start video_urls w)) !! i
        = Some (Over (Raised e)) ->
        ((exists m, e = OSError m) \/ (exists m, e = ValueError m))
        /\ is_RequestException e = false).
Proof.
  split.
  - intros video_url download_folder w e. apply download_video_raise_cases.
  - apply interleave_raised.
Qed.

(** X5.  The download folder is there for every call that gets as far as
    its request.  A call of [download_video] that returns, [True] or
    [False], leaves the folder in place, and when its request failed the
    folder holds what it held before (nothing, if the call has created it).
    Side by side, whatever the interleaving: a folder that exists is never
    removed, and a call that is inside its [try] block, or has returned, has
    the folder. *)
Theorem the_folder_exists_after_every_call :
  (forall (video_url download_folder : string) (w : World) (b : bool),
     let out := download_video video_url download_folder w in
     fst out = Returned b ->
     is_Some (folder (snd out))
     /\ forall msg, network w video_url = FetchError msg ->
          b = false /\ folder (snd out) = Some (entries w))
  /\ (forall (video_urls : list string) (download_folder : string) (schedule : list nat)
             (w : World) (i : nat) (c : call),
        let s := interleave video_urls download_folder schedule (at_start video_urls w) in
        (is_Some (folder w) -> is_Some (folder (shared s)))
        /\ (calls s !! i = Some c -> past_the_folder c -> is_Some (folder (shared s)))).
Proof.
  split.
  - intros video_url download_folder w b. cbn zeta. intros Hb.
    pose proof (download_video_folder video_url download_folder w) as Hsome.
    split; [done |]. intros msg Hnet.
    destruct (download_video_fetch_error video_url download_folder w msg Hnet)
      as (Hr & He & _).
    split; [congruence |]. destruct Hsome as [d Hd]. rewrite Hd. f_equal.
    rewrite <- He. unfold entries. by rewrite Hd.
  - apply interleave_folder.
Qed.


(** X26.  The test of the download folder and [os.makedirs] are two steps
    as well: when two calls find the folder missing before either has
    created it, the call that comes second to [os.makedirs] raises
    [FileExistsError], outside the [try] block, and ends before it has sent
    its request or printed a line. *)
Theorem second_makedirs_raises (video_urls : list string) (download_folder : string)
    (w : World) (i j : nat) :
  download_folder <> "" -> folder w = None ->
  i <> j -> i < length video_urls -> j < length video_urls ->
  let s := interleave video_urls download_folder [i; j; i; j] (at_start video_urls w) in
  calls s !! i = Some AtRequest
  /\ calls s !! j
     = Some (Over (Raised (OSError ("[Errno 17] File exists: '" +:+ download_folder +:+ "'"))))
  /\ folder (shared s) = Some ∅
  /\ stdout (shared s) = stdout w.
Proof. apply makedirs_race. Qed.

End CallsFacts.

Section EngineInstances.
Import Examples.




Lemma only_os_and_value_errors_escape_witness :
  ((exists m, ValueError "invalid literal for int() with base 10: 'abc'" = OSError m)
   \/ (exists m, ValueError "invalid literal for int() with base 10: 'abc'" = ValueError m))
  /\ is_RequestException (ValueError "invalid literal for int() with base 10: 'abc'") = false.
Proof.
  apply (proj1 only_os_and_value_errors_escape "http://x/odd.mp4" "downloaded_videos"
           (fresh_world 100)).
  vm_compute. reflexivity.
Defined.

Lemma the_folder_exists_after_every_call_witness :
  let out := download_video "http://y/clip.mp4" "downloaded_videos" (fresh_world 100) in
  is_Some (folder (snd out))
  /\ forall msg, network (fresh_world 100) "http://y/clip.mp4" = FetchError msg ->
       false = false /\ folder (snd out) = Some (entries (fresh_world 100)).
Proof.
  apply (proj1 the_folder_exists_after_every_call "http://y/clip.mp4" "downloaded_videos"
           (fresh_world 100) false).
  vm_compute. reflexivity.
Defined.


Lemma second_makedirs_raises_witness :
  let s := Calls.interleave RaceExamples.two_videos "downloaded_videos"
             RaceExamples.both_make_the_folder
             (Calls.at_start RaceExamples.two_videos (RaceExamples.empty_disk 100)) in
  Calls.calls s !! 0 = Some Calls.AtRequest
  /\ Calls.calls s !! 1
     = Some (Calls.Over (Raised (OSError ("[Errno 17] File exists: '"
                                          +:+ "downloaded_videos" +:+ "'"))))
  /\ folder (Calls.shared s) = Some ∅
  /\ stdout (Calls.shared s) = stdout (RaceExamples.empty_disk 100).
Proof.
  apply (second_makedirs_raises RaceExamples.two_videos "downloaded_videos"
           (RaceExamples.empty_disk 100) 0 1).
  - discriminate.
  - reflexivity.
  - lia.
  - cbn. lia.
  - cbn. lia.
Defined.

End EngineInstances.

Section CollisionInstances.
Import Calls RaceExamples.

Lemma check_then_open_overwrites_a_file_witness :
  exists n m,
    let s := interleave two_videos "downloaded_videos" (replicate n 0 ++ replicate m 1)
               (at_start two_videos (empty_disk 100)) in
    calls s = [AtOpen (Examples.video_response "http://a/video.mp4" ["abc"; "def"]) "video.mp4";
               Over (Returned true)]
    /\ entries (empty_disk 100) !! "video.mp4" = None
    /\ folder (shared s) = Some (<["video.mp4" := "xyz"]> ∅)
    /\ folder (shared (take_turn two_videos "downloaded_videos" 0 s))
       = Some (<["video.mp4" := ""]> ∅).
Proof.
  destruct check_then_open_overwrites_a_file as (_ & _ & _ & _ & H & _).
  apply (H "http://a/video.mp4" "http://b/video.mp4" "downloaded_videos" (empty_disk 100)
           (Examples.video_response "http://a/video.mp4" ["abc"; "def"])
           (Examples.video_response "http://b/video.mp4" ["xyz"]) "video.mp4").
  - discriminate.
  - reflexivity.
  - left. cbn. lia.
  - reflexivity.
  - reflexivity.
  - left. cbn. lia.
  - reflexivity.
  - reflexivity.
  - reflexivity.
  - reflexivity.
  - reflexivity.
  - intros text. discriminate.
  - reflexivity.
  - cbn. lia.
Defined.

End CollisionInstances.

Section PoolInstances.
Import Pool Examples.

Lemma the_batch_waits_only_for_its_downloads_witness :
  let s := state_after [Main; Main; Main; Main; Worker 0]
             (download_videos_concurrently three_tasks "downloaded_videos" (fresh_world 100)) in
  in_flight s = 0
  /\ ((exists r, main s = Done r) \/ (exists a, is_Some (step a s))).
Proof.
  split; [vm_compute; reflexivity |].
  apply (the_batch_waits_only_for_its_downloads three_tasks "downloaded_videos"
           (fresh_world 100) [Main; Main; Main; Main; Worker 0]).
  - vm_compute. reflexivity.
  - vm_compute. reflexivity.
Defined.

Lemma nothing_runs_after_the_call_witness :
  let s := state_after first_fails_midway
             (download_videos_concurrently three_tasks "downloaded_videos" (fresh_world 4)) in
  work_queue s = []
  /\ Forall (fun t => t = Idle) (threads s)
  /\ in_flight s = 0
  /\ Forall (fun f => f = Cancelled \/ exists b, f = Finished b) (futures s)
  /\ forall a, step a s = None.
Proof.
  apply (nothing_runs_after_the_call three_tasks "downloaded_videos" (fresh_world 4)
           first_fails_midway _ (Raised (OSError "[Errno 28] No space left on device"))).
  - vm_compute. reflexivity.
  - vm_compute. reflexivity.
Defined.

Lemma an_empty_batch_returns_zero_witness :
  let s := state_after [Main; Main; Main]
             (download_videos_concurrently [] "downloaded_videos" (fresh_world 100)) in
  world s = fresh_world 100
  /\ threads s = [] /\ futures s = []
  /\ (forall r, main s = Done r -> r = Returned 0)
  /\ exists s', run [Main; Main; Main]
                  (download_videos_concurrently [] "downloaded_videos" (fresh_world 100))
                = Some s' /\ main s' = Done (Returned 0) /\ world s' = fresh_world 100.
Proof.
  apply (an_empty_batch_returns_zero "downloaded_videos" (fresh_world 100) [Main; Main; Main]).
  reflexivity.
Defined.



End PoolInstances.

Section ScriptInstances.
Import Script ScriptFacts ScriptExamples.

Lemma links_come_back_in_document_order_witness :
  extract_video_links_from_html one_link_per_line "index.html" 2
    (env_with [("index.html", three_links)] [])
  = (Value ["a.mp4"; "http://cdn/b.WEBM"], env_with [("index.html", three_links)] []).
Proof.
  apply (links_come_back_in_document_order one_link_per_line "index.html" three_links 2
           (env_with [("index.html", three_links)] [])).
  - reflexivity.
  - reflexivity.
Defined.

Lemma a_root_relative_link_loses_every_link_witness :
  extract_video_links_from_html one_link_per_line "index.html" 10
    (env_with [("index.html", three_links)] [])
  = (Value [],
     add_output ["Error reading " +:+ "index.html" +:+ ": name 'url' is not defined"]
       (env_with [("index.html", three_links)] [])).
Proof.
  apply (a_root_relative_link_loses_every_link one_link_per_line "index.html" three_links 10
           (env_with [("index.html", three_links)] [])).
  - reflexivity.
  - reflexivity.
Defined.

Lemma the_first_valid_answer_decides_witness :
  ask_user_to_download_video 1000 "http://x/a.mp4" (env_with [] ["maybe"; ""; " 1 "; "2"])
  = (Value (Some "http://x/a.mp4"),
     set_stdin ["2"]
       (add_output
          (refusals "http://x/a.mp4" ["maybe"; ""] ++ [prompt "http://x/a.mp4"] ++ [])
          (env_with [] ["maybe"; ""; " 1 "; "2"]))).
Proof.
  apply (the_first_valid_answer_decides 1000 "http://x/a.mp4"
           (env_with [] ["maybe"; ""; " 1 "; "2"]) ["maybe"; ""] " 1 " ["2"]).
  - reflexivity.
  - repeat constructor.
  - reflexivity.
  - cbn. lia.
Defined.

Lemma no_valid_answer_ends_in_an_error_witness :
  let out := ask_user_to_download_video 2 "http://x/a.mp4"
               (env_with [] ["yes"; "no"; "1"]) in
  fst out = Error (RecursionError "maximum recursion depth exceeded")
  /\ stdin (snd out) = ["1"].
Proof.
  apply (no_valid_answer_ends_in_an_error 2 "http://x/a.mp4" (env_with [] ["yes"; "no"; "1"])).
  repeat constructor.
Defined.

Lemma a_failed_fetch_keeps_the_old_page_witness :
  exists why,
    save_page_source "http://site/gone" "index.html" (env_with [("index.html", "old")] [])
    = (Value tt,
       add_output ["Error fetching the website: " +:+ why]
         (env_with [("index.html", "old")] [])).
Proof.
  apply (a_failed_fetch_keeps_the_old_page "http://site/gone" "index.html"
           (env_with [("index.html", "old")] [])).
  right. exists (Examples.html_response "http://site/gone" 404 "Not Found"), "not found".
  split; [reflexivity | cbn; lia].
Defined.

Lemma a_failed_fetch_falls_back_on_the_old_page_witness :
  (save_page_source "http://nowhere/" "index.html" ;;
   extract_video_links_from_html one_link_per_line "index.html" 2)
    (env_with [("index.html", three_links)] [])
  = (Value ["a.mp4"; "http://cdn/b.WEBM"],
     add_output ["Error fetching the website: " +:+ "Connection refused"]
       (env_with [("index.html", three_links)] [])).
Proof.
  apply (a_failed_fetch_falls_back_on_the_old_page one_link_per_line "http://nowhere/" 2
           (env_with [("index.html", three_links)] []) "Connection refused" three_links).
  - reflexivity.
  - reflexivity.
  - reflexivity.
Defined.

Lemma the_links_answered_yes_are_selected_witness :
  let out := ask_for_each ["a.mp4"; "b.mp4"; "c.mp4"] [] (env_with [] [" 1"; "2"; "1"; "x"]) in
  fst out = Value ["a.mp4"; "c.mp4"] /\ stdin (snd out) = ["x"].
Proof.
  destruct (the_links_answered_yes_are_selected ["a.mp4"; "b.mp4"; "c.mp4"]
              (env_with [] [" 1"; "2"; "1"; "x"])) as [_ H].
  apply (H [" 1"; "2"; "1"] ["x"]).
  - reflexivity.
  - reflexivity.
  - repeat constructor.
  - cbn. lia.
Defined.

End ScriptInstances.
